(** * Guild activity tracker: session reconstruction, tier classification
      and promotion rules of [activity_tracker.py]

    The development embeds [ActivityTracker] (src/activity_tracker.py) as
    Rocq functions and proves properties of its session reconstruction
    (the loop of [calculate_activity]), of the three activity tiers and of
    the two promotion lists.

    Modelling conventions.
    - A [datetime] is an instant, counted in microseconds (the resolution of
      Python's [datetime]) from a fixed epoch; a [timedelta] is a signed
      number of microseconds.  Python normalises a timedelta into
      [days], [seconds] (0 <= seconds < 86400) and [microseconds]; the
      attribute [.seconds] read by [is_time_within_mins] is [td_seconds].
    - Python exceptions are values of [exn]; a computation that may raise
      returns a [result].
    - [self.activity] and the other dictionaries are insertion-ordered
      association lists ([dict]), as Python dictionaries keep insertion
      order and the order of their keys decides the order of the tiers.
    - The text grammars of the three input files (JSON log, roster and
      level text files) are not part of this development: a file is either
      unreadable or holds the value its loader returns; the timestamps of
      the log are taken as parsed, all with a time zone.
    - Instants are unbounded: the [OverflowError] of Python at the two ends
      of its calendar is not modelled.
    - A Python [set] iterates in an order that its hash table decides; for
      strings it changes with the hash seed of the process.  The set of
      grace-period candidates is kept as the list of its elements in the
      order they were added, and the order in which [sorted] reads it is a
      rearrangement that the environment of the run supplies ([SetOrder]);
      it decides the order of candidates with equal last joins in the
      grace tier.
    - Strings are sequences of bytes; on UTF-8 text their order is the
      order of code points that [sorted] uses. *)

From Stdlib Require Import ZArith List String Bool Lia Sorted Permutation QArith.
Import ListNotations.
Open Scope string_scope.
Open Scope list_scope.
Open Scope Z_scope.

Set Implicit Arguments.

(* ================================================================== *)
(** ** Exceptions and results *)

Inductive exn : Type :=
| IndexError
| TypeError
| KeyError (key : string)
| OSError (filename : string).

Inductive result (A : Type) : Type :=
| Ok (a : A)
| Raise (e : exn).

Arguments Ok {A} a.
Arguments Raise {A} e.

Definition bind {A B : Type} (m : result A) (k : A -> result B) : result B :=
  match m with
  | Ok a => k a
  | Raise e => Raise e
  end.

Notation "x <- m ;; k" := (bind m (fun x => k))
  (at level 61, m at next level, right associativity).

(* ================================================================== *)
(** ** Time *)

Definition datetime := Z.
Definition timedelta := Z.

Definition US_PER_SECOND : Z := 1000000.
Definition US_PER_DAY : Z := 86400 * US_PER_SECOND.

(** [datetime.timedelta(minutes=m)] *)
Definition timedelta_minutes (m : Z) : timedelta := m * 60 * US_PER_SECOND.

(** [diff.days] and [diff.seconds] of a normalised timedelta. *)
Definition td_days (diff : timedelta) : Z := diff / US_PER_DAY.
Definition td_seconds (diff : timedelta) : Z := (diff mod US_PER_DAY) / US_PER_SECOND.

(** What the arithmetic would be with [diff.total_seconds()]; used only to
    state what "span" means in the claims. *)
Definition span_minutes_at_least (start end_ : datetime) (mins : Z) : Prop :=
  timedelta_minutes mins <= end_ - start.

(* ================================================================== *)
(** ** Insertion-ordered dictionaries and lists used as sets *)

Definition dict (V : Type) : Type := list (string * V).

Fixpoint dict_get {V} (d : dict V) (k : string) : option V :=
  match d with
  | [] => None
  | (k', v) :: d' => if String.eqb k k' then Some v else dict_get d' k
  end.

(** [d[k] = v]: an existing key keeps its position, a new key goes last. *)
Fixpoint dict_set {V} (d : dict V) (k : string) (v : V) : dict V :=
  match d with
  | [] => [(k, v)]
  | (k', v') :: d' =>
      if String.eqb k k' then (k', v) :: d' else (k', v') :: dict_set d' k v
  end.

Definition dict_keys {V} (d : dict V) : list string := map fst d.
Definition dict_values {V} (d : dict V) : list V := map snd d.

(** [x in l] for a list of strings. *)
Definition mem (x : string) (l : list string) : bool := existsb (String.eqb x) l.

(** [k in d] for a dictionary. *)
Definition dict_mem {V} (k : string) (d : dict V) : bool :=
  match dict_get d k with Some _ => true | None => false end.

(** [s.add(x)] on a set kept as the duplicate-free list of its elements,
    in the order they were added. *)
Definition set_add (x : string) (s : list string) : list string :=
  if mem x s then s else s ++ [x].

(** The order in which a set of strings is iterated.  It is decided by the
    hash table: by the hashes of the elements, which change with the hash
    seed of the process, and by the order in which they were added.  All
    the program can rely on is that each element comes once. *)
Record SetOrder : Type := mkSetOrder {
  iter : list string -> list string;
  iter_perm : forall s, Permutation (iter s) s
}.

(** Two orders one may meet: the elements as they were added, and the
    other way round. *)
Definition insertion_order : SetOrder :=
  mkSetOrder (fun s => s) (@Permutation_refl string).

Definition reverse_order : SetOrder :=
  mkSetOrder (@rev string) (fun s => Permutation_sym (Permutation_rev s)).

(** [l[-1]] when [l] is not empty. *)
Fixpoint last_opt {A} (l : list A) : option A :=
  match l with
  | [] => None
  | [x] => Some x
  | _ :: l' => last_opt l'
  end.

(* ================================================================== *)
(** ** Data model *)

Record Log : Type := mkLog {
  log_timestamp : datetime;
  log_ign : string;
  log_is_join : bool;
  log_is_guild_join : bool
}.

(** The value stored under each ign in [self.activity]. *)
Record ActivityInfo : Type := mkInfo {
  last_join : option datetime;
  last_leave : option datetime;
  last_long_join : list datetime
}.

Definition new_info : ActivityInfo := mkInfo None None [].

Definition MINS_FOR_LONG_JOIN : Z := 30.
Definition MINS_FOR_RECONNECT_TIMEOUT : Z := 60 * 2.
Definition MINS_FOR_JOIN_LOG_TIMEOUT : Z := 60 * 24.
Definition MINS_FOR_ACTIVITY_RANGE : Z := 60 * 24 * 60.
Definition NUM_LONG_JOINS_FOR_ACTIVITY : nat := 2.

Definition MINS_FOR_RAW_PROMOTION_ACTIVITY_RANGE : Z := 60 * 24 * 7.
Definition NUM_LONG_JOINS_FOR_RAW_PROMOTION : nat := 1.
Definition MINS_FOR_RAW_JOIN_DATE_PROMOTION_RANGE : Z := 60 * 24 * 30.

Definition MINS_FOR_BOILED_PROMOTION_ACTIVITY_RANGE : Z := 60 * 24 * 7.
Definition NUM_LONG_JOINS_FOR_BOILED_PROMOTION : nat := 1.
Definition MINS_FOR_BOILED_JOIN_DATE_PROMOTION_RANGE : Z := 60 * 24 * 91.

Definition GUILD_LIST_FILENAME : string := "data/guild_list.txt".
Definition SB_LEVEL_LIST_FILENAME : string := "data/sb_level_list.txt".

(** [is_time_within_mins(start, end, mins)]: [end - start] raises
    [TypeError] when [start] is [None]. *)
Definition is_time_within_mins (start : option datetime) (end_ : datetime)
    (mins : Z) : result bool :=
  match start with
  | None => Raise TypeError
  | Some s => Ok (td_seconds (end_ - s) <? 60 * mins)
  end.

Definition is_long_join (start : option datetime) (end_ : datetime) : result bool :=
  is_time_within_mins start end_ MINS_FOR_LONG_JOIN.

(* ================================================================== *)
(** ** Session reconstruction: the body of the loop over the log *)

(** The state the loop of [calculate_activity] updates: [self.activity],
    [self.known_guild_join_dates] and the local set
    [igns_in_grace_period]. *)
Record LoopState : Type := mkLoop {
  activity : dict ActivityInfo;
  known_guild_join_dates : dict datetime;
  igns_in_grace_period : list string
}.

(** [if ign not in self.activity: self.activity[ign] = {...}] followed by
    the lookup [self.activity[ign]]. *)
Definition setdefault_info (act : dict ActivityInfo) (ign : string)
    : dict ActivityInfo * ActivityInfo :=
  match dict_get act ign with
  | Some info => (act, info)
  | None => (dict_set act ign new_info, new_info)
  end.

(** The guard of the assignment [last_join := timestamp] on a join:
    [last_leave is None or not within(last_leave, t, RECONNECT)
     or within(last_join, t, JOIN_LOG)], with Python's short-circuit. *)
Definition join_updates_last_join (info : ActivityInfo) (t : datetime) : result bool :=
  match last_leave info with
  | None => Ok true
  | Some _ =>
      recent_leave <- is_time_within_mins (last_leave info) t MINS_FOR_RECONNECT_TIMEOUT ;;
      if negb recent_leave then Ok true
      else is_time_within_mins (last_join info) t MINS_FOR_JOIN_LOG_TIMEOUT
  end.

(** The guard of the append on a leave:
    [len(long) == 0 or long[-1] != last_join]. *)
Definition not_last_appended (long : list datetime) (j : datetime) : bool :=
  match last_opt long with
  | None => true
  | Some x => negb (x =? j)
  end.

Definition process_log (furthest_log_time activity_grace_period_end : datetime)
    (st : LoopState) (log : Log) : result LoopState :=
  let ign := log_ign log in
  let '(act, info) := setdefault_info (activity st) ign in
  let timestamp := log_timestamp log in
  if log_is_join log then
    upd <- join_updates_last_join info timestamp ;;
    let info1 :=
      if upd then mkInfo (Some timestamp) (last_leave info) (last_long_join info)
      else info in
    let act1 := dict_set act ign info1 in
    if log_is_guild_join log then
      Ok (mkLoop act1
            (dict_set (known_guild_join_dates st) ign timestamp)
            (if timestamp >=? activity_grace_period_end
             then set_add ign (igns_in_grace_period st)
             else igns_in_grace_period st))
    else
      Ok (mkLoop act1 (known_guild_join_dates st) (igns_in_grace_period st))
  else
    let j := match last_join info with
             | None => furthest_log_time
             | Some j => j
             end in
    within <- is_time_within_mins (Some j) timestamp MINS_FOR_LONG_JOIN ;;
    let long :=
      if negb within && not_last_appended (last_long_join info) j
      then last_long_join info ++ [j]
      else last_long_join info in
    Ok (mkLoop (dict_set act ign (mkInfo (Some j) (Some timestamp) long))
          (known_guild_join_dates st) (igns_in_grace_period st)).

(** [for log in logs: ...]; an exception stops the loop and leaves the
    state reached so far (an entry that raises has not changed it). *)
Fixpoint parse_logs (furthest_log_time activity_grace_period_end : datetime)
    (st : LoopState) (logs : list Log) : LoopState * option exn :=
  match logs with
  | [] => (st, None)
  | log :: rest =>
      match process_log furthest_log_time activity_grace_period_end st log with
      | Ok st' => parse_logs furthest_log_time activity_grace_period_end st' rest
      | Raise e => (st, Some e)
      end
  end.

(* ================================================================== *)
(** ** Sorting, as [sorted] does it (stable) *)

(** [sorted(..., key=k, reverse=True)] on already computed keys: largest
    key first, equal keys in their original order. *)
Fixpoint insert_desc (x : datetime * string) (l : list (datetime * string))
    : list (datetime * string) :=
  match l with
  | [] => [x]
  | y :: l' => if fst x <? fst y then y :: insert_desc x l' else x :: y :: l'
  end.

Definition sort_desc (l : list (datetime * string)) : list (datetime * string) :=
  fold_right insert_desc [] l.

(** [sorted(l)] on strings: ascending, by code points. *)
Fixpoint insert_str (x : string) (l : list string) : list string :=
  match l with
  | [] => [x]
  | y :: l' => if String.ltb y x then y :: insert_str x l' else x :: y :: l'
  end.

Definition sorted_str (l : list string) : list string := fold_right insert_str [] l.

(** The keys [self.activity[ign][LAST_JOIN_KEY]], computed for every
    element before any comparison; a missing ign raises [KeyError]. *)
Fixpoint last_join_keys (act : dict ActivityInfo) (igns : list string)
    : result (list (option datetime * string)) :=
  match igns with
  | [] => Ok []
  | ign :: rest =>
      match dict_get act ign with
      | None => Raise (KeyError ign)
      | Some info =>
          ks <- last_join_keys act rest ;;
          Ok ((last_join info, ign) :: ks)
      end
  end.

Fixpoint all_some (ks : list (option datetime * string))
    : option (list (datetime * string)) :=
  match ks with
  | [] => Some []
  | (Some k, x) :: rest =>
      match all_some rest with
      | Some r => Some ((k, x) :: r)
      | None => None
      end
  | (None, _) :: _ => None
  end.

(** [sorted(igns, key=lambda ign: self.activity[ign][LAST_JOIN_KEY],
    reverse=True)].  Comparing [None] with anything raises [TypeError];
    with fewer than two elements nothing is compared. *)
Definition sorted_by_last_join (act : dict ActivityInfo) (igns : list string)
    : result (list string) :=
  ks <- last_join_keys act igns ;;
  match all_some ks with
  | Some ks' => Ok (map snd (sort_desc ks'))
  | None => if (List.length ks <=? 1)%nat then Ok (map snd ks) else Raise TypeError
  end.

(* ================================================================== *)
(** ** Activity tiers *)

Definition long_join_count (act : dict ActivityInfo) (ign : string) : nat :=
  match dict_get act ign with
  | Some info => List.length (last_long_join info)
  | None => 0%nat
  end.

(** [get_active_igns] *)
Definition get_active_igns (act : dict ActivityInfo) : list string :=
  filter (fun ign => (NUM_LONG_JOINS_FOR_ACTIVITY <=? long_join_count act ign)%nat)
         (dict_keys act).

Record Tiers : Type := mkTiers {
  active_igns : list string;
  grace_period_igns : list string;
  inactive_igns : list string
}.

(** [guild_list = [ign for igns in self.guild_list_dict.values() for ign in igns]] *)
Definition flatten_guild_list (guild_list_dict : dict (list string)) : list string :=
  List.concat (dict_values guild_list_dict).

(** The classification of [calculate_activity], from "Sort igns in each
    category by last join time" to the last filter. *)
Definition classify (act : dict ActivityInfo) (in_grace_period : list string)
    (guild_list : list string) : result Tiers :=
  active0 <- sorted_by_last_join act (get_active_igns act) ;;
  seen_inactive <-
    sorted_by_last_join act
      (filter (fun ign => negb (mem ign active0)) (dict_keys act)) ;;
  let inactive0 :=
    seen_inactive ++ sorted_str (filter (fun ign => negb (dict_mem ign act)) guild_list) in
  grace0 <- sorted_by_last_join act in_grace_period ;;
  (* Remove igns that aren't currently in the guild *)
  let active1 := filter (fun ign => mem ign guild_list) active0 in
  let inactive1 := filter (fun ign => mem ign guild_list) inactive0 in
  let grace1 := filter (fun ign => mem ign guild_list) grace0 in
  (* Remove active igns from the grace period list, and grace period igns
     from the inactive list *)
  let grace2 := filter (fun ign => negb (mem ign active1)) grace1 in
  let inactive2 := filter (fun ign => negb (mem ign grace2)) inactive1 in
  Ok (mkTiers active1 grace2 inactive2).

(* ================================================================== *)
(** ** Promotion lists *)

(** A Python float, as far as comparisons see it. *)
Inductive pyfloat : Type :=
| Finite (q : Q)
| PosInf
| NegInf
| NaN.

(** [x >= n] for a float [x] and an integer [n]. *)
Definition float_ge (x : pyfloat) (n : Z) : bool :=
  match x with
  | Finite q => Qle_bool (inject_Z n) q
  | PosInf => true
  | NegInf | NaN => false
  end.

Definition SCRAMBLED_SB_LEVEL : Z := 240.

(** [l[-n:]] *)
Definition slice_last {A} (n : nat) (l : list A) : list A :=
  match n with
  | O => l
  | _ => skipn (List.length l - n) l
  end.

(** [sum([t < start for t in l])] *)
Definition count_before (start : datetime) (l : list datetime) : Z :=
  fold_right (fun t acc => (if t <? start then 1 else 0) + acc) 0 l.

(** [ign not in known or known[ign] <= join_date_end] *)
Definition tenure_ok (known : dict datetime) (join_date_end : datetime)
    (ign : string) : bool :=
  match dict_get known ign with
  | None => true
  | Some d => d <=? join_date_end
  end.

(** A list comprehension whose condition may raise. *)
Fixpoint filter_r {A} (p : A -> result bool) (l : list A) : result (list A) :=
  match l with
  | [] => Ok []
  | x :: rest =>
      b <- p x ;;
      r <- filter_r p rest ;;
      Ok (if b then x :: r else r)
  end.

(** The recency condition of both promotion rules, evaluated only for an
    ign of [active_igns] (Python's [and]); [self.activity[ign]] raises
    [KeyError] for an unknown ign. *)
Definition recent_long_joins (act : dict ActivityInfo) (n : nat)
    (activity_range_start : datetime) (ign : string) : result bool :=
  match dict_get act ign with
  | None => Raise (KeyError ign)
  | Some info =>
      Ok (count_before activity_range_start (slice_last n (last_long_join info)) =? 0)
  end.

Definition RAW_RANK : string := "Raw Egg".
Definition BOILED_RANK : string := "Hard Boiled Egg".

Definition get_raw_to_boiled_promotion_igns (act : dict ActivityInfo)
    (guild_list_dict : dict (list string)) (active : list string)
    (known : dict datetime) (nearest_log_time today : datetime)
    : result (list string) :=
  match dict_get guild_list_dict RAW_RANK with
  | None => Raise (KeyError RAW_RANK)
  | Some raw_igns =>
      let activity_range_start :=
        nearest_log_time - timedelta_minutes MINS_FOR_RAW_PROMOTION_ACTIVITY_RANGE in
      let join_date_end :=
        today - timedelta_minutes MINS_FOR_RAW_JOIN_DATE_PROMOTION_RANGE in
      filter_r (fun ign =>
          if mem ign active then
            recent <- recent_long_joins act NUM_LONG_JOINS_FOR_RAW_PROMOTION
                        activity_range_start ign ;;
            Ok (recent && tenure_ok known join_date_end ign)
          else Ok false)
        raw_igns
  end.

Definition get_boiled_to_scrambled_promotion_igns (act : dict ActivityInfo)
    (guild_list_dict : dict (list string)) (sb_level_dict : dict pyfloat)
    (active : list string) (known : dict datetime)
    (nearest_log_time today : datetime) : result (list string) :=
  match dict_get guild_list_dict BOILED_RANK with
  | None => Raise (KeyError BOILED_RANK)
  | Some boiled_igns =>
      let activity_range_start :=
        nearest_log_time - timedelta_minutes MINS_FOR_BOILED_PROMOTION_ACTIVITY_RANGE in
      let join_date_end :=
        today - timedelta_minutes MINS_FOR_BOILED_JOIN_DATE_PROMOTION_RANGE in
      filter_r (fun ign =>
          if mem ign active then
            recent <- recent_long_joins act NUM_LONG_JOINS_FOR_BOILED_PROMOTION
                        activity_range_start ign ;;
            Ok (recent && tenure_ok known join_date_end ign
                && float_ge (match dict_get sb_level_dict ign with
                             | Some x => x
                             | None => Finite (inject_Z (-1))
                             end) SCRAMBLED_SB_LEVEL)
          else Ok false)
        boiled_igns
  end.

(* ================================================================== *)
(** ** The environment of a run, and what a run prints *)

(** What [open] and the loader of a file give. *)
Inductive file (A : Type) : Type :=
| Unreadable
| Contents (a : A).

Arguments Unreadable {A}.
Arguments Contents {A} a.

Record Env : Type := mkEnv {
  (** [json.load] of the log file at a path *)
  read_log_file : string -> file (list Log);
  (** [load_guild_list]: rank -> igns, in the order of the file *)
  guild_list_file : file (dict (list string));
  (** [load_sb_level_list] *)
  sb_level_file : file (dict pyfloat);
  (** [datetime.datetime.now()] at its k-th call in the run *)
  clock : nat -> datetime;
  (** [os.path.getmtime] of the two directory files *)
  guild_list_mtime : datetime;
  sb_level_mtime : datetime;
  (** the iteration order of sets in the process of the run *)
  set_order : SetOrder
}.

(** [get_igns_by_rank] *)
Definition get_igns_by_rank (guild_list_dict : dict (list string))
    (igns : list string) : dict (list string) :=
  map (fun rank_igns =>
         (fst rank_igns, filter (fun ign => mem ign (snd rank_igns)) igns))
      guild_list_dict.

(** [{ign: self.activity[ign] if ign in self.activity else None for ign in igns}] *)
Definition rows_of (act : dict ActivityInfo) (igns : list string)
    : dict (option ActivityInfo) :=
  fold_left (fun d ign => dict_set d ign (dict_get act ign)) igns [].

(** The data [print_activity_log] renders (the layout of the text is not
    modelled). *)
Record Report : Type := mkReport {
  rep_active_by_rank : dict (list string);
  rep_active_rows : dict (option ActivityInfo);
  rep_grace_by_rank : dict (list string);
  rep_grace_rows : dict (option ActivityInfo);
  rep_inactive_by_rank : dict (list string);
  rep_inactive_rows : dict (option ActivityInfo);
  (** raw to boiled: the igns of the warning, then the printed list *)
  rep_raw_unknown_join_igns : list string;
  rep_raw_printed : list string;
  (** boiled to scrambled: the igns of the warning, then the printed list *)
  rep_boiled_unknown_join_igns : list string;
  rep_boiled_printed : list string
}.

(** [unknown_join_igns = [ign for ign in promotion if ign not in known]] *)
Definition unknown_join_igns (known : dict datetime) (promotion : list string)
    : list string :=
  filter (fun ign => negb (dict_mem ign known)) promotion.

(** [[ign for ign in promotion if ign not in unknown_join_igns]] *)
Definition printed_promotion (known : dict datetime) (promotion : list string)
    : list string :=
  filter (fun ign => negb (mem ign (unknown_join_igns known promotion))) promotion.

Definition print_activity_log (act : dict ActivityInfo)
    (guild_list_dict : dict (list string)) (known : dict datetime)
    (tiers : Tiers) (raw boiled : list string) : Report :=
  mkReport
    (get_igns_by_rank guild_list_dict (active_igns tiers))
    (rows_of act (active_igns tiers))
    (get_igns_by_rank guild_list_dict (grace_period_igns tiers))
    (rows_of act (grace_period_igns tiers))
    (get_igns_by_rank guild_list_dict (inactive_igns tiers))
    (rows_of act (inactive_igns tiers))
    (unknown_join_igns known raw) (printed_promotion known raw)
    (unknown_join_igns known boiled) (printed_promotion known boiled).

Inductive Output : Type :=
| PrintGuildList (guild_list_dict : dict (list string))
| PrintActivityLog (report : Report)
| PrintDisclaimers (furthest nearest : datetime) (days : Z)
    (guild_list_stale sb_level_list_stale : bool).

(* ================================================================== *)
(** ** [ActivityTracker] and [calculate_activity] *)

(** The only attribute a tracker has before [calculate_activity] runs and
    the only one a run reads before assigning it. *)
Record Tracker : Type := mkTracker {
  self_activity : dict ActivityInfo
}.

(** [_reset], which only [__init__] calls. *)
Definition _reset (self : Tracker) : Tracker := mkTracker [].

(** [ActivityTracker()] *)
Definition ActivityTracker : Tracker := mkTracker [].

(** The attributes a complete run of [calculate_activity] has assigned. *)
Record Outcome : Type := mkOutcome {
  furthest_log_time : datetime;
  nearest_log_time : datetime;
  out_known_guild_join_dates : dict datetime;
  out_igns_in_grace_period : list string;
  out_tiers : Tiers;
  raw_to_boiled_promotion_igns : list string;
  boiled_to_scrambled_promotion_igns : list string
}.

(** Lines "Sort igns ..." to "Get promotion lists" of
    [calculate_activity], once the loop over the log is over. *)
Definition classify_and_promote (env : Env) (guild_list_dict : dict (list string))
    (sb_level_dict : dict pyfloat) (furthest nearest : datetime)
    (st : LoopState) : result Outcome :=
  tiers <- classify (activity st) (iter (set_order env) (igns_in_grace_period st))
             (flatten_guild_list guild_list_dict) ;;
  raw <- get_raw_to_boiled_promotion_igns (activity st) guild_list_dict
           (active_igns tiers) (known_guild_join_dates st) nearest (clock env 0%nat) ;;
  boiled <- get_boiled_to_scrambled_promotion_igns (activity st) guild_list_dict
              sb_level_dict (active_igns tiers) (known_guild_join_dates st)
              nearest (clock env 1%nat) ;;
  Ok (mkOutcome furthest nearest (known_guild_join_dates st)
        (igns_in_grace_period st) tiers raw boiled).

(** A run: what it prints, the tracker it leaves, and its outcome or the
    exception that ends it. *)
Definition calculate_activity (env : Env) (self : Tracker) (log_file : string)
    : list Output * Tracker * result Outcome :=
  match read_log_file env log_file with
  | Unreadable => ([], self, Raise (OSError log_file))
  | Contents logs =>
  match guild_list_file env with
  | Unreadable => ([], self, Raise (OSError GUILD_LIST_FILENAME))
  | Contents guild_list_dict =>
  let printed := [PrintGuildList guild_list_dict] in
  match sb_level_file env with
  | Unreadable => (printed, self, Raise (OSError SB_LEVEL_LIST_FILENAME))
  | Contents sb_level_dict =>
  match logs with
  | [] => (printed, self, Raise IndexError)        (* logs[0] *)
  | first :: _ =>
  let furthest := log_timestamp first in
  let nearest := log_timestamp (last logs first) in
  let activity_grace_period_end :=
    furthest - timedelta_minutes MINS_FOR_ACTIVITY_RANGE in
  let '(st, raised) :=
    parse_logs furthest activity_grace_period_end
      (mkLoop (self_activity self) [] []) logs in
  let self' := mkTracker (activity st) in
  match raised with
  | Some e => (printed, self', Raise e)
  | None =>
  match classify_and_promote env guild_list_dict sb_level_dict furthest nearest st with
  | Raise e => (printed, self', Raise e)
  | Ok out =>
      let today := clock env 2%nat in
      (printed ++
       [PrintActivityLog
          (print_activity_log (activity st) guild_list_dict
             (known_guild_join_dates st) (out_tiers out)
             (raw_to_boiled_promotion_igns out)
             (boiled_to_scrambled_promotion_igns out));
        PrintDisclaimers furthest nearest (td_days (nearest - furthest))
          (td_days (today - guild_list_mtime env) >? 1)
          (td_days (today - sb_level_mtime env) >? 1)],
       self', Ok out)
  end end end end end end.

(* ================================================================== *)
(** ** Notions used in the statements, and sample data *)

Unset Implicit Arguments.

(** [process_log] in two parts ([process_log_unfold] proves the
    decomposition): what one entry does to the record of its ign ... *)
Definition next_info (furthest : datetime) (info : ActivityInfo) (log : Log)
    : result ActivityInfo :=
  let t := log_timestamp log in
  if log_is_join log then
    upd <- join_updates_last_join info t ;;
    Ok (if upd then mkInfo (Some t) (last_leave info) (last_long_join info) else info)
  else
    let j := match last_join info with None => furthest | Some j => j end in
    Ok (mkInfo (Some j) (Some t)
          (if negb (td_seconds (t - j) <? 60 * MINS_FOR_LONG_JOIN)
              && not_last_appended (last_long_join info) j
           then last_long_join info ++ [j] else last_long_join info)).

(** ... and what it does to the guild-join dates and to the set of
    grace-period candidates. *)
Definition next_known (st : LoopState) (log : Log) : dict datetime :=
  if log_is_join log && log_is_guild_join log
  then dict_set (known_guild_join_dates st) (log_ign log) (log_timestamp log)
  else known_guild_join_dates st.

Definition next_grace (grace_end : datetime) (st : LoopState) (log : Log) : list string :=
  if log_is_join log && log_is_guild_join log
     && (log_timestamp log >=? grace_end)
  then set_add (log_ign log) (igns_in_grace_period st)
  else igns_in_grace_period st.

(** Every record has a last join: what a fresh tracker satisfies and every
    entry preserves, and what keeps [None] away from the time arithmetic
    and from the sort keys. *)
Definition has_last_join (info : ActivityInfo) : Prop :=
  exists j, last_join info = Some j.

(** A well-formed [self.activity]: every record has a last join. *)
Definition wf_activity (act : dict ActivityInfo) : Prop :=
  forall k info, dict_get act k = Some info -> has_last_join info.

(** A log in chronological order, oldest entry first (equal timestamps
    allowed). *)
Definition chronological (logs : list Log) : Prop :=
  Sorted (fun a b => log_timestamp a <= log_timestamp b) logs.

(** [b] is at most the timestamp of the next entry, when there is one. *)
Definition not_before (b : datetime) (logs : list Log) : Prop :=
  match logs with
  | [] => True
  | log :: _ => b <= log_timestamp log
  end.

(** A record whose long joins are strictly increasing and all at or before
    its last join, itself at or before [b]. *)
Record info_ordered (b : datetime) (info : ActivityInfo) : Prop := mkOrdered {
  ordered_long : StronglySorted Z.lt (last_long_join info);
  ordered_join : forall x, In x (last_long_join info) ->
                 exists j, last_join info = Some j /\ x <= j;
  ordered_bound : forall j, last_join info = Some j -> j <= b
}.

(** The invariant of the loop over a chronological log; [b] is the
    timestamp of the last entry processed. *)
Definition ordered_activity (b : datetime) (act : dict ActivityInfo) : Prop :=
  forall k info, dict_get act k = Some info -> info_ordered b info.

(** The loop state of a run that started from a well-formed tracker. *)
Definition wf_loop (st : LoopState) : Prop :=
  wf_activity (activity st) /\
  forall x, In x (igns_in_grace_period st) -> In x (dict_keys (activity st)).

(** The state in which [calculate_activity] enters its loop. *)
Definition fresh_loop (self : Tracker) : LoopState := mkLoop (self_activity self) [] [].

(** [activity_grace_period_end], from [furthest_log_time]. *)
Definition grace_period_end (furthest : datetime) : datetime :=
  furthest - timedelta_minutes MINS_FOR_ACTIVITY_RANGE.

(** Sample data: 2024-01-01 12:00 UTC, and the instant [k] minutes later. *)
Definition sample_T0 : datetime := 1704110400000000.

Definition at_min (k : Z) : datetime := sample_T0 + timedelta_minutes k.

(** A roster with the two ranks the promotion rules look up. *)
Definition sample_roster : dict (list string) :=
  [("Raw Egg", ["X"; "Z"]); ("Hard Boiled Egg", ["Y"])].

(** Every log path holds [logs]; no level is known; the clock stands at
    [now]; sets are iterated in the order their elements were added. *)
Definition sample_env (logs : list Log) (now : datetime) : Env :=
  mkEnv (fun _ => Contents logs) (Contents sample_roster) (Contents [])
        (fun _ => now) now now insertion_order.

(** X has two long sessions, Y joins the guild, W is not on the roster and
    Z is on the roster but not in the log. *)
Definition sample_log : list Log :=
  [ mkLog (at_min 0) "X" true false;
    mkLog (at_min 40) "X" false false;
    mkLog (at_min 60) "X" true false;
    mkLog (at_min 100) "X" false false;
    mkLog (at_min 101) "Y" true true;
    mkLog (at_min 102) "W" true false ].

(** The tiers cover the roster and nothing else, and no ign is in two of
    them. *)
Definition partition_of (roster : list string) (t : Tiers) : Prop :=
  (forall x, In x roster <->
             In x (active_igns t) \/ In x (grace_period_igns t) \/ In x (inactive_igns t))
  /\ (forall x, In x (active_igns t) -> ~ In x (grace_period_igns t))
  /\ (forall x, In x (active_igns t) -> ~ In x (inactive_igns t))
  /\ (forall x, In x (grace_period_igns t) -> ~ In x (inactive_igns t)).

(** An environment whose roster file cannot be read. *)
Definition no_roster_env : Env :=
  mkEnv (fun _ => Contents sample_log) Unreadable (Contents [])
        (fun _ => at_min 200) (at_min 200) (at_min 200) insertion_order.

(** [t] is no earlier than 60 days ([MINS_FOR_ACTIVITY_RANGE]) before
    [reference]. *)
Definition within_grace_window_of (reference t : datetime) : Prop :=
  reference - timedelta_minutes MINS_FOR_ACTIVITY_RANGE <= t.

(** X joins the guild at minute 0; the log ends 100 days later. *)
Definition grace_log : list Log :=
  [ mkLog (at_min 0) "X" true true;
    mkLog (at_min (100 * 1440)) "Y" true false ].

(** Both return, or both raise the same exception. *)
Definition same_raise {A B} (r1 : result A) (r2 : result B) : Prop :=
  match r1, r2 with
  | Ok _, Ok _ => True
  | Raise e1, Raise e2 => e1 = e2
  | _, _ => False
  end.

(** The tiers of an outcome, or the exception raised instead. *)
Definition tiers_of (r : result Outcome) : result Tiers :=
  out <- r ;; Ok (out_tiers out).

(** The two promotion lists of an outcome, or the exception raised
    instead. *)
Definition promotions_of (r : result Outcome) : result (list string * list string) :=
  out <- r ;;
  Ok (raw_to_boiled_promotion_igns out, boiled_to_scrambled_promotion_igns out).

(** The same active and inactive tiers and the same igns in the
    grace-period tier, in whatever order; or the same exception. *)
Definition same_tiers_but_grace_order (r1 r2 : result Tiers) : Prop :=
  match r1, r2 with
  | Ok t1, Ok t2 =>
      active_igns t1 = active_igns t2
      /\ Permutation (grace_period_igns t1) (grace_period_igns t2)
      /\ inactive_igns t1 = inactive_igns t2
  | Raise e1, Raise e2 => e1 = e2
  | _, _ => False
  end.

(** Two environments in which sets are iterated in the same order: two
    runs in one process, or in two processes with the same hash seed. *)
Definition same_set_order (env1 env2 : Env) : Prop :=
  forall s, iter (set_order env1) s = iter (set_order env2) s.

(** As [sample_env], in a process that iterates sets the other way
    round. *)
Definition reversed_env (logs : list Log) (now : datetime) : Env :=
  mkEnv (fun _ => Contents logs) (Contents sample_roster) (Contents [])
        (fun _ => now) now now reverse_order.

(** X and Y join the guild at the same instant. *)
Definition tied_log : list Log :=
  [ mkLog (at_min 0) "X" true true;
    mkLog (at_min 0) "Y" true true ].

(** Y joins first; the first entry of X is a leave, followed by a join. *)
Definition rerun_log : list Log :=
  [ mkLog (at_min 0) "Y" true false;
    mkLog (at_min 40) "X" false false;
    mkLog (at_min 50) "X" true false ].

(** X joins the guild at minute 0 and has two long sessions. *)
Definition tenure_log : list Log :=
  [ mkLog (at_min 0) "X" true true;
    mkLog (at_min 40) "X" false false;
    mkLog (at_min 60) "X" true false;
    mkLog (at_min 100) "X" false false ].

(** The reconnect scenario of C1: join at [T0], leave 10 minutes later,
    join 1 minute after that, leave at [T0] + 50 minutes. *)
Definition reconnect_log (T0 : datetime) (ign : string) : list Log :=
  [ mkLog T0 ign true false;
    mkLog (T0 + timedelta_minutes 10) ign false false;
    mkLog (T0 + timedelta_minutes 11) ign true false;
    mkLog (T0 + timedelta_minutes 50) ign false false ].

(** A session that lasts one day and ten minutes. *)
Definition overnight_log (T0 : datetime) (ign : string) : list Log :=
  [ mkLog T0 ign true false;
    mkLog (T0 + timedelta_minutes 1450) ign false false ].

(* ================================================================== *)
(** ** Further notions: what the log says about an ign *)

(** The record of an ign, or the empty record its first entry starts
    from. *)
Definition record_of (act : dict ActivityInfo) (ign : string) : ActivityInfo :=
  match dict_get act ign with
  | Some info => info
  | None => new_info
  end.

(** [log] is a join entry of [ign] at time [t]. *)
Definition join_entry_at (ign : string) (t : datetime) (log : Log) : Prop :=
  log_ign log = ign /\ log_is_join log = true /\ log_timestamp log = t.

(** [t] is [furthest] or the time of a join entry of [ign] in [logs]. *)
Definition from_log (furthest : datetime) (logs : list Log) (ign : string)
    (t : datetime) : Prop :=
  t = furthest \/ exists log, In log logs /\ join_entry_at ign t log.

(** [log] is an entry of [ign] that joins the guild. *)
Definition is_guild_join_of (ign : string) (log : Log) : bool :=
  String.eqb ign (log_ign log) && log_is_join log && log_is_guild_join log.

(** The time of the last entry of [logs] by which [ign] joins the guild. *)
Fixpoint last_guild_join (logs : list Log) (ign : string) : option datetime :=
  match logs with
  | [] => None
  | log :: rest =>
      match last_guild_join rest ign with
      | Some t => Some t
      | None => if is_guild_join_of ign log then Some (log_timestamp log) else None
      end
  end.

(** The long joins of [info'] continue those of [info]. *)
Definition extends_history (info info' : ActivityInfo) : Prop :=
  exists more, last_long_join info' = last_long_join info ++ more.

(* ================================================================== *)
(** ** Further notions: the order and the content of the tiers *)

(** Both igns have a record with a last join, and [a] joined last no
    earlier than [b]. *)
Definition joined_no_earlier (act : dict ActivityInfo) (a b : string) : Prop :=
  exists ia ib ja jb,
    dict_get act a = Some ia /\ last_join ia = Some ja
    /\ dict_get act b = Some ib /\ last_join ib = Some jb
    /\ jb <= ja.

(** [a] is before [b], or equal to it, in the order of [sorted] on
    strings. *)
Definition alphabetical (a b : string) : Prop := String.leb a b = true.

(** A key computed for the sort is the last join on record. *)
Definition keyed (act : dict ActivityInfo) (p : datetime * string) : Prop :=
  exists info, dict_get act (snd p) = Some info /\ last_join info = Some (fst p).

(** Two long sessions of X, then two of Y that start later. *)
Definition order_log : list Log :=
  [ mkLog (at_min 0) "X" true false;
    mkLog (at_min 10) "Y" true false;
    mkLog (at_min 40) "X" false false;
    mkLog (at_min 50) "Y" false false;
    mkLog (at_min 60) "X" true false;
    mkLog (at_min 100) "X" false false;
    mkLog (at_min 200) "Y" true false;
    mkLog (at_min 240) "Y" false false ].

(** The igns of a log in the order of their first entries, after those
    already [seen]. *)
Definition first_seen (seen : list string) (logs : list Log) : list string :=
  fold_left (fun s log => set_add (log_ign log) s) logs seen.

(* ================================================================== *)
(** ** Further notions: the promotion rules, test by test *)

(** The last long join on record for [ign] is not before [start]; an ign
    without any long join passes, an ign without a record does not. *)
Definition last_long_join_since (act : dict ActivityInfo) (start : datetime)
    (ign : string) : bool :=
  match dict_get act ign with
  | Some info =>
      match last_opt (last_long_join info) with
      | Some t => start <=? t
      | None => true
      end
  | None => false
  end.

(** The three tests of the raw-to-boiled rule. *)
Definition raw_eligible (act : dict ActivityInfo) (active : list string)
    (known : dict datetime) (nearest today : datetime) (ign : string) : bool :=
  mem ign active
  && last_long_join_since act
       (nearest - timedelta_minutes MINS_FOR_RAW_PROMOTION_ACTIVITY_RANGE) ign
  && tenure_ok known (today - timedelta_minutes MINS_FOR_RAW_JOIN_DATE_PROMOTION_RANGE) ign.

(** [self.sb_level_dict.get(ign, -1)] *)
Definition sb_level_of (sb_level_dict : dict pyfloat) (ign : string) : pyfloat :=
  match dict_get sb_level_dict ign with
  | Some x => x
  | None => Finite (inject_Z (-1))
  end.

(** The four tests of the boiled-to-scrambled rule. *)
Definition boiled_eligible (act : dict ActivityInfo) (sb_level_dict : dict pyfloat)
    (active : list string) (known : dict datetime) (nearest today : datetime)
    (ign : string) : bool :=
  mem ign active
  && last_long_join_since act
       (nearest - timedelta_minutes MINS_FOR_BOILED_PROMOTION_ACTIVITY_RANGE) ign
  && tenure_ok known
       (today - timedelta_minutes MINS_FOR_BOILED_JOIN_DATE_PROMOTION_RANGE) ign
  && float_ge (sb_level_of sb_level_dict ign) SCRAMBLED_SB_LEVEL.

(** A level file that knows X at level 250 and Y at level 100. *)
Definition sample_levels : dict pyfloat :=
  [("X", Finite (inject_Z 250)); ("Y", Finite (inject_Z 100))].

(** A roster with X and Y in the rank "Hard Boiled Egg". *)
Definition boiled_roster : dict (list string) :=
  [("Raw Egg", ["Z"]); ("Hard Boiled Egg", ["X"; "Y"])].

Definition boiled_env (now : datetime) : Env :=
  mkEnv (fun _ => Contents order_log) (Contents boiled_roster) (Contents sample_levels)
        (fun _ => now) now now insertion_order.

(** A roster that has no rank "Raw Egg". *)
Definition no_raw_roster : dict (list string) := [("Hard Boiled Egg", ["X"; "Y"])].

Definition no_raw_env : Env :=
  mkEnv (fun _ => Contents sample_log) (Contents no_raw_roster) (Contents [])
        (fun _ => at_min 200) (at_min 200) (at_min 200) insertion_order.

(** The roster file is a day and a half old, the level file three days. *)
Definition stale_env : Env :=
  mkEnv (fun _ => Contents sample_log) (Contents sample_roster) (Contents [])
        (fun _ => at_min 4320) (at_min 2160) (at_min 0) insertion_order.

(* ================================================================== *)
(** ** [DiscordLogClient.save_messages]: from channel messages to the log

    The loop of [save_messages] over the messages that
    [channel.history(limit=max_messages)] yields, in the order it yields
    them.  A message counts through its first embed, its description and
    colour, and its creation time.  The patterns the loop looks for are
    ASCII, so it is modelled on the UTF-8 bytes of the text.  The log is
    written with [str(timestamp)] and read back with [fromisoformat]; the
    model keeps the instant.  An exception of the network while iterating
    is not modelled; the one exception the loop itself can raise is (see
    [collect]). *)

Record Embed : Type := mkEmbed {
  description : option string;
  color : option Z
}.

Record Message : Type := mkMessage {
  embeds : list Embed;
  created_at : datetime
}.

Definition JOIN_LEAVE_PREFIX : string := "<:egg_right:1178195628615028776> ".
Definition JOIN_COLOR : Z := 4714569.
Definition LEAVE_COLOR : Z := 15747399.
Definition GUILD_JOIN_TEXT : string := "joined the guild".

(** [s[len(p):]] when [s.startswith(p)]. *)
Fixpoint strip_prefix (p s : string) : option string :=
  match p, s with
  | EmptyString, _ => Some s
  | String a p', String b s' => if Ascii.eqb a b then strip_prefix p' s' else None
  | String _ _, EmptyString => None
  end.

(** [s.split(" ")[0]]: the text before the first space. *)
Fixpoint first_word (s : string) : string :=
  match s with
  | EmptyString => EmptyString
  | String c s' => if Ascii.eqb c Ascii.Space then EmptyString else String c (first_word s')
  end.

(** [pat in s] *)
Fixpoint contains (pat s : string) : bool :=
  match strip_prefix pat s with
  | Some _ => true
  | None =>
      match s with
      | EmptyString => false
      | String _ s' => contains pat s'
      end
  end.

(** What the loop makes of the description and colour of an embed. *)
Inductive Reading : Type :=
| UnknownColor          (* a warning, then [continue] *)
| Entry (log : Log)     (* [logs.insert(0, ...)] *)
| NoEntry.              (* neither pattern *)

Definition read_embed (msg : string) (c : option Z) (timestamp : datetime) : Reading :=
  match strip_prefix JOIN_LEAVE_PREFIX msg with
  | Some rest =>
      let ign := first_word rest in
      match c with
      | Some n =>
          if n =? JOIN_COLOR then Entry (mkLog timestamp ign true false)
          else if n =? LEAVE_COLOR then Entry (mkLog timestamp ign false false)
          else UnknownColor
      | None => UnknownColor
      end
  | None =>
      if contains GUILD_JOIN_TEXT msg
      then Entry (mkLog timestamp (first_word msg) true true)
      else NoEntry
  end.

(** The loop.  [logs] and [i] are the variables of the source; [seen] tells
    that [today] and [timestamp] have been assigned, which happens at the
    first message with an embed.  Every hundredth counted message a
    progress line is printed from [today] and [timestamp]: before any embed
    was seen this raises, and [save_messages] catches the exception and
    saves the logs it has. *)
Fixpoint collect (max_day : datetime) (history : list Message) (logs : list Log)
    (i : nat) (seen : bool) : list Log :=
  match history with
  | [] => logs
  | m :: rest =>
      let counted (logs' : list Log) (seen' : bool) :=
        if ((S i mod 100 =? 0)%nat && negb seen')%bool then logs'
        else collect max_day rest logs' (S i) seen' in
      match embeds m with
      | [] => counted logs seen
      | embed :: _ =>
          match description embed with
          | None => collect max_day rest logs i true
          | Some msg =>
              match read_embed msg (color embed) (created_at m) with
              | UnknownColor => collect max_day rest logs i true
              | Entry log =>
                  if created_at m <? max_day then log :: logs
                  else counted (log :: logs) true
              | NoEntry =>
                  if created_at m <? max_day then logs
                  else counted logs true
              end
          end
      end
  end.

(** [timedelta(days=d)] *)
Definition timedelta_days (d : Z) : timedelta := d * US_PER_DAY.

(** The logs [save_messages] saves; [today] is the clock at the first
    message with an embed. *)
Definition save_messages (max_days : Z) (today : datetime) (history : list Message)
    : list Log :=
  collect (today - timedelta_days (max_days + 1)) history [] 0 false.

(** Newest first, as [channel.history] yields messages. *)
Definition newest_first (history : list Message) : Prop :=
  StronglySorted (fun a b => created_at b <= created_at a) history.

(** No character of [s] is a space. *)
Definition no_space (s : string) : Prop :=
  forall c, In c (list_ascii_of_string s) -> c <> Ascii.Space.

(** A join, a message without embed, a guild join and a leave, newest
    first. *)
Definition sample_history : list Message :=
  [ mkMessage [mkEmbed (Some "<:egg_right:1178195628615028776> X has gone into a deep slumber!")
                 (Some 15747399)] (at_min 40);
    mkMessage [] (at_min 30);
    mkMessage [mkEmbed (Some "Y joined the guild!") None] (at_min 20);
    mkMessage [mkEmbed (Some "<:egg_right:1178195628615028776> X woke up") (Some 4714569)]
      (at_min 0) ].

(** A hundred messages without embed, then a join. *)
Definition quiet_history : list Message :=
  repeat (mkMessage [] (at_min 10)) 100
  ++ [ mkMessage [mkEmbed (Some "<:egg_right:1178195628615028776> X woke up")
                    (Some 4714569)] (at_min 0) ].

(** All saved entries but the first are at or after [max_day]. *)
Definition within_max_days (max_day : datetime) (logs : list Log) : Prop :=
  match logs with
  | [] => True
  | _ :: later => Forall (fun log => max_day <= log_timestamp log) later
  end.

(* ================================================================== *)
(** ** The text files: roster, levels and active list

    The loaders of the roster ([ActivityTracker.load_guild_list] and
    [load_guild_list] of update_active_roles.py), of the levels
    ([ActivityTracker.load_sb_level_list]) and of the active list
    ([load_active_list]) read text line by line.  They slice by characters
    and strip Unicode white space, so text is here a list of code points
    ([ustr]); a file is the list of lines its iterator yields. *)

Definition ustr : Type := list N.

Fixpoint ustr_eqb (a b : ustr) : bool :=
  match a, b with
  | [], [] => true
  | x :: a', y :: b' => N.eqb x y && ustr_eqb a' b'
  | _, _ => false
  end.

(** [str.isspace] for one character: the white space [str.strip] removes. *)
Definition is_space (c : N) : bool :=
  ((9 <=? c) && (c <=? 13) || (28 <=? c) && (c <=? 32)
   || (c =? 133) || (c =? 160) || (c =? 5760)
   || (8192 <=? c) && (c <=? 8202)
   || (c =? 8232) || (c =? 8233) || (c =? 8239) || (c =? 8287) || (c =? 12288))%N.

Fixpoint lstrip (s : ustr) : ustr :=
  match s with
  | [] => []
  | c :: rest => if is_space c then lstrip rest else s
  end.

Definition rstrip (s : ustr) : ustr := rev (lstrip (rev s)).

(** [s.strip()] *)
Definition strip (s : ustr) : ustr := rstrip (lstrip s).

(** [s.startswith(p)] *)
Fixpoint ustartswith (p s : ustr) : bool :=
  match p, s with
  | [], _ => true
  | a :: p', b :: s' => N.eqb a b && ustartswith p' s'
  | _ :: _, [] => false
  end.

(** [s.split(sep)] for a separator of one character. *)
Fixpoint split_on (sep : N) (s : ustr) : list ustr :=
  match s with
  | [] => [[]]
  | c :: rest =>
      if N.eqb c sep then [] :: split_on sep rest
      else match split_on sep rest with
           | piece :: pieces => (c :: piece) :: pieces
           | [] => [[c]]
           end
  end.

(** [sep in s] for one character. *)
Definition has_char (c : N) (s : ustr) : bool := existsb (N.eqb c) s.

(** [s[3:-3]] *)
Definition slice_3_3 (s : ustr) : ustr := firstn (List.length s - 6) (skipn 3 s).

Definition is_empty (s : ustr) : bool :=
  match s with [] => true | _ => false end.

(** Dictionaries with text keys, in insertion order. *)
Definition udict (V : Type) : Type := list (ustr * V).

Fixpoint udict_get {V} (d : udict V) (k : ustr) : option V :=
  match d with
  | [] => None
  | (k', v) :: d' => if ustr_eqb k k' then Some v else udict_get d' k
  end.

Fixpoint udict_set {V} (d : udict V) (k : ustr) (v : V) : udict V :=
  match d with
  | [] => [(k, v)]
  | (k', v') :: d' =>
      if ustr_eqb k k' then (k', v) :: d' else (k', v') :: udict_set d' k v
  end.

Definition DASH : N := 45.
Definition BULLET : N := 9679.     (* U+25CF, the black circle *)
Definition COLON : N := 58.
Definition SPACE : N := 32.

(** [line.startswith("--")] *)
Definition is_rank_line (line : ustr) : bool := ustartswith [DASH; DASH] line.

(** ["●" in line] *)
Definition is_member_line (line : ustr) : bool := has_char BULLET line.

(** [line.strip()[3:-3]] *)
Definition rank_of_line (line : ustr) : ustr := slice_3_3 (strip line).

(** [[ign.strip() for ign in line.split("●") if ign.strip() != ""]] *)
Definition members_of_line (line : ustr) : list ustr :=
  filter (fun ign => negb (is_empty ign)) (map strip (split_on BULLET line)).

(** The header: [next(f)] until a line starts with "--"; [None] stands for
    the [StopIteration] of [next] at the end of the file. *)
Fixpoint skip_header (lines : list ustr) : option (ustr * list ustr) :=
  match lines with
  | [] => None
  | line :: rest => if is_rank_line line then Some (line, rest) else skip_header rest
  end.

(** [for line in f: ...] of [load_guild_list]. *)
Fixpoint parse_sections (current_rank : ustr) (guild_list : udict (list ustr))
    (lines : list ustr) : udict (list ustr) :=
  match lines with
  | [] => guild_list
  | line :: rest =>
      if is_rank_line line then parse_sections (rank_of_line line) guild_list rest
      else if is_member_line line then
        parse_sections current_rank
          (udict_set guild_list current_rank (members_of_line line)) rest
      else guild_list                                   (* Reached the end *)
  end.

(** [ActivityTracker.load_guild_list], on the lines of the roster file. *)
Definition load_guild_list (lines : list ustr) : option (udict (list ustr)) :=
  match skip_header lines with
  | None => None
  | Some (line, rest) => Some (parse_sections (rank_of_line line) [] rest)
  end.

(** [load_guild_list] of update_active_roles.py: the same parse, then
    [[ign.strip() for igns in guild_list.values() for ign in igns]]. *)
Definition roles_load_guild_list (lines : list ustr) : option (list ustr) :=
  match load_guild_list lines with
  | None => None
  | Some guild_list => Some (map strip (List.concat (map snd guild_list)))
  end.

(** What [open(filename, "r")] gives [load_active_list]: the lines of the
    file, [FileNotFoundError], or another exception (the path is a
    directory, the file may not be read, ...). *)
Inductive opened (A : Type) : Type :=
| FileNotFound
| OpenFails
| Opened (a : A).

Arguments FileNotFound {A}.
Arguments OpenFails {A}.
Arguments Opened {A} a.

(** [load_active_list] of update_active_roles.py.  Only
    [FileNotFoundError] is caught, and gives the empty list; [None] stands
    for any other exception of [open], which the function lets through. *)
Definition load_active_list (f : opened (list ustr)) : option (list ustr) :=
  match f with
  | FileNotFound => Some []
  | OpenFails => None
  | Opened lines =>
      Some (map strip (filter (fun line => negb (is_empty (strip line))) lines))
  end.

(** Text written in ASCII, as code points. *)
Definition ascii_text (s : string) : ustr :=
  map Ascii.N_of_ascii (list_ascii_of_string s).

(** A file of active names: a name with white space around it, a blank
    line and a name on the last line, which has no end of line. *)
Definition sample_active_lines : list ustr :=
  [ ascii_text "  X " ++ [10%N]; ascii_text "   " ++ [10%N]; ascii_text "Y" ].

(** A roster file: a header, two ranks - the first with two lines of
    members -, a blank line and a line after it. *)
Definition sample_roster_lines : list ustr :=
  [ ascii_text "Guild members";
    ascii_text "-- Raw Egg --";
    [BULLET] ++ ascii_text " a " ++ [BULLET] ++ ascii_text " b ";
    [BULLET] ++ ascii_text " c ";
    ascii_text "-- Hard Boiled Egg --";
    ascii_text " d " ++ [BULLET];
    [10%N];
    ascii_text "-- Scrambled Egg --";
    [BULLET] ++ ascii_text " e" ].

(** No white space at either end. *)
Definition stripped (s : ustr) : Prop := strip s = s.

(** What [load_guild_list] guarantees of every ign it returns. *)
Definition clean_ign (ign : ustr) : Prop :=
  ign <> [] /\ stripped ign /\ ~ In BULLET ign.

Definition clean_guild_list (guild_list : udict (list ustr)) : Prop :=
  forall rank igns ign, In (rank, igns) guild_list -> In ign igns -> clean_ign ign.

(** The two exceptions [load_sb_level_list] can raise on a line. *)
Inductive level_error : Type :=
| LevelIndexError       (* [...split(" ")[1]] on a label of one word *)
| LevelValueError.      (* [float(...)] on text that is no number *)

(** One line of the level file with a colon in it:
    [ign, sb_level = line.split(":")[:2]], then
    [ign.strip().split(" ")[1]] and [float(sb_level.strip().split(" ")[0])].
    [to_float] stands for [float]: the value of a text that is a number,
    nothing for any other text. *)
Definition read_level_line (to_float : ustr -> option pyfloat) (line : ustr)
    : level_error + (ustr * pyfloat) :=
  match split_on COLON line with
  | label :: value :: _ =>
      match split_on SPACE (strip label) with
      | _ :: ign :: _ =>
          match to_float (hd [] (split_on SPACE (strip value))) with
          | Some level => inr (ign, level)
          | None => inl LevelValueError
          end
      | _ => inl LevelIndexError
      end
  | _ => inl LevelValueError       (* not reached: the line has a colon *)
  end.

(** [for line in f: if ":" in line: ...] *)
Fixpoint load_level_lines (to_float : ustr -> option pyfloat) (sb_levels : udict pyfloat)
    (lines : list ustr) : level_error + udict pyfloat :=
  match lines with
  | [] => inr sb_levels
  | line :: rest =>
      if has_char COLON line then
        match read_level_line to_float line with
        | inr (ign, level) =>
            load_level_lines to_float (udict_set sb_levels ign level) rest
        | inl e => inl e
        end
      else load_level_lines to_float sb_levels rest
  end.

(** [ActivityTracker.load_sb_level_list], on the lines of the level file. *)
Definition load_sb_level_list (to_float : ustr -> option pyfloat) (lines : list ustr)
    : level_error + udict pyfloat :=
  load_level_lines to_float [] lines.

(** A reading of numbers that knows "250" and "100" only. *)
Definition sample_to_float (s : ustr) : option pyfloat :=
  if ustr_eqb s (ascii_text "250") then Some (Finite (inject_Z 250))
  else if ustr_eqb s (ascii_text "100") then Some (Finite (inject_Z 100))
  else None.

Definition sample_level_lines : list ustr :=
  [ ascii_text "Skyblock levels";
    ascii_text "1. X: 250 levels";
    ascii_text "2. Y: 100 levels" ].

Definition info_from_log (furthest : datetime) (logs : list Log) (ign : string)
    (info : ActivityInfo) : Prop :=
  (forall j, last_join info = Some j -> from_log furthest logs ign j)
  /\ (forall x, In x (last_long_join info) -> from_log furthest logs ign x).

Definition activity_from_log (furthest : datetime) (logs : list Log)
    (act : dict ActivityInfo) : Prop :=
  forall k info, dict_get act k = Some info -> info_from_log furthest logs k info.

(* ================================================================== *)
(** * Properties *)

(** ** Time arithmetic *)

Lemma td_seconds_range (d : timedelta) : 0 <= td_seconds d < 86400.
Proof.
  unfold td_seconds, US_PER_DAY, US_PER_SECOND.
  assert (H : 0 <= d mod (86400 * 1000000) < 86400 * 1000000)
    by (apply Z.mod_pos_bound; lia).
  split.
  - apply Z.div_pos; lia.
  - apply Z.div_lt_upper_bound; lia.
Qed.

(** Below one day the [seconds] field is the whole span, in seconds. *)
Lemma td_seconds_small (d : timedelta) :
  0 <= d < US_PER_DAY -> td_seconds d = d / US_PER_SECOND.
Proof.
  intros H. unfold td_seconds. now rewrite Z.mod_small.
Qed.

(** Whole days do not show in the [seconds] field. *)
Lemma td_seconds_add_days (d k : Z) :
  td_seconds (d + k * US_PER_DAY) = td_seconds d.
Proof.
  unfold td_seconds. rewrite Z.mod_add; [reflexivity | unfold US_PER_DAY, US_PER_SECOND; lia].
Qed.

(** [60 * MINS_FOR_JOIN_LOG_TIMEOUT] is a whole day, so the third test of
    the join guard holds for every pair of instants. *)
Lemma within_join_log_timeout (s t : datetime) :
  is_time_within_mins (Some s) t MINS_FOR_JOIN_LOG_TIMEOUT = Ok true.
Proof.
  unfold is_time_within_mins, MINS_FOR_JOIN_LOG_TIMEOUT.
  pose proof (td_seconds_range (t - s)) as H.
  replace (td_seconds (t - s) <? 60 * (60 * 24)) with true; [reflexivity|].
  symmetry. apply Z.ltb_lt. lia.
Qed.

(** ** Dictionaries *)

Lemma dict_get_set_same {V} (d : dict V) (k : string) (v : V) :
  dict_get (dict_set d k v) k = Some v.
Proof.
  induction d as [|[k' v'] d IH]; simpl.
  - now rewrite String.eqb_refl.
  - destruct (String.eqb k k') eqn:E; simpl; rewrite E; auto.
Qed.

Lemma dict_get_set_other {V} (d : dict V) (k k' : string) (v : V) :
  k' <> k -> dict_get (dict_set d k v) k' = dict_get d k'.
Proof.
  intros Hne. induction d as [|[k0 v0] d IH]; simpl.
  - apply String.eqb_neq in Hne. now rewrite Hne.
  - destruct (String.eqb k k0) eqn:E; simpl.
    + apply String.eqb_eq in E. subst k0.
      apply String.eqb_neq in Hne. now rewrite Hne.
    + destruct (String.eqb k' k0); auto.
Qed.

Lemma dict_get_set {V} (d : dict V) (k k' : string) (v : V) :
  dict_get (dict_set d k v) k' = if String.eqb k' k then Some v else dict_get d k'.
Proof.
  destruct (String.eqb k' k) eqn:E.
  - apply String.eqb_eq in E. subst. apply dict_get_set_same.
  - apply String.eqb_neq in E. now apply dict_get_set_other.
Qed.

Lemma dict_get_In_keys {V} (d : dict V) (k : string) :
  In k (dict_keys d) <-> exists v, dict_get d k = Some v.
Proof.
  induction d as [|[k' v'] d IH]; simpl.
  - split; [tauto | intros [v H]; discriminate].
  - destruct (String.eqb k k') eqn:E.
    + apply String.eqb_eq in E. subst. split; eauto.
    + apply String.eqb_neq in E. rewrite IH. split.
      * intros [H | H]; [congruence | exact H].
      * auto.
Qed.

Lemma mem_In (x : string) (l : list string) : mem x l = true <-> In x l.
Proof.
  unfold mem. rewrite existsb_exists. split.
  - intros [y [Hy E]]. apply String.eqb_eq in E. now subst.
  - intros H. exists x. split; [exact H | apply String.eqb_refl].
Qed.

Lemma mem_false_In (x : string) (l : list string) : mem x l = false <-> ~ In x l.
Proof.
  rewrite <- mem_In. destruct (mem x l); split; congruence.
Qed.

Lemma iter_In (o : SetOrder) (s : list string) (x : string) :
  In x (iter o s) <-> In x s.
Proof.
  split; apply Permutation_in; [apply iter_perm | apply Permutation_sym, iter_perm].
Qed.

Lemma iter_NoDup (o : SetOrder) (s : list string) : NoDup s -> NoDup (iter o s).
Proof. apply Permutation_NoDup, Permutation_sym, iter_perm. Qed.

Lemma dict_mem_true {V} (k : string) (d : dict V) :
  dict_mem k d = true <-> In k (dict_keys d).
Proof.
  rewrite dict_get_In_keys. unfold dict_mem.
  destruct (dict_get d k); split; eauto; try congruence.
  intros [v H]; discriminate.
Qed.

Lemma setdefault_info_get (act : dict ActivityInfo) (ign : string) :
  dict_get (fst (setdefault_info act ign)) ign = Some (snd (setdefault_info act ign)).
Proof.
  unfold setdefault_info. destruct (dict_get act ign) eqn:E; simpl.
  - exact E.
  - apply dict_get_set_same.
Qed.

Lemma setdefault_info_other (act : dict ActivityInfo) (ign k : string) :
  k <> ign -> dict_get (fst (setdefault_info act ign)) k = dict_get act k.
Proof.
  intros H. unfold setdefault_info. destruct (dict_get act ign); simpl; auto.
  now apply dict_get_set_other.
Qed.

(** ** One entry of the log *)

Lemma process_log_unfold (furthest grace_end : datetime) (st : LoopState) (log : Log) :
  process_log furthest grace_end st log =
  (info' <- next_info furthest (snd (setdefault_info (activity st) (log_ign log))) log ;;
   Ok (mkLoop (dict_set (fst (setdefault_info (activity st) (log_ign log)))
                 (log_ign log) info')
         (next_known st log) (next_grace grace_end st log))).
Proof.
  unfold process_log, next_info, next_known, next_grace.
  destruct (setdefault_info (activity st) (log_ign log)) as [act info]; simpl.
  destruct (log_is_join log); simpl.
  - destruct (join_updates_last_join info (log_timestamp log)) as [upd|e]; simpl; auto.
    destruct (log_is_guild_join log); simpl; auto.
  - reflexivity.
Qed.

Lemma wf_activity_nil : wf_activity [].
Proof. intros k info H. discriminate. Qed.

Lemma join_updates_last_join_None (info : ActivityInfo) (t : datetime) :
  last_leave info = None -> join_updates_last_join info t = Ok true.
Proof. unfold join_updates_last_join. now intros ->. Qed.

(** With a last join on record the guard of a join never raises, and it
    always holds: the last join is overwritten by every join entry. *)
Lemma join_updates_last_join_Some (info : ActivityInfo) (t : datetime) :
  has_last_join info -> join_updates_last_join info t = Ok true.
Proof.
  intros [j Hj]. unfold join_updates_last_join.
  destruct (last_leave info) as [l|]; [|reflexivity].
  simpl. destruct (negb _); [reflexivity|].
  rewrite Hj. apply within_join_log_timeout.
Qed.

Lemma next_info_ok (furthest : datetime) (info : ActivityInfo) (log : Log) :
  has_last_join info \/ info = new_info ->
  exists info', next_info furthest info log = Ok info' /\ has_last_join info'.
Proof.
  intros H. unfold next_info. destruct (log_is_join log).
  - assert (E : join_updates_last_join info (log_timestamp log) = Ok true).
    { destruct H as [H | ->].
      - now apply join_updates_last_join_Some.
      - now apply join_updates_last_join_None. }
    rewrite E. simpl. eexists. split; [reflexivity|]. now eexists.
  - eexists. split; [reflexivity|]. now eexists.
Qed.

Lemma setdefault_info_wf (act : dict ActivityInfo) (ign : string) :
  wf_activity act ->
  has_last_join (snd (setdefault_info act ign)) \/ snd (setdefault_info act ign) = new_info.
Proof.
  intros Hwf. unfold setdefault_info.
  destruct (dict_get act ign) eqn:E; simpl; eauto.
Qed.

Lemma process_log_ok (furthest grace_end : datetime) (st : LoopState) (log : Log) :
  wf_activity (activity st) ->
  exists st', process_log furthest grace_end st log = Ok st' /\ wf_activity (activity st').
Proof.
  intros Hwf. rewrite process_log_unfold.
  destruct (next_info_ok furthest _ log (setdefault_info_wf _ (log_ign log) Hwf))
    as [info' [E Hj]].
  rewrite E. simpl. eexists. split; [reflexivity|]. simpl.
  intros k info Hk. rewrite dict_get_set in Hk.
  destruct (String.eqb k (log_ign log)) eqn:Ek.
  - now inversion Hk; subst.
  - apply String.eqb_neq in Ek. rewrite setdefault_info_other in Hk by exact Ek.
    eapply Hwf; eauto.
Qed.

(** From a well-formed tracker the loop over the log runs to its end. *)
Lemma parse_logs_ok (furthest grace_end : datetime) (logs : list Log) :
  forall st, wf_activity (activity st) ->
  exists st', parse_logs furthest grace_end st logs = (st', None)
              /\ wf_activity (activity st').
Proof.
  induction logs as [|log rest IH]; intros st Hwf; simpl.
  - eauto.
  - destruct (process_log_ok furthest grace_end st log Hwf) as [st1 [E Hwf1]].
    rewrite E. now apply IH.
Qed.

(** ** Long-join histories grow in order *)

Lemma info_ordered_later (b b' : datetime) (info : ActivityInfo) :
  b <= b' -> info_ordered b info -> info_ordered b' info.
Proof.
  intros Hb [H1 H2 H3]. split; auto.
  intros j Hj. specialize (H3 j Hj). lia.
Qed.

Lemma info_ordered_new (b : datetime) : info_ordered b new_info.
Proof.
  split; simpl.
  - constructor.
  - intros x [].
  - intros j H. discriminate.
Qed.

Lemma last_opt_cons {A} (x y : A) (l : list A) :
  last_opt (x :: y :: l) = last_opt (y :: l).
Proof. reflexivity. Qed.

(** Appending a value that bounds the list and differs from its last
    element keeps the list strictly increasing. *)
Lemma sorted_append_last (l : list datetime) (j : datetime) :
  StronglySorted Z.lt l ->
  (forall x, In x l -> x <= j) ->
  not_last_appended l j = true ->
  StronglySorted Z.lt (l ++ [j]).
Proof.
  unfold not_last_appended.
  induction l as [|x l IH]; intros Hs Hle Hlast.
  - simpl. constructor; constructor.
  - inversion Hs as [|x' l' Hs' Hx]; subst.
    destruct l as [|y l].
    + simpl in *. apply Bool.negb_true_iff, Z.eqb_neq in Hlast.
      specialize (Hle x (or_introl eq_refl)).
      repeat constructor. lia.
    + rewrite last_opt_cons in Hlast.
      change ((x :: y :: l) ++ [j]) with (x :: ((y :: l) ++ [j])).
      constructor.
      * apply IH; auto. intros z Hz. apply Hle. now right.
      * rewrite Forall_forall in *. intros z Hz.
        apply in_app_or in Hz. destruct Hz as [Hz | [<- | []]]; auto.
        assert (x < y) by (apply Hx; now left).
        assert (y <= j) by (apply Hle; right; now left). lia.
Qed.

Lemma next_info_ordered (furthest b : datetime) (info info' : ActivityInfo) (log : Log) :
  furthest <= b -> b <= log_timestamp log ->
  info_ordered b info ->
  next_info furthest info log = Ok info' ->
  info_ordered (log_timestamp log) info'.
Proof.
  intros Hf Hb Hord. unfold next_info.
  destruct (log_is_join log).
  - destruct (join_updates_last_join info (log_timestamp log)) as [[|]|e];
      simpl; intros E; inversion E; subst; clear E.
    + destruct Hord as [H1 H2 H3]. split; simpl; auto.
      * intros x Hx. destruct (H2 x Hx) as [j [Hj Hxj]].
        specialize (H3 j Hj). eexists. split; [reflexivity | lia].
      * intros j Hj. inversion Hj. lia.
    + eapply info_ordered_later; eauto.
  - intros E. inversion E; subst; clear E.
    destruct Hord as [H1 H2 H3].
    set (j := match last_join info with Some j => j | None => furthest end).
    assert (Hj : forall x, In x (last_long_join info) -> x <= j).
    { intros x Hx. destruct (H2 x Hx) as [j0 [E0 Hx0]].
      subst j. now rewrite E0. }
    assert (Hjb : j <= log_timestamp log).
    { subst j. destruct (last_join info) as [j0|]; [specialize (H3 j0 eq_refl)|]; lia. }
    split; simpl.
    + destruct (negb _ && not_last_appended (last_long_join info) j) eqn:G; auto.
      apply Bool.andb_true_iff in G. destruct G as [_ G].
      now apply sorted_append_last.
    + intros x Hx. exists j. split; [reflexivity|].
      destruct (negb _ && _) in Hx; auto.
      apply in_app_or in Hx. destruct Hx as [Hx | [<- | []]]; auto. lia.
    + intros j0 E0. inversion E0. lia.
Qed.

Lemma process_log_ordered (furthest grace_end b : datetime) (st st' : LoopState)
    (log : Log) :
  furthest <= b -> b <= log_timestamp log ->
  ordered_activity b (activity st) ->
  process_log furthest grace_end st log = Ok st' ->
  ordered_activity (log_timestamp log) (activity st').
Proof.
  intros Hf Hb Hord. rewrite process_log_unfold.
  destruct (next_info furthest _ log) as [info'|e] eqn:E; simpl; [|discriminate].
  intros H. inversion H; subst; clear H. simpl.
  intros k info Hk. rewrite dict_get_set in Hk.
  destruct (String.eqb k (log_ign log)) eqn:Ek.
  - inversion Hk; subst.
    eapply next_info_ordered with (b := b); [exact Hf | exact Hb | | exact E].
    unfold setdefault_info. destruct (dict_get (activity st) (log_ign log)) eqn:G; simpl.
    + eapply Hord; eauto.
    + apply info_ordered_new.
  - apply String.eqb_neq in Ek. rewrite setdefault_info_other in Hk by exact Ek.
    eapply info_ordered_later; [exact Hb|]. eapply Hord; eauto.
Qed.

Lemma parse_logs_ordered (furthest grace_end : datetime) (logs : list Log) :
  forall b st,
  furthest <= b -> not_before b logs -> chronological logs ->
  ordered_activity b (activity st) ->
  exists b', ordered_activity b'
               (activity (fst (parse_logs furthest grace_end st logs))).
Proof.
  induction logs as [|log rest IH]; intros b st Hf Hnb Hch Hord; simpl.
  - eauto.
  - simpl in Hnb.
    destruct (process_log furthest grace_end st log) as [st1|e] eqn:E; simpl.
    + apply (IH (log_timestamp log) st1).
      * lia.
      * inversion Hch as [|? ? _ Hhd]; subst.
        destruct rest; simpl; auto. now inversion Hhd.
      * now inversion Hch.
      * eapply process_log_ordered with (b := b); eauto.
    + eauto.
Qed.

(** ** Sorting keeps the elements *)

Lemma insert_desc_perm (x : datetime * string) (l : list (datetime * string)) :
  Permutation (insert_desc x l) (x :: l).
Proof.
  induction l as [|y l IH]; simpl.
  - apply Permutation_refl.
  - destruct (fst x <? fst y).
    + eapply perm_trans; [apply perm_skip, IH | apply perm_swap].
    + apply Permutation_refl.
Qed.

Lemma sort_desc_perm (l : list (datetime * string)) : Permutation (sort_desc l) l.
Proof.
  induction l as [|x l IH]; simpl.
  - apply perm_nil.
  - eapply perm_trans; [apply insert_desc_perm | now apply perm_skip].
Qed.

Lemma insert_str_perm (x : string) (l : list string) :
  Permutation (insert_str x l) (x :: l).
Proof.
  induction l as [|y l IH]; simpl.
  - apply Permutation_refl.
  - destruct (String.ltb y x).
    + eapply perm_trans; [apply perm_skip, IH | apply perm_swap].
    + apply Permutation_refl.
Qed.

Lemma sorted_str_perm (l : list string) : Permutation (sorted_str l) l.
Proof.
  induction l as [|x l IH]; simpl.
  - apply perm_nil.
  - eapply perm_trans; [apply insert_str_perm | now apply perm_skip].
Qed.

Lemma last_join_keys_snd (act : dict ActivityInfo) (igns : list string) :
  forall ks, last_join_keys act igns = Ok ks -> map snd ks = igns.
Proof.
  induction igns as [|ign rest IH]; simpl; intros ks H.
  - now inversion H.
  - destruct (dict_get act ign); [|discriminate].
    destruct (last_join_keys act rest) as [ks0|e]; simpl in H; [|discriminate].
    inversion H; subst; simpl. f_equal. now apply IH.
Qed.

Lemma all_some_snd (ks : list (option datetime * string)) :
  forall ks', all_some ks = Some ks' -> map snd ks' = map snd ks.
Proof.
  induction ks as [|[[k|] x] ks IH]; simpl; intros ks' H.
  - now inversion H.
  - destruct (all_some ks) as [r|]; [|discriminate].
    inversion H; subst; simpl. f_equal. now apply IH.
  - discriminate.
Qed.

Lemma sorted_by_last_join_perm (act : dict ActivityInfo) (igns sorted : list string) :
  sorted_by_last_join act igns = Ok sorted -> Permutation sorted igns.
Proof.
  unfold sorted_by_last_join.
  destruct (last_join_keys act igns) as [ks|e] eqn:E; simpl; [|discriminate].
  apply last_join_keys_snd in E.
  destruct (all_some ks) as [ks'|] eqn:A.
  - intros H. inversion H; subst; clear H.
    rewrite <- (all_some_snd _ _ A).
    apply Permutation_map, sort_desc_perm.
  - destruct (List.length ks <=? 1)%nat; intros H; inversion H; subst.
    apply Permutation_refl.
Qed.

Lemma sorted_by_last_join_In (act : dict ActivityInfo) (igns sorted : list string) :
  sorted_by_last_join act igns = Ok sorted -> forall x, In x sorted <-> In x igns.
Proof.
  intros H x. apply sorted_by_last_join_perm in H. split.
  - now apply Permutation_in.
  - apply Permutation_in. now apply Permutation_sym.
Qed.

(** The sort raises nothing when every ign has a record with a last join. *)
Lemma last_join_keys_ok (act : dict ActivityInfo) (igns : list string) :
  wf_activity act ->
  (forall x, In x igns -> In x (dict_keys act)) ->
  exists ks, last_join_keys act igns = Ok ks /\ exists ks', all_some ks = Some ks'.
Proof.
  intros Hwf. induction igns as [|ign rest IH]; simpl; intros Hin.
  - eexists. split; [reflexivity|]. simpl. eauto.
  - destruct (proj1 (dict_get_In_keys act ign) (Hin ign (or_introl eq_refl)))
      as [info Hinfo].
    rewrite Hinfo.
    destruct IH as [ks [E [ks' A]]]; [intros x Hx; apply Hin; now right|].
    rewrite E. simpl. eexists. split; [reflexivity|].
    destruct (Hwf ign info Hinfo) as [j Hj]. simpl. rewrite Hj, A. eauto.
Qed.

Lemma sorted_by_last_join_ok (act : dict ActivityInfo) (igns : list string) :
  wf_activity act ->
  (forall x, In x igns -> In x (dict_keys act)) ->
  exists sorted, sorted_by_last_join act igns = Ok sorted.
Proof.
  intros Hwf Hin. unfold sorted_by_last_join.
  destruct (last_join_keys_ok act igns Hwf Hin) as [ks [E [ks' A]]].
  rewrite E. simpl. rewrite A. eauto.
Qed.

(** ** The three tiers *)

Lemma long_join_count_keys (act : dict ActivityInfo) (ign : string) :
  (0 < long_join_count act ign)%nat -> In ign (dict_keys act).
Proof.
  unfold long_join_count. intros H. apply dict_get_In_keys.
  destruct (dict_get act ign); [eauto | inversion H].
Qed.

Lemma get_active_igns_In (act : dict ActivityInfo) (ign : string) :
  In ign (get_active_igns act) <->
  (NUM_LONG_JOINS_FOR_ACTIVITY <= long_join_count act ign)%nat.
Proof.
  unfold get_active_igns. rewrite filter_In, Nat.leb_le. split.
  - tauto.
  - intros H. split; [|exact H]. apply long_join_count_keys.
    unfold NUM_LONG_JOINS_FOR_ACTIVITY in H. lia.
Qed.

(** Who is in which tier, whenever the classification returns. *)
Lemma classify_In (act : dict ActivityInfo) (grace guild_list : list string)
    (tiers : Tiers) :
  classify act grace guild_list = Ok tiers ->
  forall x,
    (In x (active_igns tiers) <->
       In x guild_list /\ (NUM_LONG_JOINS_FOR_ACTIVITY <= long_join_count act x)%nat)
    /\ (In x (grace_period_igns tiers) <->
       In x guild_list /\ In x grace /\ ~ In x (active_igns tiers))
    /\ (In x (inactive_igns tiers) <->
       In x guild_list /\ ~ In x (active_igns tiers) /\ ~ In x (grace_period_igns tiers)).
Proof.
  unfold classify.
  destruct (sorted_by_last_join act (get_active_igns act)) as [active0|e] eqn:EA;
    simpl; [|discriminate].
  destruct (sorted_by_last_join act
              (filter (fun ign => negb (mem ign active0)) (dict_keys act)))
    as [seen|e] eqn:ES; simpl; [|discriminate].
  destruct (sorted_by_last_join act grace) as [grace0|e] eqn:EG; simpl; [|discriminate].
  intros H x. inversion H; subst; clear H. simpl.
  pose proof (sorted_by_last_join_In _ _ _ EA x) as HA.
  pose proof (sorted_by_last_join_In _ _ _ ES x) as HS.
  pose proof (sorted_by_last_join_In _ _ _ EG x) as HG.
  rewrite get_active_igns_In in HA.
  rewrite filter_In, Bool.negb_true_iff, mem_false_In in HS.
  assert (Hact : In x (filter (fun ign => mem ign guild_list) active0) <->
                 In x guild_list /\
                 (NUM_LONG_JOINS_FOR_ACTIVITY <= long_join_count act x)%nat).
  { rewrite filter_In, mem_In. tauto. }
  assert (Hgr : In x (filter (fun ign =>
                        negb (mem ign (filter (fun ign0 => mem ign0 guild_list) active0)))
                        (filter (fun ign => mem ign guild_list) grace0)) <->
                In x guild_list /\ In x grace /\
                ~ In x (filter (fun ign => mem ign guild_list) active0)).
  { rewrite !filter_In, Bool.negb_true_iff, mem_false_In, !filter_In, !mem_In. tauto. }
  split; [exact Hact|]. split; [exact Hgr|].
  rewrite filter_In, Bool.negb_true_iff, mem_false_In.
  rewrite filter_In, mem_In, in_app_iff.
  assert (Hin2 : In x (sorted_str (filter (fun ign => negb (dict_mem ign act)) guild_list))
                 <-> In x guild_list /\ ~ In x (dict_keys act)).
  { split.
    - intros Hx. apply (Permutation_in _ (sorted_str_perm _)) in Hx.
      rewrite filter_In, Bool.negb_true_iff in Hx. destruct Hx as [Hx1 Hx2].
      split; [exact Hx1|]. intros Hk. apply dict_mem_true in Hk. congruence.
    - intros [Hx1 Hx2].
      apply (Permutation_in _ (Permutation_sym (sorted_str_perm _))).
      rewrite filter_In, Bool.negb_true_iff. split; [exact Hx1|].
      destruct (dict_mem x act) eqn:D; [|reflexivity].
      apply dict_mem_true in D. contradiction. }
  rewrite Hin2, HS.
  assert (Hkeys : In x active0 -> In x (dict_keys act)).
  { intros Hx. apply HA in Hx. apply long_join_count_keys.
    unfold NUM_LONG_JOINS_FOR_ACTIVITY in Hx. lia. }
  assert (Hdec : In x (dict_keys act) \/ ~ In x (dict_keys act)).
  { destruct (dict_mem x act) eqn:D.
    - left. now apply dict_mem_true.
    - right. intros Hk. apply dict_mem_true in Hk. congruence. }
  rewrite Hgr. rewrite Hact. rewrite Hact in Hgr.
  split.
  - intros [[[[Hk Hn] | [_ Hk]] Hgl] Hng].
    + split; [exact Hgl|]. split; [|exact Hng].
      intros [_ Hc]. apply Hn. now apply HA.
    + split; [exact Hgl|]. split; [|exact Hng].
      intros [_ Hc]. apply Hk. apply Hkeys. now apply HA.
  - intros [Hgl [Hna Hng]]. split; [|exact Hng]. split; [|exact Hgl].
    destruct Hdec as [Hk | Hk].
    + left. split; [exact Hk|]. intros Hc. apply Hna. split; [exact Hgl|]. now apply HA.
    + right. now split.
Qed.

(** ** Which igns have a record *)

Lemma process_log_keys (furthest grace_end : datetime) (st st' : LoopState) (log : Log) :
  process_log furthest grace_end st log = Ok st' ->
  forall k, In k (dict_keys (activity st')) <->
            k = log_ign log \/ In k (dict_keys (activity st)).
Proof.
  rewrite process_log_unfold.
  destruct (next_info furthest _ log) as [info'|e]; simpl; [|discriminate].
  intros H k. inversion H; subst; clear H. simpl.
  rewrite !dict_get_In_keys.
  destruct (String.eqb k (log_ign log)) eqn:Ek.
  - apply String.eqb_eq in Ek. subst k. rewrite dict_get_set_same. split; eauto.
  - apply String.eqb_neq in Ek.
    rewrite dict_get_set_other, setdefault_info_other by exact Ek.
    split; [now right | intros [? | ?]; [contradiction | assumption]].
Qed.

Lemma parse_logs_keys (furthest grace_end : datetime) (logs : list Log) :
  forall st st', parse_logs furthest grace_end st logs = (st', None) ->
  forall k, In k (dict_keys (activity st')) <->
            In k (map log_ign logs) \/ In k (dict_keys (activity st)).
Proof.
  induction logs as [|log rest IH]; simpl; intros st st' H k.
  - inversion H; subst. tauto.
  - destruct (process_log furthest grace_end st log) as [st1|e] eqn:E; [|discriminate].
    rewrite (IH _ _ H k), (process_log_keys _ _ _ _ _ E k). intuition congruence.
Qed.

Lemma set_add_In (x y : string) (s : list string) :
  In y (set_add x s) <-> y = x \/ In y s.
Proof.
  unfold set_add. destruct (mem x s) eqn:M.
  - apply mem_In in M. intuition congruence.
  - rewrite in_app_iff. simpl. intuition congruence.
Qed.

Lemma process_log_wf (furthest grace_end : datetime) (st : LoopState) (log : Log) :
  wf_loop st ->
  exists st', process_log furthest grace_end st log = Ok st' /\ wf_loop st'.
Proof.
  intros [Hwf Hgr].
  destruct (process_log_ok furthest grace_end st log Hwf) as [st' [E Hwf']].
  exists st'. split; [exact E|]. split; [exact Hwf'|].
  intros x Hx. apply (process_log_keys _ _ _ _ _ E).
  rewrite process_log_unfold in E.
  destruct (next_info furthest _ log) as [info'|e]; simpl in E; [|discriminate].
  inversion E; subst; clear E. simpl in Hx. unfold next_grace in Hx.
  destruct (_ && _ && _) in Hx; [apply set_add_In in Hx|]; intuition.
Qed.

Lemma parse_logs_wf (furthest grace_end : datetime) (logs : list Log) :
  forall st, wf_loop st ->
  exists st', parse_logs furthest grace_end st logs = (st', None) /\ wf_loop st'.
Proof.
  induction logs as [|log rest IH]; intros st Hwf; simpl.
  - eauto.
  - destruct (process_log_wf furthest grace_end st log Hwf) as [st1 [E Hwf1]].
    rewrite E. now apply IH.
Qed.

Lemma classify_ok (act : dict ActivityInfo) (grace guild_list : list string) :
  wf_activity act ->
  (forall x, In x grace -> In x (dict_keys act)) ->
  exists tiers, classify act grace guild_list = Ok tiers.
Proof.
  intros Hwf Hgr. unfold classify.
  destruct (sorted_by_last_join_ok act (get_active_igns act) Hwf) as [active0 EA].
  { intros x Hx. unfold get_active_igns in Hx. now apply filter_In in Hx. }
  rewrite EA. simpl.
  destruct (sorted_by_last_join_ok act
              (filter (fun ign => negb (mem ign active0)) (dict_keys act)) Hwf)
    as [seen ES].
  { intros x Hx. now apply filter_In in Hx. }
  rewrite ES. simpl.
  destruct (sorted_by_last_join_ok act grace Hwf Hgr) as [grace0 EG].
  rewrite EG. simpl. eauto.
Qed.

(** ** Promotion lists *)

Lemma filter_r_ok {A} (p : A -> result bool) (l : list A) :
  (forall x, In x l -> exists b, p x = Ok b) ->
  exists r, filter_r p l = Ok r.
Proof.
  induction l as [|x l IH]; simpl; intros H.
  - eauto.
  - destruct (H x (or_introl eq_refl)) as [b ->]. simpl.
    destruct IH as [r ->]; [intros y Hy; apply H; now right|].
    simpl. eauto.
Qed.

Lemma filter_r_In {A} (p : A -> result bool) (l r : list A) :
  filter_r p l = Ok r ->
  forall x, In x r <-> In x l /\ p x = Ok true.
Proof.
  revert r. induction l as [|y l IH]; simpl; intros r H x.
  - inversion H; subst. simpl. tauto.
  - destruct (p y) as [b|e] eqn:Ey; simpl in H; [|discriminate].
    destruct (filter_r p l) as [r0|e] eqn:El; simpl in H; [|discriminate].
    inversion H; subst; clear H. specialize (IH r0 eq_refl x).
    destruct b; simpl; rewrite ?IH; split.
    + intros [<- | [H1 H2]]; auto.
    + intros [[<- | H1] H2]; auto.
    + intros [H1 H2]; auto.
    + intros [[<- | H1] H2]; [congruence | auto].
Qed.

Lemma recent_long_joins_ok (act : dict ActivityInfo) (n : nat) (start : datetime)
    (ign : string) :
  In ign (dict_keys act) -> exists b, recent_long_joins act n start ign = Ok b.
Proof.
  intros H. apply dict_get_In_keys in H. destruct H as [info H].
  unfold recent_long_joins. rewrite H. eauto.
Qed.

Lemma get_raw_to_boiled_promotion_igns_ok (act : dict ActivityInfo)
    (guild_list_dict : dict (list string)) (active : list string)
    (known : dict datetime) (nearest today : datetime) (raw_igns : list string) :
  dict_get guild_list_dict RAW_RANK = Some raw_igns ->
  (forall x, In x active -> In x (dict_keys act)) ->
  exists l, get_raw_to_boiled_promotion_igns act guild_list_dict active known
              nearest today = Ok l.
Proof.
  intros Hr Hact. unfold get_raw_to_boiled_promotion_igns. rewrite Hr.
  apply filter_r_ok. intros x _.
  destruct (mem x active) eqn:M; [|eauto].
  apply mem_In, Hact in M.
  destruct (recent_long_joins_ok act NUM_LONG_JOINS_FOR_RAW_PROMOTION
              (nearest - timedelta_minutes MINS_FOR_RAW_PROMOTION_ACTIVITY_RANGE) x M)
    as [b ->].
  simpl. eauto.
Qed.

Lemma get_boiled_to_scrambled_promotion_igns_ok (act : dict ActivityInfo)
    (guild_list_dict : dict (list string)) (sb_level_dict : dict pyfloat)
    (active : list string) (known : dict datetime) (nearest today : datetime)
    (boiled_igns : list string) :
  dict_get guild_list_dict BOILED_RANK = Some boiled_igns ->
  (forall x, In x active -> In x (dict_keys act)) ->
  exists l, get_boiled_to_scrambled_promotion_igns act guild_list_dict sb_level_dict
              active known nearest today = Ok l.
Proof.
  intros Hr Hact. unfold get_boiled_to_scrambled_promotion_igns. rewrite Hr.
  apply filter_r_ok. intros x _.
  destruct (mem x active) eqn:M; [|eauto].
  apply mem_In, Hact in M.
  destruct (recent_long_joins_ok act NUM_LONG_JOINS_FOR_BOILED_PROMOTION
              (nearest - timedelta_minutes MINS_FOR_BOILED_PROMOTION_ACTIVITY_RANGE) x M)
    as [b ->].
  simpl. eauto.
Qed.

(** ** Runs of [calculate_activity] *)

Lemma classify_and_promote_Ok (env : Env) (guild_list_dict : dict (list string))
    (sb_level_dict : dict pyfloat) (furthest nearest : datetime) (st : LoopState)
    (out : Outcome) :
  classify_and_promote env guild_list_dict sb_level_dict furthest nearest st = Ok out ->
  classify (activity st) (iter (set_order env) (igns_in_grace_period st))
    (flatten_guild_list guild_list_dict) = Ok (out_tiers out)
  /\ get_raw_to_boiled_promotion_igns (activity st) guild_list_dict
       (active_igns (out_tiers out)) (known_guild_join_dates st) nearest
       (clock env 0%nat) = Ok (raw_to_boiled_promotion_igns out)
  /\ get_boiled_to_scrambled_promotion_igns (activity st) guild_list_dict sb_level_dict
       (active_igns (out_tiers out)) (known_guild_join_dates st) nearest
       (clock env 1%nat) = Ok (boiled_to_scrambled_promotion_igns out)
  /\ out_known_guild_join_dates out = known_guild_join_dates st
  /\ out_igns_in_grace_period out = igns_in_grace_period st
  /\ furthest_log_time out = furthest
  /\ nearest_log_time out = nearest.
Proof.
  unfold classify_and_promote. intros H.
  destruct (classify _ _ _) as [tiers|e] eqn:C; simpl in H; [|discriminate].
  destruct (get_raw_to_boiled_promotion_igns _ _ _ _ _ _) as [raw|e] eqn:R;
    simpl in H; [|discriminate].
  destruct (get_boiled_to_scrambled_promotion_igns _ _ _ _ _ _ _) as [boiled|e] eqn:B;
    simpl in H; [|discriminate].
  inversion H; subst; simpl. repeat split; assumption.
Qed.

(** A run that returns has read its three files, found a first log entry,
    gone through the whole log and printed its report. *)
Lemma calculate_activity_Ok (env : Env) (self self' : Tracker) (log_file : string)
    (outs : list Output) (out : Outcome) :
  calculate_activity env self log_file = (outs, self', Ok out) ->
  exists logs guild_list_dict sb_level_dict first st,
    read_log_file env log_file = Contents logs
    /\ guild_list_file env = Contents guild_list_dict
    /\ sb_level_file env = Contents sb_level_dict
    /\ hd_error logs = Some first
    /\ parse_logs (log_timestamp first) (grace_period_end (log_timestamp first))
         (fresh_loop self) logs = (st, None)
    /\ self' = mkTracker (activity st)
    /\ classify_and_promote env guild_list_dict sb_level_dict (log_timestamp first)
         (log_timestamp (last logs first)) st = Ok out
    /\ outs = [PrintGuildList guild_list_dict;
               PrintActivityLog
                 (print_activity_log (activity st) guild_list_dict
                    (known_guild_join_dates st) (out_tiers out)
                    (raw_to_boiled_promotion_igns out)
                    (boiled_to_scrambled_promotion_igns out));
               PrintDisclaimers (log_timestamp first) (log_timestamp (last logs first))
                 (td_days (log_timestamp (last logs first) - log_timestamp first))
                 (td_days (clock env 2%nat - guild_list_mtime env) >? 1)
                 (td_days (clock env 2%nat - sb_level_mtime env) >? 1)].
Proof.
  unfold calculate_activity.
  destruct (read_log_file env log_file) as [|logs]; [discriminate|].
  destruct (guild_list_file env) as [|gld]; [discriminate|].
  destruct (sb_level_file env) as [|sb]; [discriminate|].
  destruct logs as [|first rest]; [discriminate|].
  fold (grace_period_end (log_timestamp first)). fold (fresh_loop self).
  destruct (parse_logs _ _ _ _) as [st [e|]] eqn:P; [discriminate|].
  destruct (classify_and_promote _ _ _ _ _ _) as [o|e] eqn:C; [|discriminate].
  intros H. inversion H; subst; clear H.
  exists (first :: rest), gld, sb, first, st. repeat split; auto.
Qed.

(** The tracker a run leaves holds the records the loop reached, or is the
    tracker it started from when the loop was never entered. *)
Lemma calculate_activity_tracker (env : Env) (self : Tracker) (log_file : string) :
  snd (fst (calculate_activity env self log_file)) = self
  \/ exists logs first,
       read_log_file env log_file = Contents logs /\ hd_error logs = Some first
       /\ snd (fst (calculate_activity env self log_file)) =
          mkTracker (activity (fst (parse_logs (log_timestamp first)
                                      (grace_period_end (log_timestamp first))
                                      (fresh_loop self) logs))).
Proof.
  unfold calculate_activity.
  destruct (read_log_file env log_file) as [|logs]; [now left|].
  destruct (guild_list_file env) as [|gld]; [now left|].
  destruct (sb_level_file env) as [|sb]; [now left|].
  destruct logs as [|first rest]; [now left|].
  right. exists (first :: rest), first.
  fold (grace_period_end (log_timestamp first)). fold (fresh_loop self).
  destruct (parse_logs _ _ _ _) as [st [e|]] eqn:P; simpl; auto.
  destruct (classify_and_promote _ _ _ _ _ _); simpl; auto.
Qed.

Lemma wf_loop_fresh (self : Tracker) :
  wf_activity (self_activity self) -> wf_loop (fresh_loop self).
Proof. intros H. split; [exact H | intros x []]. Qed.

(** Totality: from a well-formed tracker (a new one, or one left by an
    earlier run), with the three files readable, a log that is not empty
    and a roster that has the two ranks the promotion rules look up, a run
    returns. *)
Lemma calculate_activity_returns (env : Env) (self : Tracker) (log_file : string)
    (logs : list Log) (guild_list_dict : dict (list string))
    (sb_level_dict : dict pyfloat) (raw_igns boiled_igns : list string) :
  wf_activity (self_activity self) ->
  read_log_file env log_file = Contents logs ->
  guild_list_file env = Contents guild_list_dict ->
  sb_level_file env = Contents sb_level_dict ->
  logs <> [] ->
  dict_get guild_list_dict RAW_RANK = Some raw_igns ->
  dict_get guild_list_dict BOILED_RANK = Some boiled_igns ->
  exists outs self' out,
    calculate_activity env self log_file = (outs, self', Ok out)
    /\ wf_activity (self_activity self').
Proof.
  intros Hwf Hl Hg Hs Hne Hraw Hboiled.
  unfold calculate_activity. rewrite Hl, Hg, Hs.
  destruct logs as [|first rest]; [contradiction|].
  fold (grace_period_end (log_timestamp first)). fold (fresh_loop self).
  destruct (parse_logs_wf (log_timestamp first) (grace_period_end (log_timestamp first))
              (first :: rest) _ (wf_loop_fresh self Hwf)) as [st [P [Hwf' Hgr]]].
  rewrite P.
  assert (Hgr' : forall x, In x (iter (set_order env) (igns_in_grace_period st)) ->
                           In x (dict_keys (activity st))).
  { intros x Hx. apply Hgr. now apply iter_In in Hx. }
  destruct (classify_ok _ _ (flatten_guild_list guild_list_dict) Hwf' Hgr') as [tiers C].
  assert (Hact : forall x, In x (active_igns tiers) -> In x (dict_keys (activity st))).
  { intros x Hx. destruct (classify_In _ _ _ _ C x) as [HA _].
    apply HA in Hx. destruct Hx as [_ Hx].
    apply long_join_count_keys. unfold NUM_LONG_JOINS_FOR_ACTIVITY in Hx. lia. }
  unfold classify_and_promote. rewrite C. cbn [bind].
  destruct (get_raw_to_boiled_promotion_igns_ok (activity st) guild_list_dict
              (active_igns tiers) (known_guild_join_dates st)
              (log_timestamp (last (first :: rest) first)) (clock env 0%nat) _ Hraw Hact)
    as [raw ->].
  cbn [bind].
  destruct (get_boiled_to_scrambled_promotion_igns_ok (activity st) guild_list_dict
              sb_level_dict (active_igns tiers) (known_guild_join_dates st)
              (log_timestamp (last (first :: rest) first)) (clock env 1%nat) _
              Hboiled Hact)
    as [boiled ->].
  cbn [bind]. do 3 eexists. split; [reflexivity | exact Hwf'].
Qed.

Lemma process_log_grace (furthest grace_end : datetime) (st st' : LoopState) (log : Log) :
  process_log furthest grace_end st log = Ok st' ->
  forall x, In x (igns_in_grace_period st') ->
            x = log_ign log \/ In x (igns_in_grace_period st).
Proof.
  rewrite process_log_unfold.
  destruct (next_info furthest _ log) as [info'|e]; simpl; [|discriminate].
  intros H x. inversion H; subst; clear H. simpl. unfold next_grace.
  destruct (_ && _ && _); [rewrite set_add_In|]; tauto.
Qed.

Lemma parse_logs_grace (furthest grace_end : datetime) (logs : list Log) :
  forall st st', parse_logs furthest grace_end st logs = (st', None) ->
  forall x, In x (igns_in_grace_period st') ->
            In x (map log_ign logs) \/ In x (igns_in_grace_period st).
Proof.
  induction logs as [|log rest IH]; simpl; intros st st' H x Hx.
  - inversion H; subst. now right.
  - destruct (process_log furthest grace_end st log) as [st1|e] eqn:E; [|discriminate].
    destruct (IH _ _ H x Hx) as [Hr | Hr]; [now left; right|].
    destruct (process_log_grace _ _ _ _ _ E x Hr) as [-> | Hg]; auto.
Qed.

(** ** The tiers partition the roster *)

Lemma classify_partition (act : dict ActivityInfo) (grace guild_list : list string)
    (tiers : Tiers) :
  classify act grace guild_list = Ok tiers -> partition_of guild_list tiers.
Proof.
  intros C. pose proof (classify_In _ _ _ _ C) as H.
  assert (Hdec : forall x, In x (active_igns tiers) \/ ~ In x (active_igns tiers)).
  { intros x. destruct (mem x (active_igns tiers)) eqn:M.
    - left. now apply mem_In.
    - right. now apply mem_false_In. }
  assert (Hdec' : forall x, In x (grace_period_igns tiers)
                            \/ ~ In x (grace_period_igns tiers)).
  { intros x. destruct (mem x (grace_period_igns tiers)) eqn:M.
    - left. now apply mem_In.
    - right. now apply mem_false_In. }
  repeat split.
  - intros Hx. destruct (H x) as (HA & HG & HI).
    destruct (Hdec x) as [Ha | Ha]; [now left|].
    destruct (Hdec' x) as [Hg | Hg]; [now right; left|].
    right; right. apply HI. auto.
  - destruct (H x) as (HA & HG & HI).
    intros [Hx | [Hx | Hx]]; [apply HA in Hx | apply HG in Hx | apply HI in Hx]; tauto.
  - intros x Ha Hg. destruct (H x) as (HA & HG & HI). apply HG in Hg. tauto.
  - intros x Ha Hi. destruct (H x) as (HA & HG & HI). apply HI in Hi. tauto.
  - intros x Hg Hi. destruct (H x) as (HA & HG & HI). apply HI in Hi. tauto.
Qed.

(** C3.  Whenever a run of [calculate_activity] returns, its three tiers
    are pairwise disjoint and together hold exactly the igns of the roster
    (so an ign that is not on the roster is in no tier); a roster ign with
    no entry in the log and no record left in the tracker by an earlier run
    (none at all for a new tracker) is in the inactive tier. *)
Theorem tiers_partition_roster (env : Env) (self self' : Tracker) (log_file : string)
    (logs : list Log) (guild_list_dict : dict (list string))
    (outs : list Output) (out : Outcome) :
  read_log_file env log_file = Contents logs ->
  guild_list_file env = Contents guild_list_dict ->
  calculate_activity env self log_file = (outs, self', Ok out) ->
  partition_of (flatten_guild_list guild_list_dict) (out_tiers out)
  /\ (forall x, In x (flatten_guild_list guild_list_dict) ->
                ~ In x (map log_ign logs) ->
                ~ In x (dict_keys (self_activity self)) ->
                In x (inactive_igns (out_tiers out))).
Proof.
  intros Hl Hg Hrun.
  destruct (calculate_activity_Ok _ _ _ _ _ _ Hrun)
    as (logs' & gld & sb & first & st & Hl' & Hg' & _ & _ & P & _ & C & _).
  rewrite Hl in Hl'. inversion Hl'; subst logs'; clear Hl'.
  rewrite Hg in Hg'. inversion Hg'; subst gld; clear Hg'.
  apply classify_and_promote_Ok in C. destruct C as (C & _).
  split; [eapply classify_partition; eassumption|].
  intros x Hx Hnl Hnk.
  destruct (classify_In _ _ _ _ C x) as (HA & HG & HI).
  assert (Hkeys : ~ In x (dict_keys (activity st))).
  { intros Hk. apply (parse_logs_keys _ _ _ _ _ P x) in Hk. simpl in Hk. tauto. }
  assert (Hcount : long_join_count (activity st) x = 0%nat).
  { unfold long_join_count. destruct (dict_get (activity st) x) eqn:D; [|reflexivity].
    exfalso. apply Hkeys. apply dict_get_In_keys. eauto. }
  apply HI. split; [exact Hx|]. split.
  - intros Ha. apply HA in Ha. destruct Ha as [_ Ha]. rewrite Hcount in Ha.
    unfold NUM_LONG_JOINS_FOR_ACTIVITY in Ha. lia.
  - intros Hgr. apply HG in Hgr. destruct Hgr as (_ & Hgr & _).
    apply iter_In in Hgr.
    apply (parse_logs_grace _ _ _ _ _ P x) in Hgr. simpl in Hgr. tauto.
Qed.

Lemma tiers_partition_roster_witness :
  exists outs self' out,
    calculate_activity (sample_env sample_log (at_min 200)) ActivityTracker "logs.json"
      = (outs, self', Ok out)
    /\ out_tiers out = mkTiers ["X"] ["Y"] ["Z"]
    /\ partition_of (flatten_guild_list sample_roster) (out_tiers out)
    /\ (forall x, In x (flatten_guild_list sample_roster) ->
                  ~ In x (map log_ign sample_log) ->
                  ~ In x (dict_keys (self_activity ActivityTracker)) ->
                  In x (inactive_igns (out_tiers out))).
Proof.
  do 3 eexists. split; [vm_compute; reflexivity|]. split; [reflexivity|].
  eapply (tiers_partition_roster (sample_env sample_log (at_min 200)) ActivityTracker _
            "logs.json" sample_log sample_roster); reflexivity.
Defined.

(** ** Who is active *)

(** C5.  Whenever a run returns, a roster ign is in the active tier exactly
    when the tracker holds a record for it whose list of long joins has at
    least [NUM_LONG_JOINS_FOR_ACTIVITY] (2) entries; the length is that of
    the whole list, with no bound on how old a long join may be. *)
Theorem active_iff_long_join_count (env : Env) (self self' : Tracker)
    (log_file : string) (guild_list_dict : dict (list string))
    (outs : list Output) (out : Outcome) (ign : string) :
  guild_list_file env = Contents guild_list_dict ->
  calculate_activity env self log_file = (outs, self', Ok out) ->
  In ign (flatten_guild_list guild_list_dict) ->
  (In ign (active_igns (out_tiers out)) <->
   exists info,
     dict_get (self_activity self') ign = Some info
     /\ (NUM_LONG_JOINS_FOR_ACTIVITY <= List.length (last_long_join info))%nat).
Proof.
  intros Hg Hrun Hin.
  destruct (calculate_activity_Ok _ _ _ _ _ _ Hrun)
    as (logs & gld & sb & first & st & _ & Hg' & _ & _ & _ & -> & C & _).
  rewrite Hg in Hg'. inversion Hg'; subst gld; clear Hg'.
  apply classify_and_promote_Ok in C. destruct C as (C & _).
  destruct (classify_In _ _ _ _ C ign) as (HA & _). cbn [self_activity].
  rewrite HA. unfold long_join_count, NUM_LONG_JOINS_FOR_ACTIVITY.
  destruct (dict_get (activity st) ign) as [info|]; split.
  - intros [_ H]. exists info. split; [reflexivity | exact H].
  - intros (info' & E & H). inversion E; subst info'. split; [exact Hin | exact H].
  - intros [_ H]. simpl in H. lia.
  - intros (info' & E & _). discriminate.
Qed.

Lemma active_iff_long_join_count_witness :
  exists outs self' out,
    calculate_activity (sample_env sample_log (at_min 200)) ActivityTracker "logs.json"
      = (outs, self', Ok out)
    /\ dict_get (self_activity self') "X"
       = Some (mkInfo (Some (at_min 60)) (Some (at_min 100)) [at_min 0; at_min 60])
    /\ In "X" (active_igns (out_tiers out))
    /\ dict_get (self_activity self') "Y" = Some (mkInfo (Some (at_min 101)) None [])
    /\ ~ In "Y" (active_igns (out_tiers out))
    /\ (In "X" (active_igns (out_tiers out)) <->
        exists info,
          dict_get (self_activity self') "X" = Some info
          /\ (NUM_LONG_JOINS_FOR_ACTIVITY <= List.length (last_long_join info))%nat)
    /\ (In "Y" (active_igns (out_tiers out)) <->
        exists info,
          dict_get (self_activity self') "Y" = Some info
          /\ (NUM_LONG_JOINS_FOR_ACTIVITY <= List.length (last_long_join info))%nat).
Proof.
  do 3 eexists. split; [vm_compute; reflexivity|]. split; [vm_compute; reflexivity|].
  split; [left; reflexivity|]. split; [vm_compute; reflexivity|].
  split; [intros [H | []]; discriminate|].
  split.
  - eapply (active_iff_long_join_count (sample_env sample_log (at_min 200))
              ActivityTracker _ "logs.json" sample_roster).
    + vm_compute; reflexivity.
    + vm_compute; reflexivity.
    + vm_compute; auto.
  - eapply (active_iff_long_join_count (sample_env sample_log (at_min 200))
              ActivityTracker _ "logs.json" sample_roster).
    + vm_compute; reflexivity.
    + vm_compute; reflexivity.
    + vm_compute; auto.
Defined.

(** ** Long-join histories are strictly increasing *)

(** C4.  After one run of [calculate_activity] on a new tracker over a log
    in chronological order, the long-join history of every ign on record
    is strictly increasing (so no two consecutive entries are equal). *)
Theorem long_session_starts_strictly_increasing (env : Env) (log_file : string)
    (logs : list Log) (ign : string) (info : ActivityInfo) :
  read_log_file env log_file = Contents logs ->
  chronological logs ->
  dict_get (self_activity (snd (fst (calculate_activity env ActivityTracker log_file))))
    ign = Some info ->
  StronglySorted Z.lt (last_long_join info).
Proof.
  intros Hl Hch.
  destruct (calculate_activity_tracker env ActivityTracker log_file)
    as [-> | (logs' & first & Hl' & Hhd & ->)].
  - discriminate.
  - rewrite Hl in Hl'. inversion Hl'; subst logs'; clear Hl'.
    simpl. intros Hget.
    destruct (parse_logs_ordered (log_timestamp first)
                (grace_period_end (log_timestamp first)) logs
                (log_timestamp first) (fresh_loop ActivityTracker))
      as [b Hb].
    + lia.
    + destruct logs; simpl in *; [exact I | inversion Hhd; subst; lia].
    + exact Hch.
    + intros k i H. discriminate.
    + exact (ordered_long _ _ (Hb ign info Hget)).
Qed.

Lemma long_session_starts_strictly_increasing_witness :
  read_log_file (sample_env sample_log (at_min 200)) "logs.json" = Contents sample_log
  /\ chronological sample_log
  /\ dict_get (self_activity (snd (fst (calculate_activity
                 (sample_env sample_log (at_min 200)) ActivityTracker "logs.json"))))
       "X" = Some (mkInfo (Some (at_min 60)) (Some (at_min 100)) [at_min 0; at_min 60])
  /\ StronglySorted Z.lt [at_min 0; at_min 60].
Proof.
  assert (Hch : chronological sample_log).
  { unfold chronological, sample_log. repeat constructor; vm_compute; discriminate. }
  split; [reflexivity|]. split; [exact Hch|]. split; [reflexivity|].
  exact (long_session_starts_strictly_increasing
           (sample_env sample_log (at_min 200)) "logs.json" sample_log "X"
           (mkInfo (Some (at_min 60)) (Some (at_min 100)) [at_min 0; at_min 60])
           eq_refl Hch eq_refl).
Defined.

(** ** Files that cannot be read, and the empty log *)

(** C9.  When the roster file cannot be read the run ends with an [OSError]
    that names a file - the roster file whenever the log file itself could
    be read - before anything is printed, and the tracker is as it was: no
    tier and no promotion list is produced. *)
Theorem missing_roster_file_aborts (env : Env) (self : Tracker) (log_file : string) :
  guild_list_file env = Unreadable ->
  exists filename,
    calculate_activity env self log_file = ([], self, Raise (OSError filename))
    /\ (forall logs, read_log_file env log_file = Contents logs ->
                     filename = GUILD_LIST_FILENAME).
Proof.
  intros Hg. unfold calculate_activity.
  destruct (read_log_file env log_file) as [|logs].
  - exists log_file. split; [reflexivity | discriminate].
  - rewrite Hg. exists GUILD_LIST_FILENAME. split; reflexivity.
Qed.

Lemma missing_roster_file_aborts_witness :
  guild_list_file no_roster_env = Unreadable
  /\ exists filename,
       calculate_activity no_roster_env ActivityTracker "logs.json"
         = ([], ActivityTracker, Raise (OSError filename))
       /\ (forall logs, read_log_file no_roster_env "logs.json" = Contents logs ->
                        filename = GUILD_LIST_FILENAME).
Proof.
  split; [reflexivity|].
  exact (missing_roster_file_aborts no_roster_env ActivityTracker "logs.json" eq_refl).
Defined.

(** C10.  On an empty log a run raises: no activity table is printed and
    the tracker is as it was.  With the roster and level files readable the
    exception is the [IndexError] of [logs[0]], and only the roster has
    been echoed.  Hence a run that returns had a log with at least one
    entry. *)
Theorem empty_log_raises (env : Env) (self : Tracker) (log_file : string) :
  read_log_file env log_file = Contents [] ->
  exists outs e,
    calculate_activity env self log_file = (outs, self, Raise e)
    /\ (forall report, ~ In (PrintActivityLog report) outs)
    /\ (forall guild_list_dict sb_level_dict,
          guild_list_file env = Contents guild_list_dict ->
          sb_level_file env = Contents sb_level_dict ->
          e = IndexError /\ outs = [PrintGuildList guild_list_dict]).
Proof.
  intros Hl. unfold calculate_activity. rewrite Hl.
  destruct (guild_list_file env) as [|gld].
  - do 2 eexists. split; [reflexivity|]. split; [intros r []|]. discriminate.
  - destruct (sb_level_file env) as [|sb].
    + do 2 eexists. split; [reflexivity|]. split.
      * intros r [H | []]. discriminate.
      * discriminate.
    + do 2 eexists. split; [reflexivity|]. split.
      * intros r [H | []]. discriminate.
      * intros g s Hg Hs. inversion Hg; subst. auto.
Qed.

Lemma empty_log_raises_witness :
  read_log_file (sample_env [] (at_min 200)) "logs.json" = Contents []
  /\ exists outs e,
       calculate_activity (sample_env [] (at_min 200)) ActivityTracker "logs.json"
         = (outs, ActivityTracker, Raise e)
       /\ (forall report, ~ In (PrintActivityLog report) outs)
       /\ (forall guild_list_dict sb_level_dict,
             guild_list_file (sample_env [] (at_min 200)) = Contents guild_list_dict ->
             sb_level_file (sample_env [] (at_min 200)) = Contents sb_level_dict ->
             e = IndexError /\ outs = [PrintGuildList guild_list_dict]).
Proof.
  split; [reflexivity|].
  exact (empty_log_raises (sample_env [] (at_min 200)) ActivityTracker "logs.json" eq_refl).
Defined.

(** ** Promotion with an unknown guild-join date *)

Lemma unknown_printed_disjoint (known : dict datetime) (promotion : list string) (x : string) :
  In x (unknown_join_igns known promotion) -> ~ In x (printed_promotion known promotion).
Proof.
  intros Hu Hp. unfold printed_promotion in Hp.
  apply filter_In in Hp. destruct Hp as [_ Hp].
  apply Bool.negb_true_iff, mem_false_In in Hp. contradiction.
Qed.

Lemma unknown_printed_cover (known : dict datetime) (promotion : list string) (x : string) :
  In x promotion <->
  In x (unknown_join_igns known promotion) \/ In x (printed_promotion known promotion).
Proof.
  unfold printed_promotion. rewrite filter_In, Bool.negb_true_iff. split.
  - intros Hx. destruct (mem x (unknown_join_igns known promotion)) eqn:M.
    + left. now apply mem_In.
    + right. auto.
  - intros [Hx | [Hx _]]; [|exact Hx].
    unfold unknown_join_igns in Hx. now apply filter_In in Hx.
Qed.

Lemma tenure_ok_unknown (known : dict datetime) (join_date_end : datetime) (ign : string) :
  dict_get known ign = None -> tenure_ok known join_date_end ign = true.
Proof. unfold tenure_ok. now intros ->. Qed.

(** C8.  Whenever a run returns: an ign of the rank "Raw Egg" that is in
    the active tier, whose last long join is not before the start of the
    recency window, and for which no guild-join date is known, is in the
    raw-to-boiled promotion list, is named in the warning that asks for a
    manual check, and is not in the list printed as clear.  The warning list
    and the printed list are disjoint and together make up the promotion
    list. *)
Theorem unknown_guild_join_date_is_flagged (env : Env) (self self' : Tracker)
    (log_file : string) (guild_list_dict : dict (list string)) (raw_igns : list string)
    (outs : list Output) (out : Outcome) (report : Report) (ign : string) :
  calculate_activity env self log_file = (outs, self', Ok out) ->
  guild_list_file env = Contents guild_list_dict ->
  dict_get guild_list_dict RAW_RANK = Some raw_igns ->
  In (PrintActivityLog report) outs ->
  In ign raw_igns ->
  In ign (active_igns (out_tiers out)) ->
  recent_long_joins (self_activity self') NUM_LONG_JOINS_FOR_RAW_PROMOTION
    (nearest_log_time out - timedelta_minutes MINS_FOR_RAW_PROMOTION_ACTIVITY_RANGE)
    ign = Ok true ->
  dict_get (out_known_guild_join_dates out) ign = None ->
  In ign (raw_to_boiled_promotion_igns out)
  /\ In ign (rep_raw_unknown_join_igns report)
  /\ ~ In ign (rep_raw_printed report)
  /\ (forall x, In x (rep_raw_unknown_join_igns report) -> ~ In x (rep_raw_printed report))
  /\ (forall x, In x (raw_to_boiled_promotion_igns out) <->
                In x (rep_raw_unknown_join_igns report) \/ In x (rep_raw_printed report)).
Proof.
  intros Hrun Hg Hraw Hrep Hin Hact Hrecent Hknown.
  destruct (calculate_activity_Ok _ _ _ _ _ _ Hrun)
    as (logs & gld & sb & first & st & _ & Hg' & _ & _ & _ & -> & C & ->).
  rewrite Hg in Hg'. inversion Hg'; subst gld; clear Hg'.
  apply classify_and_promote_Ok in C.
  destruct C as (_ & R & _ & Hk & _ & _ & Hn).
  assert (Hreport : report =
            print_activity_log (activity st) guild_list_dict (known_guild_join_dates st)
              (out_tiers out) (raw_to_boiled_promotion_igns out)
              (boiled_to_scrambled_promotion_igns out)).
  { destruct Hrep as [H | [H | [H | []]]]; try discriminate. now inversion H. }
  subst report. simpl in *. rewrite Hk in Hknown. rewrite Hn in Hrecent.
  assert (Hpromo : In ign (raw_to_boiled_promotion_igns out)).
  { unfold get_raw_to_boiled_promotion_igns in R. rewrite Hraw in R.
    apply (filter_r_In _ _ _ R ign). split; [exact Hin|].
    apply mem_In in Hact. rewrite Hact, Hrecent. simpl.
    now rewrite (tenure_ok_unknown _ _ _ Hknown). }
  assert (Hunk : In ign (unknown_join_igns (known_guild_join_dates st)
                           (raw_to_boiled_promotion_igns out))).
  { unfold unknown_join_igns. apply filter_In. split; [exact Hpromo|].
    unfold dict_mem. now rewrite Hknown. }
  split; [exact Hpromo|]. split; [exact Hunk|].
  split; [now apply unknown_printed_disjoint|].
  split; [intros x; apply unknown_printed_disjoint | intros x; apply unknown_printed_cover].
Qed.

Lemma unknown_guild_join_date_is_flagged_witness :
  exists outs self' out report,
    calculate_activity (sample_env sample_log (at_min 200)) ActivityTracker "logs.json"
      = (outs, self', Ok out)
    /\ In (PrintActivityLog report) outs
    /\ rep_raw_unknown_join_igns report = ["X"]
    /\ rep_raw_printed report = []
    /\ In "X" (raw_to_boiled_promotion_igns out)
    /\ In "X" (rep_raw_unknown_join_igns report)
    /\ ~ In "X" (rep_raw_printed report)
    /\ (forall x, In x (rep_raw_unknown_join_igns report) -> ~ In x (rep_raw_printed report))
    /\ (forall x, In x (raw_to_boiled_promotion_igns out) <->
                  In x (rep_raw_unknown_join_igns report) \/ In x (rep_raw_printed report)).
Proof.
  do 4 eexists. split; [vm_compute; reflexivity|].
  split; [right; left; reflexivity|].
  split; [reflexivity|]. split; [reflexivity|].
  eapply (unknown_guild_join_date_is_flagged
            (sample_env sample_log (at_min 200)) ActivityTracker _ "logs.json"
            sample_roster ["X"; "Z"]).
  - reflexivity.
  - reflexivity.
  - reflexivity.
  - right; left; reflexivity.
  - left; reflexivity.
  - left; reflexivity.
  - reflexivity.
  - reflexivity.
Defined.

(** The second transition has the same treatment of an unknown guild-join
    date, behind its additional gate on the level. *)
Lemma unknown_guild_join_date_boiled (env : Env) (self self' : Tracker)
    (log_file : string) (guild_list_dict : dict (list string))
    (sb_level_dict : dict pyfloat) (boiled_igns : list string)
    (outs : list Output) (out : Outcome) (report : Report) (ign : string) :
  calculate_activity env self log_file = (outs, self', Ok out) ->
  guild_list_file env = Contents guild_list_dict ->
  sb_level_file env = Contents sb_level_dict ->
  dict_get guild_list_dict BOILED_RANK = Some boiled_igns ->
  In (PrintActivityLog report) outs ->
  In ign boiled_igns ->
  In ign (active_igns (out_tiers out)) ->
  recent_long_joins (self_activity self') NUM_LONG_JOINS_FOR_BOILED_PROMOTION
    (nearest_log_time out - timedelta_minutes MINS_FOR_BOILED_PROMOTION_ACTIVITY_RANGE)
    ign = Ok true ->
  float_ge (match dict_get sb_level_dict ign with
            | Some x => x
            | None => Finite (inject_Z (-1))
            end) SCRAMBLED_SB_LEVEL = true ->
  dict_get (out_known_guild_join_dates out) ign = None ->
  In ign (boiled_to_scrambled_promotion_igns out)
  /\ In ign (rep_boiled_unknown_join_igns report)
  /\ ~ In ign (rep_boiled_printed report).
Proof.
  intros Hrun Hg Hs Hboiled Hrep Hin Hact Hrecent Hlevel Hknown.
  destruct (calculate_activity_Ok _ _ _ _ _ _ Hrun)
    as (logs & gld & sb & first & st & _ & Hg' & Hs' & _ & _ & -> & C & ->).
  rewrite Hg in Hg'. inversion Hg'; subst gld; clear Hg'.
  rewrite Hs in Hs'. inversion Hs'; subst sb; clear Hs'.
  apply classify_and_promote_Ok in C.
  destruct C as (_ & _ & B & Hk & _ & _ & Hn).
  assert (Hreport : report =
            print_activity_log (activity st) guild_list_dict (known_guild_join_dates st)
              (out_tiers out) (raw_to_boiled_promotion_igns out)
              (boiled_to_scrambled_promotion_igns out)).
  { destruct Hrep as [H | [H | [H | []]]]; try discriminate. now inversion H. }
  subst report. simpl in *. rewrite Hk in Hknown. rewrite Hn in Hrecent.
  assert (Hpromo : In ign (boiled_to_scrambled_promotion_igns out)).
  { unfold get_boiled_to_scrambled_promotion_igns in B. rewrite Hboiled in B.
    apply (filter_r_In _ _ _ B ign). split; [exact Hin|].
    apply mem_In in Hact. rewrite Hact, Hrecent. cbn [bind].
    now rewrite (tenure_ok_unknown _ _ _ Hknown), Hlevel. }
  assert (Hunk : In ign (unknown_join_igns (known_guild_join_dates st)
                           (boiled_to_scrambled_promotion_igns out))).
  { unfold unknown_join_igns. apply filter_In. split; [exact Hpromo|].
    unfold dict_mem. now rewrite Hknown. }
  split; [exact Hpromo|]. split; [exact Hunk|].
  now apply unknown_printed_disjoint.
Qed.

(** ** Guild joins and the grace period *)

(** C6, as stated, fails: the guild join of X is 100 days before the latest
    timestamp of the log, outside the 60 days, and X is a grace-period
    candidate all the same (and ends in the grace-period tier). *)
Lemma grace_window_not_from_latest :
  exists outs self' out,
    calculate_activity (sample_env grace_log (at_min (100 * 1440))) ActivityTracker
      "logs.json" = (outs, self', Ok out)
    /\ nearest_log_time out = at_min (100 * 1440)
    /\ dict_get (out_known_guild_join_dates out) "X" = Some (at_min 0)
    /\ ~ within_grace_window_of (nearest_log_time out) (at_min 0)
    /\ In "X" (out_igns_in_grace_period out)
    /\ In "X" (grace_period_igns (out_tiers out)).
Proof.
  do 3 eexists. split; [vm_compute; reflexivity|].
  split; [reflexivity|]. split; [reflexivity|].
  split; [vm_compute; intros H; apply H; reflexivity|].
  split; left; reflexivity.
Qed.

(** C6, amended.  A guild-join entry for an ign at time [t] records [t] as
    the ign's guild-join date, and makes the ign a grace-period candidate
    exactly when [t] is no earlier than 60 days before [furthest], the
    timestamp of the first entry of the log (the earliest one, in a
    chronological log); no other ign's candidacy changes. *)
Theorem guild_join_marks_grace_candidate (furthest : datetime) (st : LoopState)
    (log : Log) :
  wf_activity (activity st) ->
  log_is_join log = true ->
  log_is_guild_join log = true ->
  exists st',
    process_log furthest (grace_period_end furthest) st log = Ok st'
    /\ dict_get (known_guild_join_dates st') (log_ign log) = Some (log_timestamp log)
    /\ (within_grace_window_of furthest (log_timestamp log) ->
        In (log_ign log) (igns_in_grace_period st'))
    /\ (~ within_grace_window_of furthest (log_timestamp log) ->
        igns_in_grace_period st' = igns_in_grace_period st)
    /\ (forall x, x <> log_ign log ->
          (In x (igns_in_grace_period st') <-> In x (igns_in_grace_period st))).
Proof.
  intros Hwf Hj Hgj.
  destruct (process_log_ok furthest (grace_period_end furthest) st log Hwf)
    as [st' [E _]].
  exists st'. split; [exact E|].
  rewrite process_log_unfold in E.
  destruct (next_info furthest _ log) as [info'|e]; simpl in E; [|discriminate].
  inversion E; subst; clear E. simpl.
  unfold next_known, next_grace, within_grace_window_of, grace_period_end.
  rewrite Hj, Hgj. simpl.
  split; [apply dict_get_set_same|].
  destruct (log_timestamp log >=? furthest - timedelta_minutes MINS_FOR_ACTIVITY_RANGE)
    eqn:G.
  - apply Z.geb_le in G. repeat split.
    + intros _. apply set_add_In. now left.
    + intros Hout. contradiction.
    + rewrite set_add_In. intros [? | ?]; [contradiction | assumption].
    + intros Hin. apply set_add_In. now right.
  - assert (Hout : ~ furthest - timedelta_minutes MINS_FOR_ACTIVITY_RANGE
                     <= log_timestamp log).
    { intros Hle. apply Z.geb_le in Hle. congruence. }
    repeat split; tauto.
Qed.

Lemma guild_join_marks_grace_candidate_witness :
  wf_activity []
  /\ exists st',
       process_log (at_min 0) (grace_period_end (at_min 0)) (mkLoop [] [] [])
         (mkLog (at_min 0) "X" true true) = Ok st'
       /\ dict_get (known_guild_join_dates st') "X" = Some (at_min 0)
       /\ (within_grace_window_of (at_min 0) (at_min 0) ->
           In "X" (igns_in_grace_period st'))
       /\ (~ within_grace_window_of (at_min 0) (at_min 0) ->
           igns_in_grace_period st' = [])
       /\ (forall x, x <> "X" -> (In x (igns_in_grace_period st') <-> In x [])).
Proof.
  split; [exact wf_activity_nil|].
  exact (guild_join_marks_grace_candidate (at_min 0) (mkLoop [] [] [])
           (mkLog (at_min 0) "X" true true) wf_activity_nil eq_refl eq_refl).
Defined.

(** ** Runs as functions of their inputs *)

Lemma filter_r_same_raise {A} (p q : A -> result bool) (l : list A) :
  (forall x, same_raise (p x) (q x)) ->
  same_raise (filter_r p l) (filter_r q l).
Proof.
  intros H. induction l as [|x l IH]; simpl.
  - exact I.
  - specialize (H x). destruct (p x), (q x); simpl in *; try contradiction; auto.
    destruct (filter_r p l), (filter_r q l); simpl in *; auto.
Qed.

Lemma raw_promotion_same_raise (act : dict ActivityInfo)
    (guild_list_dict : dict (list string)) (active : list string)
    (known : dict datetime) (nearest today1 today2 : datetime) :
  same_raise
    (get_raw_to_boiled_promotion_igns act guild_list_dict active known nearest today1)
    (get_raw_to_boiled_promotion_igns act guild_list_dict active known nearest today2).
Proof.
  unfold get_raw_to_boiled_promotion_igns.
  destruct (dict_get guild_list_dict RAW_RANK); [|reflexivity].
  apply filter_r_same_raise. intros x.
  destruct (mem x active); [|exact I].
  destruct (recent_long_joins _ _ _ _); simpl; auto.
Qed.

Lemma boiled_promotion_same_raise (act : dict ActivityInfo)
    (guild_list_dict : dict (list string)) (sb_level_dict : dict pyfloat)
    (active : list string) (known : dict datetime) (nearest today1 today2 : datetime) :
  same_raise
    (get_boiled_to_scrambled_promotion_igns act guild_list_dict sb_level_dict active
       known nearest today1)
    (get_boiled_to_scrambled_promotion_igns act guild_list_dict sb_level_dict active
       known nearest today2).
Proof.
  unfold get_boiled_to_scrambled_promotion_igns.
  destruct (dict_get guild_list_dict BOILED_RANK); [|reflexivity].
  apply filter_r_same_raise. intros x.
  destruct (mem x active); [|exact I].
  destruct (recent_long_joins _ _ _ _); simpl; auto.
Qed.

Lemma filter_Permutation {A} (p : A -> bool) (l l' : list A) :
  Permutation l l' -> Permutation (filter p l) (filter p l').
Proof.
  induction 1 as [|x l l' _ IH|x y l|l l' l'' _ IH1 _ IH2]; simpl.
  - constructor.
  - destruct (p x); [now constructor | exact IH].
  - destruct (p x), (p y); try apply Permutation_refl. apply perm_swap.
  - eapply Permutation_trans; eassumption.
Qed.

Lemma mem_Permutation (x : string) (l l' : list string) :
  Permutation l l' -> mem x l = mem x l'.
Proof.
  intros HP. destruct (mem x l') eqn:M.
  - apply mem_In. apply mem_In in M. eapply Permutation_in; [|exact M].
    now apply Permutation_sym.
  - apply mem_false_In. apply mem_false_In in M. intros Hx. apply M.
    eapply Permutation_in; eassumption.
Qed.

(** The order in which the grace-period candidates are read decides the
    order of the grace-period tier and nothing else. *)
Lemma classify_grace_order (act : dict ActivityInfo) (grace1 grace2 guild_list : list string)
    (tiers1 tiers2 : Tiers) :
  Permutation grace1 grace2 ->
  classify act grace1 guild_list = Ok tiers1 ->
  classify act grace2 guild_list = Ok tiers2 ->
  active_igns tiers1 = active_igns tiers2
  /\ Permutation (grace_period_igns tiers1) (grace_period_igns tiers2)
  /\ inactive_igns tiers1 = inactive_igns tiers2.
Proof.
  intros HP. unfold classify.
  destruct (sorted_by_last_join act (get_active_igns act)) as [active0|e];
    cbn [bind]; [|discriminate].
  destruct (sorted_by_last_join act (filter _ (dict_keys act))) as [seen|e];
    cbn [bind]; [|discriminate].
  destruct (sorted_by_last_join act grace1) as [g1|e] eqn:G1; cbn [bind]; [|discriminate].
  destruct (sorted_by_last_join act grace2) as [g2|e] eqn:G2; cbn [bind]; [|discriminate].
  intros H1 H2. inversion H1; subst; clear H1. inversion H2; subst; clear H2.
  cbn [active_igns grace_period_igns inactive_igns].
  assert (HG : Permutation g1 g2).
  { eapply Permutation_trans; [exact (sorted_by_last_join_perm _ _ _ G1)|].
    eapply Permutation_trans; [exact HP|].
    apply Permutation_sym. exact (sorted_by_last_join_perm _ _ _ G2). }
  assert (HG' : Permutation
                  (filter (fun ign => negb (mem ign (filter (fun ign => mem ign guild_list)
                                                       active0)))
                     (filter (fun ign => mem ign guild_list) g1))
                  (filter (fun ign => negb (mem ign (filter (fun ign => mem ign guild_list)
                                                       active0)))
                     (filter (fun ign => mem ign guild_list) g2))).
  { now do 2 apply filter_Permutation. }
  split; [reflexivity|]. split; [exact HG'|].
  apply filter_ext. intros x. f_equal. now apply mem_Permutation.
Qed.

(** After a loop that started from a well-formed tracker, neither the clock
    nor the order of the sets decides whether the rest of the run raises,
    nor which igns are in which tier. *)
Lemma classify_and_promote_orders (env1 env2 : Env) (guild_list_dict : dict (list string))
    (sb_level_dict : dict pyfloat) (furthest nearest : datetime) (st : LoopState) :
  wf_loop st ->
  same_tiers_but_grace_order
    (tiers_of (classify_and_promote env1 guild_list_dict sb_level_dict furthest nearest st))
    (tiers_of (classify_and_promote env2 guild_list_dict sb_level_dict furthest nearest st))
  /\ (clock env1 0%nat = clock env2 0%nat ->
      clock env1 1%nat = clock env2 1%nat ->
      promotions_of
        (classify_and_promote env1 guild_list_dict sb_level_dict furthest nearest st)
      = promotions_of
          (classify_and_promote env2 guild_list_dict sb_level_dict furthest nearest st)).
Proof.
  intros [Hwf Hgr].
  assert (Hin : forall env x, In x (iter (set_order env) (igns_in_grace_period st)) ->
                              In x (dict_keys (activity st))).
  { intros env x Hx. apply Hgr. now apply iter_In in Hx. }
  destruct (classify_ok _ _ (flatten_guild_list guild_list_dict) Hwf (Hin env1))
    as [tiers1 C1].
  destruct (classify_ok _ _ (flatten_guild_list guild_list_dict) Hwf (Hin env2))
    as [tiers2 C2].
  assert (HP : Permutation (iter (set_order env1) (igns_in_grace_period st))
                 (iter (set_order env2) (igns_in_grace_period st))).
  { eapply Permutation_trans; [apply iter_perm | apply Permutation_sym, iter_perm]. }
  destruct (classify_grace_order _ _ _ _ _ _ HP C1 C2) as (Ha & Hg & Hi).
  unfold classify_and_promote. rewrite C1, C2. cbn [bind]. rewrite <- Ha.
  split.
  - pose proof (raw_promotion_same_raise (activity st) guild_list_dict (active_igns tiers1)
                  (known_guild_join_dates st) nearest (clock env1 0%nat) (clock env2 0%nat))
      as HR.
    destruct (get_raw_to_boiled_promotion_igns _ _ _ _ _ (clock env1 0%nat)),
             (get_raw_to_boiled_promotion_igns _ _ _ _ _ (clock env2 0%nat));
      simpl in HR; try contradiction; cbn [bind]; [|exact HR].
    pose proof (boiled_promotion_same_raise (activity st) guild_list_dict sb_level_dict
                  (active_igns tiers1) (known_guild_join_dates st) nearest
                  (clock env1 1%nat) (clock env2 1%nat))
      as HB.
    destruct (get_boiled_to_scrambled_promotion_igns _ _ _ _ _ _ (clock env1 1%nat)),
             (get_boiled_to_scrambled_promotion_igns _ _ _ _ _ _ (clock env2 1%nat));
      simpl in HB; try contradiction; cbn [bind]; [|exact HB].
    simpl. rewrite Ha. auto.
  - intros H0 H1. rewrite H0, H1.
    destruct (get_raw_to_boiled_promotion_igns _ _ _ _ _ _); cbn [bind]; [|reflexivity].
    destruct (get_boiled_to_scrambled_promotion_igns _ _ _ _ _ _ _); reflexivity.
Qed.

Lemma classify_and_promote_tiers (env1 env2 : Env) (guild_list_dict : dict (list string))
    (sb_level_dict : dict pyfloat) (furthest nearest : datetime) (st : LoopState) :
  same_set_order env1 env2 ->
  tiers_of (classify_and_promote env1 guild_list_dict sb_level_dict furthest nearest st)
  = tiers_of (classify_and_promote env2 guild_list_dict sb_level_dict furthest nearest st).
Proof.
  intros Hso. unfold classify_and_promote, tiers_of. rewrite Hso.
  destruct (classify _ _ _) as [tiers|e]; [|reflexivity]. cbn [bind].
  pose proof (raw_promotion_same_raise (activity st) guild_list_dict (active_igns tiers)
                (known_guild_join_dates st) nearest (clock env1 0%nat) (clock env2 0%nat))
    as HR.
  destruct (get_raw_to_boiled_promotion_igns _ _ _ _ _ (clock env1 0%nat)),
           (get_raw_to_boiled_promotion_igns _ _ _ _ _ (clock env2 0%nat));
    simpl in HR; try contradiction; cbn [bind]; [|now subst].
  pose proof (boiled_promotion_same_raise (activity st) guild_list_dict sb_level_dict
                (active_igns tiers) (known_guild_join_dates st) nearest
                (clock env1 1%nat) (clock env2 1%nat))
    as HB.
  destruct (get_boiled_to_scrambled_promotion_igns _ _ _ _ _ _ (clock env1 1%nat)),
           (get_boiled_to_scrambled_promotion_igns _ _ _ _ _ _ (clock env2 1%nat));
    simpl in HB; try contradiction; cbn [bind]; [reflexivity | now subst].
Qed.

Lemma classify_and_promote_clock (env1 env2 : Env) (guild_list_dict : dict (list string))
    (sb_level_dict : dict pyfloat) (furthest nearest : datetime) (st : LoopState) :
  same_set_order env1 env2 ->
  clock env1 0%nat = clock env2 0%nat ->
  clock env1 1%nat = clock env2 1%nat ->
  classify_and_promote env1 guild_list_dict sb_level_dict furthest nearest st
  = classify_and_promote env2 guild_list_dict sb_level_dict furthest nearest st.
Proof.
  intros Hso H0 H1. unfold classify_and_promote. now rewrite Hso, H0, H1.
Qed.

(** The tracker and the result of a run, its prints left aside. *)
Lemma calculate_activity_result (env : Env) (self : Tracker) (log_file : string) :
  (snd (fst (calculate_activity env self log_file)),
   snd (calculate_activity env self log_file))
  = match read_log_file env log_file with
    | Unreadable => (self, Raise (OSError log_file))
    | Contents logs =>
    match guild_list_file env with
    | Unreadable => (self, Raise (OSError GUILD_LIST_FILENAME))
    | Contents guild_list_dict =>
    match sb_level_file env with
    | Unreadable => (self, Raise (OSError SB_LEVEL_LIST_FILENAME))
    | Contents sb_level_dict =>
    match hd_error logs with
    | None => (self, Raise IndexError)
    | Some first =>
        let parsed := parse_logs (log_timestamp first)
                        (grace_period_end (log_timestamp first)) (fresh_loop self) logs in
        (mkTracker (activity (fst parsed)),
         match snd parsed with
         | Some e => Raise e
         | None =>
             classify_and_promote env guild_list_dict sb_level_dict
               (log_timestamp first) (log_timestamp (last logs first)) (fst parsed)
         end)
    end end end end.
Proof.
  unfold calculate_activity.
  destruct (read_log_file env log_file) as [|logs]; [reflexivity|].
  destruct (guild_list_file env) as [|gld]; [reflexivity|].
  destruct (sb_level_file env) as [|sb]; [reflexivity|].
  destruct logs as [|first rest]; [reflexivity|].
  cbn [hd_error].
  fold (grace_period_end (log_timestamp first)). fold (fresh_loop self).
  destruct (parse_logs _ _ _ _) as [st [e|]]; [reflexivity|].
  cbn [fst snd].
  destruct (classify_and_promote _ _ _ _ _ _); reflexivity.
Qed.

(** C7, as stated, fails three times.  A second run on the same tracker,
    with the same files and the same clock, puts X in the active tier where
    the first run did not: the records of the first run are still in
    [self.activity].  Two runs on new trackers with the same three files
    give different promotion lists when the clock differs by a month.  And
    two runs on new trackers with the same three files and the same clock
    give the grace-period tier in two different orders when their processes
    iterate the set of grace-period candidates in different orders. *)
Lemma rerun_or_clock_changes_result :
  (exists outs1 self1 out1 outs2 self2 out2,
     calculate_activity (sample_env rerun_log (at_min 200)) ActivityTracker "logs.json"
       = (outs1, self1, Ok out1)
     /\ calculate_activity (sample_env rerun_log (at_min 200)) self1 "logs.json"
       = (outs2, self2, Ok out2)
     /\ active_igns (out_tiers out1) = []
     /\ active_igns (out_tiers out2) = ["X"])
  /\ (exists outs1 self1 out1 outs2 self2 out2,
     calculate_activity (sample_env tenure_log (at_min 200)) ActivityTracker "logs.json"
       = (outs1, self1, Ok out1)
     /\ calculate_activity (sample_env tenure_log (at_min (31 * 1440))) ActivityTracker
          "logs.json" = (outs2, self2, Ok out2)
     /\ raw_to_boiled_promotion_igns out1 = []
     /\ raw_to_boiled_promotion_igns out2 = ["X"])
  /\ (exists outs1 self1 out1 outs2 self2 out2,
     calculate_activity (sample_env tied_log (at_min 200)) ActivityTracker "logs.json"
       = (outs1, self1, Ok out1)
     /\ calculate_activity (reversed_env tied_log (at_min 200)) ActivityTracker
          "logs.json" = (outs2, self2, Ok out2)
     /\ grace_period_igns (out_tiers out1) = ["X"; "Y"]
     /\ grace_period_igns (out_tiers out2) = ["Y"; "X"]).
Proof.
  split; [|split].
  - do 6 eexists. split; [vm_compute; reflexivity|].
    split; [vm_compute; reflexivity|]. split; reflexivity.
  - do 6 eexists. split; [vm_compute; reflexivity|].
    split; [vm_compute; reflexivity|]. split; reflexivity.
  - do 6 eexists. split; [vm_compute; reflexivity|].
    split; [vm_compute; reflexivity|]. split; reflexivity.
Qed.

(** C7, amended.  A run on a new or reset tracker is determined by the log,
    the roster, the level directory, the clock and the order in which the
    process iterates its sets.  Two such runs that read the same three
    files leave the same tracker and, whatever their clocks and set orders,
    raise the same exception or give the same active tier, the same
    inactive tier and the same igns in the grace-period tier; they give the
    grace-period tier in the same order when their set orders are the
    same, the same promotion lists when the clock reads the same at the two
    promotion rules, and the same outcome when both are the same. *)
Theorem reset_run_determined_by_inputs_and_clock (env1 env2 : Env)
    (self1 self2 : Tracker) (log_file : string) :
  read_log_file env1 log_file = read_log_file env2 log_file ->
  guild_list_file env1 = guild_list_file env2 ->
  sb_level_file env1 = sb_level_file env2 ->
  snd (fst (calculate_activity env1 (_reset self1) log_file))
  = snd (fst (calculate_activity env2 (_reset self2) log_file))
  /\ same_tiers_but_grace_order
       (tiers_of (snd (calculate_activity env1 (_reset self1) log_file)))
       (tiers_of (snd (calculate_activity env2 (_reset self2) log_file)))
  /\ (same_set_order env1 env2 ->
      tiers_of (snd (calculate_activity env1 (_reset self1) log_file))
      = tiers_of (snd (calculate_activity env2 (_reset self2) log_file)))
  /\ (clock env1 0%nat = clock env2 0%nat ->
      clock env1 1%nat = clock env2 1%nat ->
      promotions_of (snd (calculate_activity env1 (_reset self1) log_file))
      = promotions_of (snd (calculate_activity env2 (_reset self2) log_file)))
  /\ (same_set_order env1 env2 ->
      clock env1 0%nat = clock env2 0%nat ->
      clock env1 1%nat = clock env2 1%nat ->
      snd (calculate_activity env1 (_reset self1) log_file)
      = snd (calculate_activity env2 (_reset self2) log_file)).
Proof.
  intros Hl Hg Hs.
  pose proof (calculate_activity_result env1 (_reset self1) log_file) as E1.
  pose proof (calculate_activity_result env2 (_reset self2) log_file) as E2.
  rewrite <- Hl, <- Hg, <- Hs in E2.
  change (fresh_loop (_reset self2)) with (fresh_loop (_reset self1)) in E2.
  destruct (read_log_file env1 log_file) as [|logs];
    [injection E1 as -> ->; injection E2 as -> ->; simpl; auto 6|].
  destruct (guild_list_file env1) as [|gld];
    [injection E1 as -> ->; injection E2 as -> ->; simpl; auto 6|].
  destruct (sb_level_file env1) as [|sb];
    [injection E1 as -> ->; injection E2 as -> ->; simpl; auto 6|].
  destruct (hd_error logs) as [first|];
    [|injection E1 as -> ->; injection E2 as -> ->; simpl; auto 6].
  cbv zeta in E1, E2.
  destruct (parse_logs_wf (log_timestamp first) (grace_period_end (log_timestamp first))
              logs _ (wf_loop_fresh (_reset self1) wf_activity_nil)) as [st [P Hwf]].
  rewrite P in E1, E2. cbn [fst snd] in E1, E2.
  injection E1 as -> ->. injection E2 as -> ->.
  split; [reflexivity|].
  destruct (classify_and_promote_orders env1 env2 gld sb (log_timestamp first)
              (log_timestamp (last logs first)) st Hwf) as [HT HP].
  split; [exact HT|]. split; [apply classify_and_promote_tiers|].
  split; [exact HP|]. apply classify_and_promote_clock.
Qed.

Lemma reset_run_determined_by_inputs_and_clock_witness :
  (tiers_of (snd (calculate_activity (sample_env tied_log (at_min 200))
                    (_reset ActivityTracker) "logs.json"))
   = Ok (mkTiers [] ["X"; "Y"] ["Z"])
   /\ tiers_of (snd (calculate_activity (reversed_env tied_log (at_min (31 * 1440)))
                       (_reset (mkTracker [("X", new_info)])) "logs.json"))
      = Ok (mkTiers [] ["Y"; "X"] ["Z"])
   /\ snd (fst (calculate_activity (sample_env tied_log (at_min 200))
                  (_reset ActivityTracker) "logs.json"))
      = snd (fst (calculate_activity (reversed_env tied_log (at_min (31 * 1440)))
                    (_reset (mkTracker [("X", new_info)])) "logs.json"))
   /\ same_tiers_but_grace_order
        (tiers_of (snd (calculate_activity (sample_env tied_log (at_min 200))
                          (_reset ActivityTracker) "logs.json")))
        (tiers_of (snd (calculate_activity (reversed_env tied_log (at_min (31 * 1440)))
                          (_reset (mkTracker [("X", new_info)])) "logs.json"))))
  /\ (promotions_of (snd (calculate_activity (sample_env tenure_log (at_min (31 * 1440)))
                            (_reset ActivityTracker) "logs.json"))
      = Ok (["X"], [])
      /\ promotions_of (snd (calculate_activity (sample_env tenure_log (at_min (31 * 1440)))
                               (_reset ActivityTracker) "logs.json"))
         = promotions_of (snd (calculate_activity
                                 (reversed_env tenure_log (at_min (31 * 1440)))
                                 (_reset (mkTracker [("X", new_info)])) "logs.json")))
  /\ (tiers_of (snd (calculate_activity (sample_env tenure_log (at_min (31 * 1440)))
                       (_reset ActivityTracker) "logs.json"))
      = tiers_of (snd (calculate_activity (sample_env tenure_log (at_min (31 * 1440)))
                         (_reset (mkTracker [("X", new_info)])) "logs.json"))
      /\ snd (calculate_activity (sample_env tenure_log (at_min (31 * 1440)))
                (_reset ActivityTracker) "logs.json")
         = snd (calculate_activity (sample_env tenure_log (at_min (31 * 1440)))
                  (_reset (mkTracker [("X", new_info)])) "logs.json")).
Proof.
  split; [|split].
  - split; [vm_compute; reflexivity|]. split; [vm_compute; reflexivity|].
    pose proof (reset_run_determined_by_inputs_and_clock
                  (sample_env tied_log (at_min 200))
                  (reversed_env tied_log (at_min (31 * 1440)))
                  ActivityTracker (mkTracker [("X", new_info)]) "logs.json"
                  eq_refl eq_refl eq_refl) as (H1 & H2 & _).
    split; [exact H1 | exact H2].
  - split; [vm_compute; reflexivity|].
    pose proof (reset_run_determined_by_inputs_and_clock
                  (sample_env tenure_log (at_min (31 * 1440)))
                  (reversed_env tenure_log (at_min (31 * 1440)))
                  ActivityTracker (mkTracker [("X", new_info)]) "logs.json"
                  eq_refl eq_refl eq_refl) as (_ & _ & _ & H4 & _).
    exact (H4 eq_refl eq_refl).
  - pose proof (reset_run_determined_by_inputs_and_clock
                  (sample_env tenure_log (at_min (31 * 1440)))
                  (sample_env tenure_log (at_min (31 * 1440)))
                  ActivityTracker (mkTracker [("X", new_info)]) "logs.json"
                  eq_refl eq_refl eq_refl) as (_ & _ & H3 & _ & H5).
    split; [exact (H3 (fun s => eq_refl))|].
    exact (H5 (fun s => eq_refl) eq_refl eq_refl).
Defined.

(** ** Two scenarios where the time arithmetic decides *)

Lemma td_seconds_of_minutes (s t : datetime) (m : Z) :
  0 <= m < 1440 -> t - s = timedelta_minutes m -> td_seconds (t - s) = 60 * m.
Proof.
  intros Hm ->. rewrite td_seconds_small.
  - unfold timedelta_minutes, US_PER_SECOND. rewrite Z.div_mul by lia. lia.
  - unfold timedelta_minutes, US_PER_DAY, US_PER_SECOND. lia.
Qed.

Lemma ltb_scale_60 (m n : Z) : (60 * m <? 60 * n) = (m <? n).
Proof.
  destruct (m <? n) eqn:L.
  - apply Z.ltb_lt. apply Z.ltb_lt in L. lia.
  - apply Z.ltb_ge. apply Z.ltb_ge in L. lia.
Qed.

(** The first entry of an ign, and a later entry of the only ign on
    record. *)
Lemma process_log_first (furthest grace_end : datetime) (t : datetime) (ign : string)
    (is_join : bool) :
  process_log furthest grace_end (mkLoop [] [] []) (mkLog t ign is_join false)
  = (info' <- next_info furthest new_info (mkLog t ign is_join false) ;;
     Ok (mkLoop [(ign, info')] [] [])).
Proof.
  rewrite process_log_unfold. unfold next_known, next_grace, setdefault_info.
  cbn [activity log_ign dict_get dict_set fst snd].
  rewrite String.eqb_refl.
  destruct is_join; reflexivity.
Qed.

Lemma process_log_only (furthest grace_end : datetime) (info : ActivityInfo)
    (t : datetime) (ign : string) (is_join : bool) :
  process_log furthest grace_end (mkLoop [(ign, info)] [] []) (mkLog t ign is_join false)
  = (info' <- next_info furthest info (mkLog t ign is_join false) ;;
     Ok (mkLoop [(ign, info')] [] [])).
Proof.
  rewrite process_log_unfold. unfold next_known, next_grace, setdefault_info.
  cbn [activity log_ign dict_get dict_set fst snd].
  rewrite String.eqb_refl. cbn [fst snd dict_set]. rewrite String.eqb_refl.
  destruct is_join; reflexivity.
Qed.

(** A leave that comes [m] minutes after the last join. *)
Lemma next_info_leave_after (furthest j t : datetime) (l : option datetime)
    (long : list datetime) (ign : string) (m : Z) :
  0 <= m < 1440 -> t - j = timedelta_minutes m ->
  next_info furthest (mkInfo (Some j) l long) (mkLog t ign false false)
  = Ok (mkInfo (Some j) (Some t)
          (if negb (m <? MINS_FOR_LONG_JOIN) && not_last_appended long j
           then long ++ [j] else long)).
Proof.
  intros Hm E. unfold next_info.
  cbn [log_is_join log_timestamp last_join last_long_join].
  rewrite (td_seconds_of_minutes j t m Hm E), ltb_scale_60. reflexivity.
Qed.

(** Whole days between the last join and a leave do not count: only the
    remainder [m] is compared with the 30 minutes. *)
Lemma next_info_leave_days_later (furthest j t : datetime) (l : option datetime)
    (long : list datetime) (ign : string) (days m : Z) :
  0 <= m < 1440 -> t - j = timedelta_minutes m + days * US_PER_DAY ->
  next_info furthest (mkInfo (Some j) l long) (mkLog t ign false false)
  = Ok (mkInfo (Some j) (Some t)
          (if negb (m <? MINS_FOR_LONG_JOIN) && not_last_appended long j
           then long ++ [j] else long)).
Proof.
  intros Hm E. unfold next_info.
  cbn [log_is_join log_timestamp last_join last_long_join].
  rewrite E, td_seconds_add_days.
  replace (timedelta_minutes m) with ((j + timedelta_minutes m) - j) by lia.
  rewrite (td_seconds_of_minutes j (j + timedelta_minutes m) m Hm) by lia.
  rewrite ltb_scale_60. reflexivity.
Qed.

(** A join overwrites the last join on record, however recent the last
    leave is. *)
Lemma next_info_join (furthest j t : datetime) (l : option datetime)
    (long : list datetime) (ign : string) :
  next_info furthest (mkInfo (Some j) l long) (mkLog t ign true false)
  = Ok (mkInfo (Some t) l long).
Proof.
  unfold next_info. simpl.
  rewrite join_updates_last_join_Some; [reflexivity|]. now exists j.
Qed.

Lemma next_info_first_join (furthest t : datetime) (ign : string) :
  next_info furthest new_info (mkLog t ign true false) = Ok (mkInfo (Some t) None []).
Proof. reflexivity. Qed.

(** C1 (the code differs).  On the reconnect scenario the loop records one
    long join, and its start is the second join, [T0] + 11 minutes, not
    [T0]: the join one minute after the leave overwrites [last_join]. *)
Theorem reconnect_scenario_restarts_session (T0 : datetime) (ign : string) :
  parse_logs T0 (grace_period_end T0) (fresh_loop ActivityTracker) (reconnect_log T0 ign)
  = (mkLoop [(ign, mkInfo (Some (T0 + timedelta_minutes 11))
                     (Some (T0 + timedelta_minutes 50))
                     [T0 + timedelta_minutes 11])] [] [], None).
Proof.
  unfold reconnect_log, fresh_loop, ActivityTracker. cbn [parse_logs self_activity].
  rewrite process_log_first, next_info_first_join. cbn [bind].
  rewrite process_log_only.
  rewrite (next_info_leave_after T0 T0 (T0 + timedelta_minutes 10) None [] ign 10)
    by lia.
  cbn [bind]. rewrite process_log_only, next_info_join. cbn [bind].
  rewrite process_log_only.
  rewrite (next_info_leave_after T0 (T0 + timedelta_minutes 11)
             (T0 + timedelta_minutes 50) _ _ ign 39)
    by (unfold timedelta_minutes; lia).
  reflexivity.
Qed.

(** C2 (the code differs).  A leave 1450 minutes after the join closes a
    span of more than 30 minutes, and no long join is recorded: the day is
    dropped and the remaining 10 minutes are compared with the 30. *)
Theorem overnight_session_not_recorded (T0 : datetime) (ign : string) :
  span_minutes_at_least T0 (T0 + timedelta_minutes 1450) MINS_FOR_LONG_JOIN
  /\ parse_logs T0 (grace_period_end T0) (fresh_loop ActivityTracker)
       (overnight_log T0 ign)
     = (mkLoop [(ign, mkInfo (Some T0) (Some (T0 + timedelta_minutes 1450)) [])] [] [],
        None).
Proof.
  split.
  - unfold span_minutes_at_least, timedelta_minutes, MINS_FOR_LONG_JOIN, US_PER_SECOND. lia.
  - unfold overnight_log, fresh_loop, ActivityTracker. cbn [parse_logs self_activity].
    rewrite process_log_first, next_info_first_join. cbn [bind].
    rewrite process_log_only.
    rewrite (next_info_leave_days_later T0 T0 (T0 + timedelta_minutes 1450) None []
               ign 1 10)
      by (unfold timedelta_minutes, US_PER_DAY, US_PER_SECOND; lia).
    reflexivity.
Qed.

(* ================================================================== *)
(** * Further properties of the loop over the log *)

Lemma setdefault_info_record (act : dict ActivityInfo) (ign : string) :
  snd (setdefault_info act ign) = record_of act ign.
Proof.
  unfold setdefault_info, record_of. now destruct (dict_get act ign).
Qed.

(** X1.  From a well-formed tracker, a join entry always overwrites the
    last join of its ign with its own timestamp, whatever the last leave
    is; it changes neither the last leave nor the long joins. *)
Theorem join_overwrites_last_join (furthest grace_end : datetime) (st : LoopState)
    (log : Log) :
  wf_activity (activity st) ->
  log_is_join log = true ->
  exists st',
    process_log furthest grace_end st log = Ok st'
    /\ dict_get (activity st') (log_ign log)
       = Some (mkInfo (Some (log_timestamp log))
                 (last_leave (record_of (activity st) (log_ign log)))
                 (last_long_join (record_of (activity st) (log_ign log)))).
Proof.
  intros Hwf Hj. rewrite process_log_unfold, setdefault_info_record.
  assert (E : join_updates_last_join (record_of (activity st) (log_ign log))
                (log_timestamp log) = Ok true).
  { unfold record_of. destruct (dict_get (activity st) (log_ign log)) eqn:D.
    - apply join_updates_last_join_Some. eapply Hwf; eauto.
    - now apply join_updates_last_join_None. }
  unfold next_info. rewrite Hj, E. cbn [bind].
  eexists. split; [reflexivity|]. cbn [activity]. apply dict_get_set_same.
Qed.

Lemma join_overwrites_last_join_witness :
  wf_activity [("X", mkInfo (Some (at_min 0)) (Some (at_min 10)) [])]
  /\ exists st',
       process_log (at_min 0) (grace_period_end (at_min 0))
         (mkLoop [("X", mkInfo (Some (at_min 0)) (Some (at_min 10)) [])] [] [])
         (mkLog (at_min 11) "X" true false) = Ok st'
       /\ dict_get (activity st') "X"
          = Some (mkInfo (Some (at_min 11)) (Some (at_min 10)) []).
Proof.
  assert (Hwf : wf_activity [("X", mkInfo (Some (at_min 0)) (Some (at_min 10)) [])]).
  { intros k info H. simpl in H. destruct (String.eqb k "X"); [|discriminate].
    inversion H; subst. now eexists. }
  split; [exact Hwf|].
  exact (join_overwrites_last_join (at_min 0) (grace_period_end (at_min 0))
           (mkLoop [("X", mkInfo (Some (at_min 0)) (Some (at_min 10)) [])] [] [])
           (mkLog (at_min 11) "X" true false) Hwf eq_refl).
Defined.

(** ** Where recorded times come from *)

Lemma next_info_from_log (furthest : datetime) (all : list Log) (info info' : ActivityInfo)
    (log : Log) :
  In log all ->
  info_from_log furthest all (log_ign log) info ->
  next_info furthest info log = Ok info' ->
  info_from_log furthest all (log_ign log) info'.
Proof.
  intros Hin [HJ HL]. unfold next_info.
  destruct (log_is_join log) eqn:Ej.
  - destruct (join_updates_last_join info (log_timestamp log)) as [[|]|e];
      simpl; intros E; inversion E; subst; clear E.
    + split; simpl; [|exact HL].
      intros j Hj. inversion Hj; subst. right. exists log. now repeat split.
    + now split.
  - intros E. inversion E; subst; clear E.
    assert (Hj : from_log furthest all (log_ign log)
                   match last_join info with Some j => j | None => furthest end).
    { destruct (last_join info) as [j|]; [now apply HJ | now left]. }
    split; simpl.
    + intros j E. now inversion E; subst.
    + intros x Hx. destruct (negb _ && _) in Hx; auto.
      apply in_app_or in Hx. destruct Hx as [Hx | [<- | []]]; auto.
Qed.

Lemma info_from_log_new (furthest : datetime) (all : list Log) (ign : string) :
  info_from_log furthest all ign new_info.
Proof. split; simpl; [discriminate | intros x []]. Qed.

Lemma process_log_from_log (furthest grace_end : datetime) (all : list Log)
    (st st' : LoopState) (log : Log) :
  In log all ->
  activity_from_log furthest all (activity st) ->
  process_log furthest grace_end st log = Ok st' ->
  activity_from_log furthest all (activity st').
Proof.
  intros Hin Hinv. rewrite process_log_unfold, setdefault_info_record.
  destruct (next_info furthest _ log) as [info'|e] eqn:E; simpl; [|discriminate].
  intros H. inversion H; subst; clear H. simpl.
  intros k info Hk. rewrite dict_get_set in Hk.
  destruct (String.eqb k (log_ign log)) eqn:Ek.
  - apply String.eqb_eq in Ek. subst k. inversion Hk; subst.
    eapply next_info_from_log; [exact Hin | | exact E].
    unfold record_of. destruct (dict_get (activity st) (log_ign log)) eqn:D.
    + eapply Hinv; eauto.
    + apply info_from_log_new.
  - apply String.eqb_neq in Ek. rewrite setdefault_info_other in Hk by exact Ek.
    eapply Hinv; eauto.
Qed.

Lemma parse_logs_from_log (furthest grace_end : datetime) (all logs : list Log) :
  forall st,
  (forall log, In log logs -> In log all) ->
  activity_from_log furthest all (activity st) ->
  activity_from_log furthest all (activity (fst (parse_logs furthest grace_end st logs))).
Proof.
  induction logs as [|log rest IH]; intros st Hsub Hinv; simpl.
  - exact Hinv.
  - destruct (process_log furthest grace_end st log) as [st1|e] eqn:E; simpl.
    + apply IH.
      * intros l Hl. apply Hsub. now right.
      * eapply process_log_from_log; [| exact Hinv | exact E]. apply Hsub. now left.
    + exact Hinv.
Qed.

(** X2.  After a run on a new tracker, every recorded long join of an ign,
    and its last join, is the time of one of the ign's join entries in the
    log or the time of the first entry of the log (the stand-in for a join
    that precedes the log). *)
Theorem recorded_joins_come_from_log (env : Env) (log_file : string)
    (logs : list Log) (first : Log) (ign : string) (info : ActivityInfo) :
  read_log_file env log_file = Contents logs ->
  hd_error logs = Some first ->
  dict_get (self_activity (snd (fst (calculate_activity env ActivityTracker log_file))))
    ign = Some info ->
  (forall j, last_join info = Some j -> from_log (log_timestamp first) logs ign j)
  /\ (forall x, In x (last_long_join info) ->
                from_log (log_timestamp first) logs ign x).
Proof.
  intros Hl Hhd.
  destruct (calculate_activity_tracker env ActivityTracker log_file)
    as [-> | (logs' & first' & Hl' & Hhd' & ->)].
  - discriminate.
  - rewrite Hl in Hl'. inversion Hl'; subst logs'; clear Hl'.
    rewrite Hhd in Hhd'. inversion Hhd'; subst first'; clear Hhd'.
    simpl. intros Hget.
    apply (parse_logs_from_log (log_timestamp first)
             (grace_period_end (log_timestamp first)) logs logs
             (fresh_loop ActivityTracker)) in Hget; auto.
    intros k i H. discriminate.
Qed.

Lemma recorded_joins_come_from_log_witness :
  read_log_file (sample_env sample_log (at_min 200)) "logs.json" = Contents sample_log
  /\ hd_error sample_log = Some (mkLog (at_min 0) "X" true false)
  /\ dict_get (self_activity (snd (fst (calculate_activity
                 (sample_env sample_log (at_min 200)) ActivityTracker "logs.json"))))
       "X" = Some (mkInfo (Some (at_min 60)) (Some (at_min 100)) [at_min 0; at_min 60])
  /\ (forall j, Some (at_min 60) = Some j -> from_log (at_min 0) sample_log "X" j)
  /\ (forall x, In x [at_min 0; at_min 60] -> from_log (at_min 0) sample_log "X" x).
Proof.
  split; [reflexivity|]. split; [reflexivity|]. split; [reflexivity|].
  exact (recorded_joins_come_from_log
           (sample_env sample_log (at_min 200)) "logs.json" sample_log
           (mkLog (at_min 0) "X" true false) "X"
           (mkInfo (Some (at_min 60)) (Some (at_min 100)) [at_min 0; at_min 60])
           eq_refl eq_refl eq_refl).
Defined.

(** ** Guild-join dates and grace-period candidates, read off the log *)

Lemma process_log_known (furthest grace_end : datetime) (st st' : LoopState) (log : Log) :
  process_log furthest grace_end st log = Ok st' ->
  forall x, dict_get (known_guild_join_dates st') x
            = if is_guild_join_of x log then Some (log_timestamp log)
              else dict_get (known_guild_join_dates st) x.
Proof.
  rewrite process_log_unfold.
  destruct (next_info furthest _ log) as [info'|e]; simpl; [|discriminate].
  intros H x. inversion H; subst; clear H. simpl.
  unfold next_known, is_guild_join_of.
  destruct (log_is_join log && log_is_guild_join log) eqn:G.
  - rewrite dict_get_set, <- Bool.andb_assoc, G, Bool.andb_true_r. reflexivity.
  - now rewrite <- Bool.andb_assoc, G, Bool.andb_false_r.
Qed.

Lemma parse_logs_known (furthest grace_end : datetime) (logs : list Log) :
  forall st st', parse_logs furthest grace_end st logs = (st', None) ->
  forall x, dict_get (known_guild_join_dates st') x
            = match last_guild_join logs x with
              | Some t => Some t
              | None => dict_get (known_guild_join_dates st) x
              end.
Proof.
  induction logs as [|log rest IH]; simpl; intros st st' H x.
  - now inversion H.
  - destruct (process_log furthest grace_end st log) as [st1|e] eqn:E; [|discriminate].
    rewrite (IH _ _ H x), (process_log_known _ _ _ _ _ E x).
    destruct (last_guild_join rest x); [reflexivity|].
    now destruct (is_guild_join_of x log).
Qed.

(** X3.  Whenever a run returns, the guild-join date it knows for an ign is
    the time of the last entry of the log by which the ign joins the guild,
    and no date is known for an ign without such an entry - whatever the
    tracker held before. *)
Theorem known_guild_join_date_is_last_guild_join (env : Env) (self self' : Tracker)
    (log_file : string) (logs : list Log) (outs : list Output) (out : Outcome)
    (ign : string) :
  read_log_file env log_file = Contents logs ->
  calculate_activity env self log_file = (outs, self', Ok out) ->
  dict_get (out_known_guild_join_dates out) ign = last_guild_join logs ign.
Proof.
  intros Hl Hrun.
  destruct (calculate_activity_Ok _ _ _ _ _ _ Hrun)
    as (logs' & gld & sb & first & st & Hl' & _ & _ & _ & P & _ & C & _).
  rewrite Hl in Hl'. inversion Hl'; subst logs'; clear Hl'.
  apply classify_and_promote_Ok in C. destruct C as (_ & _ & _ & -> & _).
  rewrite (parse_logs_known _ _ _ _ _ P ign). simpl.
  now destruct (last_guild_join logs ign).
Qed.

Lemma known_guild_join_date_is_last_guild_join_witness :
  exists outs self' out,
    read_log_file (sample_env sample_log (at_min 200)) "logs.json" = Contents sample_log
    /\ calculate_activity (sample_env sample_log (at_min 200)) ActivityTracker "logs.json"
       = (outs, self', Ok out)
    /\ last_guild_join sample_log "Y" = Some (at_min 101)
    /\ dict_get (out_known_guild_join_dates out) "Y" = last_guild_join sample_log "Y".
Proof.
  do 3 eexists. split; [reflexivity|]. split; [vm_compute; reflexivity|].
  split; [reflexivity|].
  eapply (known_guild_join_date_is_last_guild_join
            (sample_env sample_log (at_min 200)) ActivityTracker _ "logs.json"
            sample_log); vm_compute; reflexivity.
Defined.

Lemma process_log_grace_iff (furthest grace_end : datetime) (st st' : LoopState)
    (log : Log) :
  process_log furthest grace_end st log = Ok st' ->
  forall x, In x (igns_in_grace_period st') <->
            In x (igns_in_grace_period st)
            \/ (is_guild_join_of x log = true /\ grace_end <= log_timestamp log).
Proof.
  rewrite process_log_unfold.
  destruct (next_info furthest _ log) as [info'|e]; simpl; [|discriminate].
  intros H x. inversion H; subst; clear H. simpl.
  unfold next_grace, is_guild_join_of.
  destruct (log_is_join log && log_is_guild_join log) eqn:G;
    rewrite <- Bool.andb_assoc, G.
  - rewrite Bool.andb_true_r. simpl.
    destruct (log_timestamp log >=? grace_end) eqn:T.
    + apply Z.geb_le in T. rewrite set_add_In, String.eqb_eq. tauto.
    + assert (~ grace_end <= log_timestamp log).
      { intros Hle. apply Z.geb_le in Hle. congruence. }
      tauto.
  - rewrite Bool.andb_false_r. simpl. intuition discriminate.
Qed.

Lemma parse_logs_grace_iff (furthest grace_end : datetime) (logs : list Log) :
  forall st st', parse_logs furthest grace_end st logs = (st', None) ->
  forall x, In x (igns_in_grace_period st') <->
            In x (igns_in_grace_period st)
            \/ exists log, In log logs /\ is_guild_join_of x log = true
                           /\ grace_end <= log_timestamp log.
Proof.
  induction logs as [|log rest IH]; simpl; intros st st' H x.
  - inversion H; subst. split; [now left | intros [? | (l & [] & _)]; assumption].
  - destruct (process_log furthest grace_end st log) as [st1|e] eqn:E; [|discriminate].
    rewrite (IH _ _ H x), (process_log_grace_iff _ _ _ _ _ E x). split.
    + intros [[Hx | [Hg Ht]] | (l & Hl & Hg & Ht)]; eauto 6.
    + intros [Hx | (l & [<- | Hl] & Hg & Ht)]; eauto 6.
Qed.

Lemma last_guild_join_Some (logs : list Log) (ign : string) :
  (exists t, last_guild_join logs ign = Some t) <->
  exists log, In log logs /\ is_guild_join_of ign log = true.
Proof.
  induction logs as [|log rest IH]; simpl.
  - split; [intros [t H]; discriminate | intros (l & [] & _)].
  - destruct (last_guild_join rest ign) as [t|].
    + split; [|eauto]. intros _.
      destruct (proj1 IH (ex_intro _ t eq_refl)) as (l & Hl & Hg). eauto.
    + destruct (is_guild_join_of ign log) eqn:G.
      * split; eauto.
      * split; [intros [t H]; discriminate|].
        intros (l & [<- | Hl] & Hg); [congruence|].
        apply IH. eauto.
Qed.

Lemma chronological_first (first : Log) (rest : list Log) :
  chronological (first :: rest) ->
  forall log, In log (first :: rest) -> log_timestamp first <= log_timestamp log.
Proof.
  intros Hch. apply Sorted_StronglySorted in Hch.
  - inversion Hch as [|? ? _ Hall]; subst. rewrite Forall_forall in Hall.
    intros log [<- | Hin]; [lia | now apply Hall].
  - intros a b c Hab Hbc. lia.
Qed.

(** X4.  On a chronological log the 60-day test of the loop excludes no
    one: whenever a run returns, the grace-period candidates are exactly
    the igns for which a guild-join date is known. *)
Theorem grace_candidates_are_known_guild_joins (env : Env) (self self' : Tracker)
    (log_file : string) (logs : list Log) (outs : list Output) (out : Outcome)
    (ign : string) :
  read_log_file env log_file = Contents logs ->
  chronological logs ->
  calculate_activity env self log_file = (outs, self', Ok out) ->
  (In ign (out_igns_in_grace_period out) <->
   exists t, dict_get (out_known_guild_join_dates out) ign = Some t).
Proof.
  intros Hl Hch Hrun.
  destruct (calculate_activity_Ok _ _ _ _ _ _ Hrun)
    as (logs' & gld & sb & first & st & Hl' & _ & _ & Hhd & P & _ & C & _).
  rewrite Hl in Hl'. inversion Hl'; subst logs'; clear Hl'.
  apply classify_and_promote_Ok in C. destruct C as (_ & _ & _ & -> & -> & _).
  rewrite (parse_logs_grace_iff _ _ _ _ _ P ign), (parse_logs_known _ _ _ _ _ P ign).
  simpl.
  assert (Hk : (exists t, match last_guild_join logs ign with
                          | Some t0 => Some t0
                          | None => None
                          end = Some t)
               <-> exists t, last_guild_join logs ign = Some t).
  { destruct (last_guild_join logs ign); split; auto. }
  rewrite Hk, last_guild_join_Some.
  destruct logs as [|first' rest]; [discriminate|].
  inversion Hhd; subst first'. split.
  - intros [[] | (l & Hin & Hg & _)]. eauto.
  - intros (l & Hin & Hg). right. exists l. repeat split; auto.
    pose proof (chronological_first first rest Hch l Hin) as Hle.
    unfold grace_period_end, timedelta_minutes, MINS_FOR_ACTIVITY_RANGE, US_PER_SECOND.
    lia.
Qed.

Lemma grace_candidates_are_known_guild_joins_witness :
  exists outs self' out,
    read_log_file (sample_env sample_log (at_min 200)) "logs.json" = Contents sample_log
    /\ chronological sample_log
    /\ calculate_activity (sample_env sample_log (at_min 200)) ActivityTracker "logs.json"
       = (outs, self', Ok out)
    /\ out_igns_in_grace_period out = ["Y"]
    /\ (In "Y" (out_igns_in_grace_period out) <->
        exists t, dict_get (out_known_guild_join_dates out) "Y" = Some t).
Proof.
  assert (Hch : chronological sample_log).
  { unfold chronological, sample_log. repeat constructor; vm_compute; discriminate. }
  do 3 eexists. split; [reflexivity|]. split; [exact Hch|].
  split; [vm_compute; reflexivity|]. split; [reflexivity|].
  eapply (grace_candidates_are_known_guild_joins
            (sample_env sample_log (at_min 200)) ActivityTracker _ "logs.json"
            sample_log); [vm_compute; reflexivity | exact Hch | vm_compute; reflexivity].
Defined.

(** ** Records are kept and histories only grow *)

Lemma extends_history_refl (info : ActivityInfo) : extends_history info info.
Proof. exists []. now rewrite app_nil_r. Qed.

Lemma extends_history_trans (a b c : ActivityInfo) :
  extends_history a b -> extends_history b c -> extends_history a c.
Proof.
  intros [m1 H1] [m2 H2]. exists (m1 ++ m2). now rewrite H2, H1, app_assoc.
Qed.

Lemma next_info_extends (furthest : datetime) (info info' : ActivityInfo) (log : Log) :
  next_info furthest info log = Ok info' -> extends_history info info'.
Proof.
  unfold next_info. destruct (log_is_join log).
  - destruct (join_updates_last_join info (log_timestamp log)) as [[|]|e];
      simpl; intros E; inversion E; subst; exists []; simpl; now rewrite app_nil_r.
  - intros E. inversion E; subst; clear E. unfold extends_history. simpl.
    destruct (negb _ && _); [eauto | exists []; now rewrite app_nil_r].
Qed.

Lemma process_log_extends (furthest grace_end : datetime) (st st' : LoopState)
    (log : Log) :
  process_log furthest grace_end st log = Ok st' ->
  forall k info, dict_get (activity st) k = Some info ->
  exists info', dict_get (activity st') k = Some info' /\ extends_history info info'.
Proof.
  rewrite process_log_unfold, setdefault_info_record.
  destruct (next_info furthest _ log) as [info'|e] eqn:E; simpl; [|discriminate].
  intros H k info Hk. inversion H; subst; clear H. simpl.
  rewrite dict_get_set. destruct (String.eqb k (log_ign log)) eqn:Ek.
  - apply String.eqb_eq in Ek. subst k. exists info'. split; [reflexivity|].
    apply next_info_extends in E. unfold record_of in E. now rewrite Hk in E.
  - apply String.eqb_neq in Ek. rewrite setdefault_info_other by exact Ek.
    exists info. split; [exact Hk | apply extends_history_refl].
Qed.

Lemma parse_logs_extends (furthest grace_end : datetime) (logs : list Log) :
  forall st k info, dict_get (activity st) k = Some info ->
  exists info',
    dict_get (activity (fst (parse_logs furthest grace_end st logs))) k = Some info'
    /\ extends_history info info'.
Proof.
  induction logs as [|log rest IH]; simpl; intros st k info Hk.
  - exists info. split; [exact Hk | apply extends_history_refl].
  - destruct (process_log furthest grace_end st log) as [st1|e] eqn:E; simpl.
    + destruct (process_log_extends _ _ _ _ _ E k info Hk) as (i1 & H1 & X1).
      destruct (IH st1 k i1 H1) as (i2 & H2 & X2).
      exists i2. split; [exact H2 | eapply extends_history_trans; eauto].
    + exists info. split; [exact Hk | apply extends_history_refl].
Qed.

(** X5.  A run never drops a record of the tracker it starts from and never
    removes or rewrites a recorded long join: whether it returns or
    raises, each ign on record before is on record after, with a history
    that starts with the old one. *)
Theorem run_keeps_records_and_histories (env : Env) (self : Tracker)
    (log_file : string) (ign : string) (info : ActivityInfo) :
  dict_get (self_activity self) ign = Some info ->
  exists info',
    dict_get (self_activity (snd (fst (calculate_activity env self log_file)))) ign
      = Some info'
    /\ extends_history info info'.
Proof.
  intros Hk.
  destruct (calculate_activity_tracker env self log_file)
    as [-> | (logs & first & _ & _ & ->)].
  - exists info. split; [exact Hk | apply extends_history_refl].
  - simpl. now apply parse_logs_extends.
Qed.

Lemma run_keeps_records_and_histories_witness :
  dict_get [("X", mkInfo (Some (at_min (-100))) (Some (at_min (-50))) [at_min (-100)])]
    "X" = Some (mkInfo (Some (at_min (-100))) (Some (at_min (-50))) [at_min (-100)])
  /\ exists info',
       dict_get (self_activity (snd (fst (calculate_activity
                   (sample_env sample_log (at_min 200))
                   (mkTracker [("X", mkInfo (Some (at_min (-100))) (Some (at_min (-50)))
                                        [at_min (-100)])])
                   "logs.json")))) "X" = Some info'
       /\ extends_history
            (mkInfo (Some (at_min (-100))) (Some (at_min (-50))) [at_min (-100)]) info'.
Proof.
  split; [reflexivity|].
  exact (run_keeps_records_and_histories (sample_env sample_log (at_min 200))
           (mkTracker [("X", mkInfo (Some (at_min (-100))) (Some (at_min (-50)))
                                [at_min (-100)])])
           "logs.json" "X" _ eq_refl).
Defined.

(* ================================================================== *)
(** * Further properties of the tiers *)

(** ** The order of the tiers *)

Lemma insert_desc_sorted (x : datetime * string) (l : list (datetime * string)) :
  StronglySorted (fun a b => fst b <= fst a) l ->
  StronglySorted (fun a b => fst b <= fst a) (insert_desc x l).
Proof.
  induction l as [|y l IH]; simpl; intros Hs.
  - repeat constructor.
  - inversion Hs as [|? ? Hs' Hy]; subst.
    destruct (fst x <? fst y) eqn:L.
    + apply Z.ltb_lt in L. constructor; [now apply IH|].
      rewrite Forall_forall in *. intros z Hz.
      apply (Permutation_in _ (insert_desc_perm x l)) in Hz.
      destruct Hz as [<- | Hz]; [now apply Z.lt_le_incl | now apply Hy].
    + apply Z.ltb_ge in L. constructor; [exact Hs|].
      constructor; [exact L|].
      rewrite Forall_forall in *. intros z Hz.
      eapply Z.le_trans; [apply Hy, Hz | exact L].
Qed.

Lemma sort_desc_sorted (l : list (datetime * string)) :
  StronglySorted (fun a b => fst b <= fst a) (sort_desc l).
Proof.
  induction l as [|x l IH]; simpl; [constructor | now apply insert_desc_sorted].
Qed.

Lemma last_join_keys_keyed (act : dict ActivityInfo) (igns : list string) :
  forall ks ks', last_join_keys act igns = Ok ks -> all_some ks = Some ks' ->
  Forall (keyed act) ks'.
Proof.
  induction igns as [|ign rest IH]; simpl; intros ks ks' H A.
  - inversion H; subst. simpl in A. inversion A. constructor.
  - destruct (dict_get act ign) as [info|] eqn:D; [|discriminate].
    destruct (last_join_keys act rest) as [ks0|e]; simpl in H; [|discriminate].
    inversion H; subst; clear H. simpl in A.
    destruct (last_join info) as [j|] eqn:J; [|discriminate].
    destruct (all_some ks0) as [r|] eqn:R; [|discriminate].
    inversion A; subst; clear A. constructor.
    + exists info. simpl. auto.
    + exact (IH ks0 r eq_refl R).
Qed.

Lemma StronglySorted_map_keyed (act : dict ActivityInfo) (l : list (datetime * string)) :
  Forall (keyed act) l ->
  StronglySorted (fun a b => fst b <= fst a) l ->
  StronglySorted (joined_no_earlier act) (map snd l).
Proof.
  induction l as [|x l IH]; simpl; intros Hk Hs.
  - constructor.
  - inversion Hk as [|? ? Hx Hk']; subst. inversion Hs as [|? ? Hs' Hall]; subst.
    constructor; [now apply IH|].
    rewrite Forall_forall in *. intros b Hb.
    apply in_map_iff in Hb. destruct Hb as (y & <- & Hy).
    destruct Hx as (ia & Ha & Ja). destruct (Hk' y Hy) as (ib & Hb & Jb).
    exists ia, ib, (fst x), (fst y). repeat split; auto.
Qed.

Lemma StronglySorted_filter {A} (R : A -> A -> Prop) (p : A -> bool) (l : list A) :
  StronglySorted R l -> StronglySorted R (filter p l).
Proof.
  induction 1 as [|x l Hs IH Hall]; simpl; [constructor|].
  destruct (p x); [|exact IH]. constructor; [exact IH|].
  rewrite Forall_forall in *. intros y Hy. apply filter_In in Hy. now apply Hall.
Qed.

Lemma sorted_by_last_join_sorted (act : dict ActivityInfo) (igns sorted : list string) :
  sorted_by_last_join act igns = Ok sorted ->
  StronglySorted (joined_no_earlier act) sorted.
Proof.
  unfold sorted_by_last_join.
  destruct (last_join_keys act igns) as [ks|e] eqn:E; simpl; [|discriminate].
  destruct (all_some ks) as [ks'|] eqn:A.
  - intros H. inversion H; subst; clear H.
    apply StronglySorted_map_keyed; [|apply sort_desc_sorted].
    pose proof (last_join_keys_keyed _ _ _ _ E A) as Hk.
    rewrite Forall_forall in *. intros p Hp. apply Hk.
    now apply (Permutation_in _ (sort_desc_perm ks')).
  - destruct ks as [|k [|k' ks]]; simpl; intros H; inversion H; subst; simpl.
    + constructor.
    + repeat constructor.
Qed.

(** The order of [sorted] on strings is transitive. *)
Lemma ascii_compare_Lt_trans (a b c : Ascii.ascii) :
  Ascii.compare a b = Lt -> Ascii.compare b c = Lt -> Ascii.compare a c = Lt.
Proof.
  unfold Ascii.compare. rewrite !N.compare_lt_iff. lia.
Qed.

Lemma string_compare_Lt_trans (a : string) :
  forall b c, String.compare a b = Lt -> String.compare b c = Lt ->
  String.compare a c = Lt.
Proof.
  induction a as [|x a IH]; intros [|y b] [|z c]; simpl; try congruence.
  destruct (Ascii.compare x y) eqn:Exy; try discriminate;
    destruct (Ascii.compare y z) eqn:Eyz; try discriminate; intros H1 H2.
  - apply Ascii.compare_eq_iff in Exy, Eyz. subst.
    replace (Ascii.compare z z) with Eq; [now apply (IH b c)|].
    symmetry. unfold Ascii.compare. apply N.compare_refl.
  - apply Ascii.compare_eq_iff in Exy. subst. now rewrite Eyz.
  - apply Ascii.compare_eq_iff in Eyz. subst. now rewrite Exy.
  - now rewrite (ascii_compare_Lt_trans _ _ _ Exy Eyz).
Qed.

Lemma alphabetical_trans (a b c : string) :
  alphabetical a b -> alphabetical b c -> alphabetical a c.
Proof.
  unfold alphabetical, String.leb. intros H1 H2.
  destruct (String.compare a b) eqn:Eab; [| |discriminate];
    destruct (String.compare b c) eqn:Ebc; try discriminate.
  - apply String.compare_eq_iff in Eab. subst. now rewrite Ebc.
  - apply String.compare_eq_iff in Eab. subst. now rewrite Ebc.
  - apply String.compare_eq_iff in Ebc. subst. now rewrite Eab.
  - now rewrite (string_compare_Lt_trans _ _ _ Eab Ebc).
Qed.

Lemma insert_str_sorted (x : string) (l : list string) :
  StronglySorted alphabetical l -> StronglySorted alphabetical (insert_str x l).
Proof.
  induction l as [|y l IH]; simpl; intros Hs.
  - repeat constructor.
  - inversion Hs as [|? ? Hs' Hy]; subst.
    destruct (String.ltb y x) eqn:L.
    + constructor; [now apply IH|].
      rewrite Forall_forall in *. intros z Hz.
      apply (Permutation_in _ (insert_str_perm x l)) in Hz.
      destruct Hz as [<- | Hz]; [|now apply Hy].
      unfold alphabetical, String.leb. unfold String.ltb in L.
      now destruct (String.compare y x).
    + assert (Hxy : alphabetical x y).
      { unfold alphabetical, String.leb. unfold String.ltb in L.
        rewrite String.compare_antisym. now destruct (String.compare y x). }
      constructor; [exact Hs|]. constructor; [exact Hxy|].
      rewrite Forall_forall in *. intros z Hz.
      eapply alphabetical_trans; [exact Hxy | now apply Hy].
Qed.

Lemma sorted_str_sorted (l : list string) : StronglySorted alphabetical (sorted_str l).
Proof.
  induction l as [|x l IH]; simpl; [constructor | now apply insert_str_sorted].
Qed.

(** The shape of the three tiers, whenever the classification returns. *)
Lemma classify_shape (act : dict ActivityInfo) (grace guild_list : list string)
    (tiers : Tiers) :
  classify act grace guild_list = Ok tiers ->
  exists active0 seen grace0,
    sorted_by_last_join act (get_active_igns act) = Ok active0
    /\ sorted_by_last_join act
         (filter (fun ign => negb (mem ign active0)) (dict_keys act)) = Ok seen
    /\ sorted_by_last_join act grace = Ok grace0
    /\ active_igns tiers = filter (fun ign => mem ign guild_list) active0
    /\ grace_period_igns tiers
       = filter (fun ign => negb (mem ign (active_igns tiers)))
           (filter (fun ign => mem ign guild_list) grace0)
    /\ inactive_igns tiers
       = filter (fun ign => negb (mem ign (grace_period_igns tiers)))
           (filter (fun ign => mem ign guild_list) seen)
         ++ filter (fun ign => negb (mem ign (grace_period_igns tiers)))
              (filter (fun ign => mem ign guild_list)
                 (sorted_str (filter (fun ign => negb (dict_mem ign act)) guild_list))).
Proof.
  unfold classify.
  destruct (sorted_by_last_join act (get_active_igns act)) as [active0|e] eqn:EA;
    simpl; [|discriminate].
  destruct (sorted_by_last_join act
              (filter (fun ign => negb (mem ign active0)) (dict_keys act)))
    as [seen|e] eqn:ES; simpl; [|discriminate].
  destruct (sorted_by_last_join act grace) as [grace0|e] eqn:EG; simpl; [|discriminate].
  intros H. inversion H; subst; clear H. simpl.
  exists active0, seen, grace0.
  do 5 (split; [first [assumption | reflexivity]|]).
  now rewrite !filter_app.
Qed.

(** X6.  Whenever a run returns, the active tier and the grace-period tier
    are in the order of their last joins, most recent first; the inactive
    tier is made of the igns with a record, most recent last join first,
    followed by the roster igns without a record, in the alphabetical order
    of [sorted]. *)
Theorem tiers_are_ordered (env : Env) (self self' : Tracker) (log_file : string)
    (outs : list Output) (out : Outcome) :
  calculate_activity env self log_file = (outs, self', Ok out) ->
  StronglySorted (joined_no_earlier (self_activity self')) (active_igns (out_tiers out))
  /\ StronglySorted (joined_no_earlier (self_activity self'))
       (grace_period_igns (out_tiers out))
  /\ exists seen unseen,
       inactive_igns (out_tiers out) = seen ++ unseen
       /\ StronglySorted (joined_no_earlier (self_activity self')) seen
       /\ (forall x, In x seen -> In x (dict_keys (self_activity self')))
       /\ StronglySorted alphabetical unseen
       /\ (forall x, In x unseen -> dict_get (self_activity self') x = None).
Proof.
  intros Hrun.
  destruct (calculate_activity_Ok _ _ _ _ _ _ Hrun)
    as (logs & gld & sb & first & st & _ & _ & _ & _ & _ & -> & C & _).
  apply classify_and_promote_Ok in C. destruct C as (C & _).
  destruct (classify_shape _ _ _ _ C)
    as (active0 & seen & grace0 & EA & ES & EG & -> & -> & ->).
  simpl. split; [|split].
  - apply StronglySorted_filter. eapply sorted_by_last_join_sorted; eauto.
  - do 2 apply StronglySorted_filter. eapply sorted_by_last_join_sorted; eauto.
  - eexists. eexists. split; [reflexivity|]. split; [|split; [|split]].
    + do 2 apply StronglySorted_filter. eapply sorted_by_last_join_sorted; eauto.
    + intros x Hx. do 2 (apply filter_In in Hx; destruct Hx as [Hx _]).
      apply (sorted_by_last_join_In _ _ _ ES) in Hx.
      now apply filter_In in Hx.
    + do 2 apply StronglySorted_filter. apply sorted_str_sorted.
    + intros x Hx. do 2 (apply filter_In in Hx; destruct Hx as [Hx _]).
      apply (Permutation_in _ (sorted_str_perm _)) in Hx.
      apply filter_In in Hx. destruct Hx as [_ Hx].
      apply Bool.negb_true_iff in Hx. unfold dict_mem in Hx.
      now destruct (dict_get (activity st) x).
Qed.

Lemma tiers_are_ordered_witness :
  exists outs self' out,
    calculate_activity (sample_env order_log (at_min 300)) ActivityTracker "logs.json"
      = (outs, self', Ok out)
    /\ out_tiers out = mkTiers ["Y"; "X"] [] ["Z"]
    /\ StronglySorted (joined_no_earlier (self_activity self'))
         (active_igns (out_tiers out))
    /\ StronglySorted (joined_no_earlier (self_activity self'))
         (grace_period_igns (out_tiers out))
    /\ exists seen unseen,
         inactive_igns (out_tiers out) = seen ++ unseen
         /\ StronglySorted (joined_no_earlier (self_activity self')) seen
         /\ (forall x, In x seen -> In x (dict_keys (self_activity self')))
         /\ StronglySorted alphabetical unseen
         /\ (forall x, In x unseen -> dict_get (self_activity self') x = None).
Proof.
  do 3 eexists. split; [vm_compute; reflexivity|]. split; [reflexivity|].
  eapply (tiers_are_ordered (sample_env order_log (at_min 300)) ActivityTracker _
            "logs.json"); vm_compute; reflexivity.
Defined.

(** ** One record per ign *)

Lemma dict_set_keys {V} (d : dict V) (k : string) (v : V) :
  dict_keys (dict_set d k v) = set_add k (dict_keys d).
Proof.
  unfold set_add, mem, dict_keys. induction d as [|[k' v'] d IH]; simpl.
  - reflexivity.
  - destruct (String.eqb k k'); simpl; [reflexivity|].
    rewrite IH. now destruct (existsb (String.eqb k) (map fst d)).
Qed.

Lemma set_add_idem (x : string) (s : list string) :
  set_add x (set_add x s) = set_add x s.
Proof.
  unfold set_add. destruct (mem x s) eqn:M.
  - now rewrite M.
  - replace (mem x (s ++ [x])) with true; [reflexivity|].
    symmetry. apply mem_In, in_or_app. right. now left.
Qed.

Lemma set_add_NoDup (x : string) (s : list string) : NoDup s -> NoDup (set_add x s).
Proof.
  intros H. unfold set_add. destruct (mem x s) eqn:M; [exact H|].
  apply mem_false_In in M. apply NoDup_app; auto.
  - repeat constructor. intros [].
  - intros a Ha [<- | []]. contradiction.
Qed.

Lemma setdefault_info_keys (act : dict ActivityInfo) (ign : string) :
  dict_keys (fst (setdefault_info act ign)) = set_add ign (dict_keys act).
Proof.
  unfold setdefault_info. destruct (dict_get act ign) eqn:D; simpl.
  - unfold set_add. replace (mem ign (dict_keys act)) with true; [reflexivity|].
    symmetry. apply mem_In, dict_get_In_keys. eauto.
  - apply dict_set_keys.
Qed.

Lemma process_log_keys_eq (furthest grace_end : datetime) (st st' : LoopState)
    (log : Log) :
  process_log furthest grace_end st log = Ok st' ->
  dict_keys (activity st') = set_add (log_ign log) (dict_keys (activity st)).
Proof.
  rewrite process_log_unfold.
  destruct (next_info furthest _ log) as [info'|e]; simpl; [|discriminate].
  intros H. inversion H; subst; clear H. simpl.
  now rewrite dict_set_keys, setdefault_info_keys, set_add_idem.
Qed.

Lemma parse_logs_keys_eq (furthest grace_end : datetime) (logs : list Log) :
  forall st st', parse_logs furthest grace_end st logs = (st', None) ->
  dict_keys (activity st') = first_seen (dict_keys (activity st)) logs.
Proof.
  unfold first_seen.
  induction logs as [|log rest IH]; simpl; intros st st' H.
  - now inversion H.
  - destruct (process_log furthest grace_end st log) as [st1|e] eqn:E; [|discriminate].
    rewrite (IH _ _ H). now rewrite (process_log_keys_eq _ _ _ _ _ E).
Qed.

Lemma first_seen_NoDup (logs : list Log) :
  forall seen, NoDup seen -> NoDup (first_seen seen logs).
Proof.
  unfold first_seen. induction logs as [|log rest IH]; simpl; intros seen H.
  - exact H.
  - apply IH. now apply set_add_NoDup.
Qed.

(** X7.  Whenever a run returns, the igns on record in the tracker are
    those it had before, in the same order, followed by the new igns of the
    log in the order of their first entries: each ign has one record. *)
Theorem records_in_order_of_first_entry (env : Env) (self self' : Tracker)
    (log_file : string) (logs : list Log) (outs : list Output) (out : Outcome) :
  read_log_file env log_file = Contents logs ->
  calculate_activity env self log_file = (outs, self', Ok out) ->
  dict_keys (self_activity self') = first_seen (dict_keys (self_activity self)) logs
  /\ (NoDup (dict_keys (self_activity self)) -> NoDup (dict_keys (self_activity self'))).
Proof.
  intros Hl Hrun.
  destruct (calculate_activity_Ok _ _ _ _ _ _ Hrun)
    as (logs' & gld & sb & first & st & Hl' & _ & _ & _ & P & -> & _).
  rewrite Hl in Hl'. inversion Hl'; subst logs'; clear Hl'.
  simpl. rewrite (parse_logs_keys_eq _ _ _ _ _ P). simpl.
  split; [reflexivity | apply first_seen_NoDup].
Qed.

Lemma records_in_order_of_first_entry_witness :
  exists outs self' out,
    read_log_file (sample_env sample_log (at_min 200)) "logs.json" = Contents sample_log
    /\ calculate_activity (sample_env sample_log (at_min 200)) ActivityTracker "logs.json"
       = (outs, self', Ok out)
    /\ dict_keys (self_activity self') = ["X"; "Y"; "W"]
    /\ dict_keys (self_activity self')
       = first_seen (dict_keys (self_activity ActivityTracker)) sample_log
    /\ (NoDup (dict_keys (self_activity ActivityTracker)) ->
        NoDup (dict_keys (self_activity self'))).
Proof.
  do 3 eexists. split; [reflexivity|]. split; [vm_compute; reflexivity|].
  split; [reflexivity|].
  eapply (records_in_order_of_first_entry (sample_env sample_log (at_min 200))
            ActivityTracker _ "logs.json" sample_log); vm_compute; reflexivity.
Defined.

(** ** No ign twice in a tier *)

Lemma process_log_grace_NoDup (furthest grace_end : datetime) (st st' : LoopState)
    (log : Log) :
  process_log furthest grace_end st log = Ok st' ->
  NoDup (igns_in_grace_period st) -> NoDup (igns_in_grace_period st').
Proof.
  rewrite process_log_unfold.
  destruct (next_info furthest _ log) as [info'|e]; simpl; [|discriminate].
  intros H Hn. inversion H; subst; clear H. simpl. unfold next_grace.
  destruct (_ && _ && _); [now apply set_add_NoDup | exact Hn].
Qed.

Lemma parse_logs_grace_NoDup (furthest grace_end : datetime) (logs : list Log) :
  forall st st', parse_logs furthest grace_end st logs = (st', None) ->
  NoDup (igns_in_grace_period st) -> NoDup (igns_in_grace_period st').
Proof.
  induction logs as [|log rest IH]; simpl; intros st st' H Hn.
  - now inversion H; subst.
  - destruct (process_log furthest grace_end st log) as [st1|e] eqn:E; [|discriminate].
    eapply IH; [exact H|]. eapply process_log_grace_NoDup; eauto.
Qed.

(** X8.  Whenever a run returns from a tracker that holds one record per
    ign, no ign is twice in the active tier or twice in the grace-period
    tier; and no ign is twice in the inactive tier when none is twice on
    the roster. *)
Theorem tiers_have_no_duplicates (env : Env) (self self' : Tracker) (log_file : string)
    (guild_list_dict : dict (list string)) (outs : list Output) (out : Outcome) :
  guild_list_file env = Contents guild_list_dict ->
  NoDup (dict_keys (self_activity self)) ->
  calculate_activity env self log_file = (outs, self', Ok out) ->
  NoDup (active_igns (out_tiers out))
  /\ NoDup (grace_period_igns (out_tiers out))
  /\ (NoDup (flatten_guild_list guild_list_dict) -> NoDup (inactive_igns (out_tiers out))).
Proof.
  intros Hg Hnd Hrun.
  destruct (calculate_activity_Ok _ _ _ _ _ _ Hrun)
    as (logs & gld & sb & first & st & _ & Hg' & _ & _ & P & _ & C & _).
  rewrite Hg in Hg'. inversion Hg'; subst gld; clear Hg'.
  apply classify_and_promote_Ok in C. destruct C as (C & _).
  destruct (classify_shape _ _ _ _ C)
    as (active0 & seen & grace0 & EA & ES & EG & -> & -> & ->).
  assert (Hkeys : NoDup (dict_keys (activity st))).
  { rewrite (parse_logs_keys_eq _ _ _ _ _ P). now apply first_seen_NoDup. }
  assert (Hgrace : NoDup (igns_in_grace_period st)).
  { apply (parse_logs_grace_NoDup _ _ _ _ _ P). constructor. }
  split; [|split].
  - apply NoDup_filter.
    eapply Permutation_NoDup;
      [apply Permutation_sym, (sorted_by_last_join_perm _ _ _ EA)|].
    unfold get_active_igns. now apply NoDup_filter.
  - do 2 apply NoDup_filter.
    eapply Permutation_NoDup;
      [apply Permutation_sym, (sorted_by_last_join_perm _ _ _ EG)
      | now apply iter_NoDup].
  - intros Hroster. apply NoDup_app.
    + do 2 apply NoDup_filter.
      eapply Permutation_NoDup;
        [apply Permutation_sym, (sorted_by_last_join_perm _ _ _ ES)|].
      now apply NoDup_filter.
    + do 2 apply NoDup_filter.
      eapply Permutation_NoDup; [apply Permutation_sym, sorted_str_perm|].
      now apply NoDup_filter.
    + intros x Hx Hy.
      do 2 (apply filter_In in Hx; destruct Hx as [Hx _]).
      do 2 (apply filter_In in Hy; destruct Hy as [Hy _]).
      apply (sorted_by_last_join_In _ _ _ ES) in Hx. apply filter_In in Hx.
      apply (Permutation_in _ (sorted_str_perm _)) in Hy. apply filter_In in Hy.
      destruct Hx as [Hx _]. destruct Hy as [_ Hy].
      apply Bool.negb_true_iff in Hy. apply dict_mem_true in Hx. congruence.
Qed.

Lemma tiers_have_no_duplicates_witness :
  exists outs self' out,
    guild_list_file (sample_env order_log (at_min 300)) = Contents sample_roster
    /\ NoDup (dict_keys (self_activity ActivityTracker))
    /\ calculate_activity (sample_env order_log (at_min 300)) ActivityTracker "logs.json"
       = (outs, self', Ok out)
    /\ NoDup (active_igns (out_tiers out))
    /\ NoDup (grace_period_igns (out_tiers out))
    /\ (NoDup (flatten_guild_list sample_roster) -> NoDup (inactive_igns (out_tiers out))).
Proof.
  do 3 eexists. split; [reflexivity|]. split; [constructor|].
  split; [vm_compute; reflexivity|].
  eapply (tiers_have_no_duplicates (sample_env order_log (at_min 300)) ActivityTracker _
            "logs.json" sample_roster); [vm_compute; reflexivity | constructor | vm_compute; reflexivity].
Defined.

(* ================================================================== *)
(** * Further properties of the report *)

(** ** The tables by rank *)



Lemma print_activity_log_printed (env : Env) (self self' : Tracker) (log_file : string)
    (outs : list Output) (out : Outcome) (report : Report) :
  calculate_activity env self log_file = (outs, self', Ok out) ->
  In (PrintActivityLog report) outs ->
  exists guild_list_dict,
    guild_list_file env = Contents guild_list_dict
    /\ report = print_activity_log (self_activity self') guild_list_dict
                  (out_known_guild_join_dates out) (out_tiers out)
                  (raw_to_boiled_promotion_igns out)
                  (boiled_to_scrambled_promotion_igns out)
    /\ classify (self_activity self')
         (iter (set_order env) (out_igns_in_grace_period out))
         (flatten_guild_list guild_list_dict) = Ok (out_tiers out).
Proof.
  intros Hrun Hrep.
  destruct (calculate_activity_Ok _ _ _ _ _ _ Hrun)
    as (logs & gld & sb & first & st & _ & Hg & _ & _ & _ & -> & C & ->).
  apply classify_and_promote_Ok in C. destruct C as (C & _ & _ & -> & -> & _).
  exists gld. split; [exact Hg|]. split; [|exact C].
  destruct Hrep as [H | [H | [H | []]]]; try discriminate. now inversion H.
Qed.



(** ** The rows of the tables *)

Lemma rows_of_get_from (act : dict ActivityInfo) (igns : list string) :
  forall (d : dict (option ActivityInfo)) (k : string),
  dict_get (fold_left (fun d ign => dict_set d ign (dict_get act ign)) igns d) k
  = if mem k igns then Some (dict_get act k) else dict_get d k.
Proof.
  induction igns as [|ign rest IH]; intros d k; simpl.
  - reflexivity.
  - rewrite IH. unfold mem. simpl. fold (mem k rest).
    destruct (mem k rest); simpl.
    + now rewrite Bool.orb_true_r.
    + rewrite Bool.orb_false_r, dict_get_set.
      destruct (String.eqb k ign) eqn:E; [|reflexivity].
      apply String.eqb_eq in E. now subst.
Qed.

Lemma rows_of_get (act : dict ActivityInfo) (igns : list string) (k : string) :
  dict_get (rows_of act igns) k = if mem k igns then Some (dict_get act k) else None.
Proof. unfold rows_of. now rewrite rows_of_get_from. Qed.

(** X10.  In the report of a run that started from a well-formed tracker,
    each tier has a row for each of its igns and for no other ign; every
    row of the active and of the grace-period table carries a record with a
    last join, and a row of the inactive table carries such a record or -
    exactly for the igns that have none - no record at all ("N/A"). *)
Theorem rows_carry_records (env : Env) (self self' : Tracker) (log_file : string)
    (outs : list Output) (out : Outcome) (report : Report) :
  wf_activity (self_activity self) ->
  calculate_activity env self log_file = (outs, self', Ok out) ->
  In (PrintActivityLog report) outs ->
  (forall x, In x (active_igns (out_tiers out)) <->
             exists info j, dict_get (rep_active_rows report) x = Some (Some info)
                            /\ dict_get (self_activity self') x = Some info
                            /\ last_join info = Some j)
  /\ (forall x, In x (grace_period_igns (out_tiers out)) <->
                exists info j, dict_get (rep_grace_rows report) x = Some (Some info)
                               /\ dict_get (self_activity self') x = Some info
                               /\ last_join info = Some j)
  /\ (forall x, In x (inactive_igns (out_tiers out)) <->
                exists row, dict_get (rep_inactive_rows report) x = Some row
                  /\ row = dict_get (self_activity self') x
                  /\ (forall info, row = Some info -> exists j, last_join info = Some j)).
Proof.
  intros Hwf Hrun Hrep.
  destruct (print_activity_log_printed _ _ _ _ _ _ _ Hrun Hrep) as (gld & Hg' & -> & C).
  assert (Hwf' : wf_activity (self_activity self')).
  { destruct (calculate_activity_Ok _ _ _ _ _ _ Hrun)
      as (logs & g & sb & first & st & _ & _ & _ & _ & P & -> & _).
    destruct (parse_logs_ok (log_timestamp first) (grace_period_end (log_timestamp first))
                logs (fresh_loop self) Hwf) as (st' & P' & W).
    rewrite P in P'. inversion P'; subst. exact W. }
  assert (Hrec : forall x, (0 < long_join_count (self_activity self') x)%nat \/
                           In x (out_igns_in_grace_period out) ->
                           In x (dict_keys (self_activity self'))).
  { intros x [Hx | Hx]; [now apply long_join_count_keys|].
    destruct (calculate_activity_Ok _ _ _ _ _ _ Hrun)
      as (logs & g & sb & first & st & _ & _ & _ & _ & P & -> & C' & _).
    apply classify_and_promote_Ok in C'. destruct C' as (_ & _ & _ & _ & Hgr & _).
    rewrite Hgr in Hx.
    destruct (parse_logs_wf (log_timestamp first) (grace_period_end (log_timestamp first))
                logs (fresh_loop self) (wf_loop_fresh self Hwf)) as (st' & P' & _ & W).
    rewrite P in P'. inversion P'; subst. now apply W. }
  simpl. split; [|split]; intros x; rewrite rows_of_get;
    destruct (classify_In _ _ _ _ C x) as (HA & HG & HI).
  - split.
    + intros Hx. rewrite (proj2 (mem_In _ _) Hx).
      assert (Hk : In x (dict_keys (self_activity self'))).
      { apply Hrec. left. apply HA in Hx. unfold NUM_LONG_JOINS_FOR_ACTIVITY in Hx. lia. }
      apply dict_get_In_keys in Hk. destruct Hk as [info Hk].
      destruct (Hwf' x info Hk) as [j Hj]. exists info, j. rewrite Hk. auto.
    + intros (info & j & Hrow & _). destruct (mem x _) eqn:M; [|discriminate].
      now apply mem_In.
  - split.
    + intros Hx. rewrite (proj2 (mem_In _ _) Hx).
      assert (Hk : In x (dict_keys (self_activity self'))).
      { apply Hrec. right. apply HG in Hx. destruct Hx as (_ & Hx & _).
        now apply iter_In in Hx. }
      apply dict_get_In_keys in Hk. destruct Hk as [info Hk].
      destruct (Hwf' x info Hk) as [j Hj]. exists info, j. rewrite Hk. auto.
    + intros (info & j & Hrow & _). destruct (mem x _) eqn:M; [|discriminate].
      now apply mem_In.
  - split.
    + intros Hx. rewrite (proj2 (mem_In _ _) Hx). eexists. split; [reflexivity|].
      split; [reflexivity|]. intros info Hk. exact (Hwf' x info Hk).
    + intros (row & Hrow & _). destruct (mem x _) eqn:M; [|discriminate].
      now apply mem_In.
Qed.

Lemma rows_carry_records_witness :
  exists outs self' out report,
    wf_activity (self_activity ActivityTracker)
    /\ calculate_activity (sample_env sample_log (at_min 200)) ActivityTracker "logs.json"
       = (outs, self', Ok out)
    /\ In (PrintActivityLog report) outs
    /\ rep_inactive_rows report = [("Z", None)]
    /\ (forall x, In x (active_igns (out_tiers out)) <->
               exists info j, dict_get (rep_active_rows report) x = Some (Some info)
                              /\ dict_get (self_activity self') x = Some info
                              /\ last_join info = Some j)
    /\ (forall x, In x (grace_period_igns (out_tiers out)) <->
                  exists info j, dict_get (rep_grace_rows report) x = Some (Some info)
                                 /\ dict_get (self_activity self') x = Some info
                                 /\ last_join info = Some j)
    /\ (forall x, In x (inactive_igns (out_tiers out)) <->
                  exists row, dict_get (rep_inactive_rows report) x = Some row
                    /\ row = dict_get (self_activity self') x
                    /\ (forall info, row = Some info -> exists j, last_join info = Some j)).
Proof.
  do 4 eexists. split; [exact wf_activity_nil|]. split; [vm_compute; reflexivity|].
  split; [right; left; reflexivity|]. split; [reflexivity|].
  eapply (rows_carry_records (sample_env sample_log (at_min 200))
            ActivityTracker _ "logs.json").
  - exact wf_activity_nil.
  - vm_compute; reflexivity.
  - vm_compute; right; left; reflexivity.
Defined.

(* ================================================================== *)
(** * Further properties of the tiers and of the promotion lists *)



(** ** The promotion lists as plain filters *)

Lemma filter_r_filter {A} (p : A -> result bool) (f : A -> bool) (l r : list A) :
  (forall x b, In x l -> p x = Ok b -> b = f x) ->
  filter_r p l = Ok r -> r = filter f l.
Proof.
  revert r. induction l as [|x l IH]; simpl; intros r Hp H.
  - now inversion H.
  - destruct (p x) as [b|e] eqn:Ex; simpl in H; [|discriminate].
    destruct (filter_r p l) as [r0|e] eqn:El; simpl in H; [|discriminate].
    inversion H; subst; clear H.
    rewrite <- (Hp x b (or_introl eq_refl) Ex).
    assert (E0 : r0 = filter f l).
    { apply IH; [|reflexivity]. intros y c Hy. apply Hp. now right. }
    now subst r0.
Qed.

Lemma skipn_last_one {A} (l : list A) :
  skipn (List.length l - 1) l = match last_opt l with Some x => [x] | None => [] end.
Proof.
  induction l as [|x l IH]; [reflexivity|].
  destruct l as [|y l]; [reflexivity|].
  change (last_opt (x :: y :: l)) with (last_opt (y :: l)). rewrite <- IH.
  simpl. now rewrite Nat.sub_0_r.
Qed.

Lemma recent_long_joins_last (act : dict ActivityInfo) (start : datetime) (ign : string)
    (b : bool) :
  recent_long_joins act 1 start ign = Ok b -> b = last_long_join_since act start ign.
Proof.
  unfold recent_long_joins, last_long_join_since.
  destruct (dict_get act ign) as [info|]; [|discriminate].
  intros H. inversion H; subst; clear H.
  unfold slice_last. rewrite skipn_last_one.
  destruct (last_opt (last_long_join info)) as [t|]; simpl; [|reflexivity].
  destruct (t <? start) eqn:L.
  - apply Z.ltb_lt in L. symmetry. apply Z.leb_gt. exact L.
  - apply Z.ltb_ge in L. symmetry. apply Z.leb_le. exact L.
Qed.

Lemma get_raw_to_boiled_promotion_igns_filter (act : dict ActivityInfo)
    (guild_list_dict : dict (list string)) (active : list string)
    (known : dict datetime) (nearest today : datetime) (raw_igns l : list string) :
  dict_get guild_list_dict RAW_RANK = Some raw_igns ->
  get_raw_to_boiled_promotion_igns act guild_list_dict active known nearest today = Ok l ->
  l = filter (raw_eligible act active known nearest today) raw_igns.
Proof.
  intros Hr. unfold get_raw_to_boiled_promotion_igns. rewrite Hr.
  apply filter_r_filter. intros x b _. unfold raw_eligible.
  destruct (mem x active); simpl; [|intros H; now inversion H].
  destruct (recent_long_joins act NUM_LONG_JOINS_FOR_RAW_PROMOTION _ x) as [c|e] eqn:E;
    simpl; [|discriminate].
  intros H. inversion H; subst; clear H.
  now rewrite (recent_long_joins_last _ _ _ _ E).
Qed.

Lemma get_boiled_to_scrambled_promotion_igns_filter (act : dict ActivityInfo)
    (guild_list_dict : dict (list string)) (sb_level_dict : dict pyfloat)
    (active : list string) (known : dict datetime) (nearest today : datetime)
    (boiled_igns l : list string) :
  dict_get guild_list_dict BOILED_RANK = Some boiled_igns ->
  get_boiled_to_scrambled_promotion_igns act guild_list_dict sb_level_dict active known
    nearest today = Ok l ->
  l = filter (boiled_eligible act sb_level_dict active known nearest today) boiled_igns.
Proof.
  intros Hr. unfold get_boiled_to_scrambled_promotion_igns. rewrite Hr.
  apply filter_r_filter. intros x b _. unfold boiled_eligible, sb_level_of.
  destruct (mem x active); simpl; [|intros H; now inversion H].
  destruct (recent_long_joins act NUM_LONG_JOINS_FOR_BOILED_PROMOTION _ x) as [c|e] eqn:E;
    simpl; [|discriminate].
  intros H. inversion H; subst; clear H.
  now rewrite (recent_long_joins_last _ _ _ _ E).
Qed.

(** What a returned run computed, piece by piece. *)
Lemma calculate_activity_promotions (env : Env) (self self' : Tracker) (log_file : string)
    (outs : list Output) (out : Outcome) :
  calculate_activity env self log_file = (outs, self', Ok out) ->
  exists guild_list_dict sb_level_dict raw_igns boiled_igns,
    guild_list_file env = Contents guild_list_dict
    /\ sb_level_file env = Contents sb_level_dict
    /\ dict_get guild_list_dict RAW_RANK = Some raw_igns
    /\ dict_get guild_list_dict BOILED_RANK = Some boiled_igns
    /\ raw_to_boiled_promotion_igns out
       = filter (raw_eligible (self_activity self') (active_igns (out_tiers out))
                   (out_known_guild_join_dates out) (nearest_log_time out)
                   (clock env 0%nat)) raw_igns
    /\ boiled_to_scrambled_promotion_igns out
       = filter (boiled_eligible (self_activity self') sb_level_dict
                   (active_igns (out_tiers out)) (out_known_guild_join_dates out)
                   (nearest_log_time out) (clock env 1%nat)) boiled_igns.
Proof.
  intros Hrun.
  destruct (calculate_activity_Ok _ _ _ _ _ _ Hrun)
    as (logs & gld & sb & first & st & _ & Hg & Hs & _ & _ & -> & C & _).
  apply classify_and_promote_Ok in C.
  destruct C as (_ & R & B & -> & _ & _ & ->).
  destruct (dict_get gld RAW_RANK) as [raw_igns|] eqn:Hraw.
  2:{ unfold get_raw_to_boiled_promotion_igns in R. rewrite Hraw in R. discriminate. }
  destruct (dict_get gld BOILED_RANK) as [boiled_igns|] eqn:Hboiled.
  2:{ unfold get_boiled_to_scrambled_promotion_igns in B. rewrite Hboiled in B.
      discriminate. }
  exists gld, sb, raw_igns, boiled_igns. simpl.
  repeat split; auto.
  - eapply get_raw_to_boiled_promotion_igns_filter; eauto.
  - eapply get_boiled_to_scrambled_promotion_igns_filter; eauto.
Qed.

(** X12.  Whenever a run returns, each promotion list is made of igns of
    its source rank ("Raw Egg", "Hard Boiled Egg") that are in the active
    tier - hence of roster igns with at least two long joins - and the
    lists printed as clear and the lists of the warnings are parts of
    them. *)
Theorem promotions_within_rank_and_active (env : Env) (self self' : Tracker)
    (log_file : string) (guild_list_dict : dict (list string))
    (raw_igns boiled_igns : list string) (outs : list Output) (out : Outcome)
    (report : Report) :
  guild_list_file env = Contents guild_list_dict ->
  dict_get guild_list_dict RAW_RANK = Some raw_igns ->
  dict_get guild_list_dict BOILED_RANK = Some boiled_igns ->
  calculate_activity env self log_file = (outs, self', Ok out) ->
  In (PrintActivityLog report) outs ->
  (forall x, In x (raw_to_boiled_promotion_igns out) ->
             In x raw_igns /\ In x (active_igns (out_tiers out)))
  /\ (forall x, In x (boiled_to_scrambled_promotion_igns out) ->
                In x boiled_igns /\ In x (active_igns (out_tiers out)))
  /\ (forall x, In x (rep_raw_printed report) \/ In x (rep_raw_unknown_join_igns report) ->
                In x (raw_to_boiled_promotion_igns out))
  /\ (forall x, In x (rep_boiled_printed report)
                \/ In x (rep_boiled_unknown_join_igns report) ->
                In x (boiled_to_scrambled_promotion_igns out)).
Proof.
  intros Hg Hraw Hboiled Hrun Hrep.
  destruct (calculate_activity_promotions _ _ _ _ _ _ Hrun)
    as (gld & sb & r & b & Hg' & _ & Hr & Hb & ER & EB).
  rewrite Hg in Hg'. inversion Hg'; subst gld; clear Hg'.
  rewrite Hraw in Hr. inversion Hr; subst r; clear Hr.
  rewrite Hboiled in Hb. inversion Hb; subst b; clear Hb.
  destruct (print_activity_log_printed _ _ _ _ _ _ _ Hrun Hrep) as (g & _ & -> & _).
  simpl. repeat split.
  - rewrite ER in H. now apply filter_In in H.
  - rewrite ER in H. apply filter_In in H. destruct H as [_ H].
    unfold raw_eligible in H. apply Bool.andb_true_iff in H. destruct H as [H _].
    apply Bool.andb_true_iff in H. destruct H as [H _]. now apply mem_In.
  - rewrite EB in H. now apply filter_In in H.
  - rewrite EB in H. apply filter_In in H. destruct H as [_ H].
    unfold boiled_eligible in H. apply Bool.andb_true_iff in H. destruct H as [H _].
    apply Bool.andb_true_iff in H. destruct H as [H _].
    apply Bool.andb_true_iff in H. destruct H as [H _]. now apply mem_In.
  - intros x [H | H]; apply filter_In in H; tauto.
  - intros x [H | H]; apply filter_In in H; tauto.
Qed.
Lemma promotions_within_rank_and_active_witness :
  exists outs self' out report,
    guild_list_file (boiled_env (at_min 300)) = Contents boiled_roster
    /\ dict_get boiled_roster RAW_RANK = Some ["Z"]
    /\ dict_get boiled_roster BOILED_RANK = Some ["X"; "Y"]
    /\ calculate_activity (boiled_env (at_min 300)) ActivityTracker "logs.json"
       = (outs, self', Ok out)
    /\ In (PrintActivityLog report) outs
    /\ boiled_to_scrambled_promotion_igns out = ["X"]
    /\ (forall x, In x (raw_to_boiled_promotion_igns out) ->
                  In x ["Z"] /\ In x (active_igns (out_tiers out)))
    /\ (forall x, In x (boiled_to_scrambled_promotion_igns out) ->
                  In x ["X"; "Y"] /\ In x (active_igns (out_tiers out)))
    /\ (forall x, In x (rep_raw_printed report) \/ In x (rep_raw_unknown_join_igns report) ->
                  In x (raw_to_boiled_promotion_igns out))
    /\ (forall x, In x (rep_boiled_printed report)
                  \/ In x (rep_boiled_unknown_join_igns report) ->
                  In x (boiled_to_scrambled_promotion_igns out)).
Proof.
  do 4 eexists. split; [reflexivity|]. split; [reflexivity|]. split; [reflexivity|].
  split; [vm_compute; reflexivity|]. split; [right; left; reflexivity|].
  split; [reflexivity|].
  eapply (promotions_within_rank_and_active (boiled_env (at_min 300)) ActivityTracker _
            "logs.json" boiled_roster ["Z"] ["X"; "Y"]).
  - vm_compute; reflexivity.
  - vm_compute; reflexivity.
  - vm_compute; reflexivity.
  - vm_compute; reflexivity.
  - vm_compute; right; left; reflexivity.
Defined.



(** ** Promotion and the clock *)

Lemma tenure_ok_later (known : dict datetime) (d d' : datetime) (ign : string) :
  d <= d' -> tenure_ok known d ign = true -> tenure_ok known d' ign = true.
Proof.
  unfold tenure_ok. destruct (dict_get known ign) as [t|]; [|auto].
  rewrite !Z.leb_le. lia.
Qed.

(** Two returned runs on the same tracker and the same log and roster
    agree on everything the clock does not enter. *)
Lemma calculate_activity_same_state (env1 env2 : Env) (self self1 self2 : Tracker)
    (log_file : string) (outs1 outs2 : list Output) (out1 out2 : Outcome) :
  read_log_file env1 log_file = read_log_file env2 log_file ->
  guild_list_file env1 = guild_list_file env2 ->
  calculate_activity env1 self log_file = (outs1, self1, Ok out1) ->
  calculate_activity env2 self log_file = (outs2, self2, Ok out2) ->
  self1 = self2
  /\ active_igns (out_tiers out1) = active_igns (out_tiers out2)
  /\ out_known_guild_join_dates out1 = out_known_guild_join_dates out2
  /\ nearest_log_time out1 = nearest_log_time out2.
Proof.
  intros Hl Hg H1 H2.
  destruct (calculate_activity_Ok _ _ _ _ _ _ H1)
    as (logs1 & gld1 & sb1 & first1 & st1 & Hl1 & Hg1 & _ & Hhd1 & P1 & -> & C1 & _).
  destruct (calculate_activity_Ok _ _ _ _ _ _ H2)
    as (logs2 & gld2 & sb2 & first2 & st2 & Hl2 & Hg2 & _ & Hhd2 & P2 & -> & C2 & _).
  rewrite Hl, Hl2 in Hl1. inversion Hl1; subst logs2; clear Hl1.
  rewrite Hg, Hg2 in Hg1. inversion Hg1; subst gld2; clear Hg1.
  rewrite Hhd1 in Hhd2. inversion Hhd2; subst first2; clear Hhd2.
  rewrite P1 in P2. inversion P2; subst st2; clear P2.
  apply classify_and_promote_Ok in C1, C2.
  destruct C1 as (C1 & _ & _ & K1 & _ & _ & N1).
  destruct C2 as (C2 & _ & _ & K2 & _ & _ & N2).
  assert (HP : Permutation (iter (set_order env1) (igns_in_grace_period st1))
                 (iter (set_order env2) (igns_in_grace_period st1))).
  { eapply Permutation_trans; [apply iter_perm | apply Permutation_sym, iter_perm]. }
  destruct (classify_grace_order _ _ _ _ _ _ HP C1 C2) as (Ha & _).
  repeat split; congruence.
Qed.

(** X14.  Time only helps promotion: of two returned runs on the same
    tracker, log, roster and level file, the run with the later clock
    promotes every ign that the run with the earlier clock promotes. *)
Theorem promotion_grows_with_clock (env1 env2 : Env) (self self1 self2 : Tracker)
    (log_file : string) (outs1 outs2 : list Output) (out1 out2 : Outcome) :
  read_log_file env1 log_file = read_log_file env2 log_file ->
  guild_list_file env1 = guild_list_file env2 ->
  sb_level_file env1 = sb_level_file env2 ->
  clock env1 0%nat <= clock env2 0%nat ->
  clock env1 1%nat <= clock env2 1%nat ->
  calculate_activity env1 self log_file = (outs1, self1, Ok out1) ->
  calculate_activity env2 self log_file = (outs2, self2, Ok out2) ->
  (forall x, In x (raw_to_boiled_promotion_igns out1) ->
             In x (raw_to_boiled_promotion_igns out2))
  /\ (forall x, In x (boiled_to_scrambled_promotion_igns out1) ->
                In x (boiled_to_scrambled_promotion_igns out2)).
Proof.
  intros Hl Hg Hs Hc0 Hc1 H1 H2.
  destruct (calculate_activity_same_state _ _ _ _ _ _ _ _ _ _ Hl Hg H1 H2)
    as (-> & ET & EK & EN).
  destruct (calculate_activity_promotions _ _ _ _ _ _ H1)
    as (gld & sb & r & b & Hg1 & Hs1 & Hr1 & Hb1 & ER1 & EB1).
  destruct (calculate_activity_promotions _ _ _ _ _ _ H2)
    as (gld' & sb' & r' & b' & Hg2 & Hs2 & Hr2 & Hb2 & ER2 & EB2).
  rewrite Hg, Hg2 in Hg1. inversion Hg1; subst gld'; clear Hg1.
  rewrite Hs, Hs2 in Hs1. inversion Hs1; subst sb'; clear Hs1.
  rewrite Hr1 in Hr2. inversion Hr2; subst r'; clear Hr2.
  rewrite Hb1 in Hb2. inversion Hb2; subst b'; clear Hb2.
  rewrite ER1, ER2, EB1, EB2, ET, EK, EN. split; intros x Hx;
    apply filter_In in Hx; destruct Hx as [Hx E]; apply filter_In; (split; [exact Hx|]).
  - unfold raw_eligible in *. apply Bool.andb_true_iff in E. destruct E as [E T].
    rewrite E. simpl. eapply tenure_ok_later; [|exact T]. lia.
  - unfold boiled_eligible in *. apply Bool.andb_true_iff in E. destruct E as [E L].
    apply Bool.andb_true_iff in E. destruct E as [E T].
    rewrite E, L. simpl. rewrite Bool.andb_true_r.
    eapply tenure_ok_later; [|exact T]. lia.
Qed.

Lemma promotion_grows_with_clock_witness :
  exists outs1 self1 out1 outs2 self2 out2,
    read_log_file (sample_env tenure_log (at_min 200)) "logs.json"
    = read_log_file (sample_env tenure_log (at_min (31 * 1440))) "logs.json"
    /\ guild_list_file (sample_env tenure_log (at_min 200))
       = guild_list_file (sample_env tenure_log (at_min (31 * 1440)))
    /\ sb_level_file (sample_env tenure_log (at_min 200))
       = sb_level_file (sample_env tenure_log (at_min (31 * 1440)))
    /\ clock (sample_env tenure_log (at_min 200)) 0%nat
       <= clock (sample_env tenure_log (at_min (31 * 1440))) 0%nat
    /\ clock (sample_env tenure_log (at_min 200)) 1%nat
       <= clock (sample_env tenure_log (at_min (31 * 1440))) 1%nat
    /\ calculate_activity (sample_env tenure_log (at_min 200)) ActivityTracker "logs.json"
       = (outs1, self1, Ok out1)
    /\ calculate_activity (sample_env tenure_log (at_min (31 * 1440))) ActivityTracker
         "logs.json" = (outs2, self2, Ok out2)
    /\ (forall x, In x (raw_to_boiled_promotion_igns out1) ->
                  In x (raw_to_boiled_promotion_igns out2))
    /\ (forall x, In x (boiled_to_scrambled_promotion_igns out1) ->
                  In x (boiled_to_scrambled_promotion_igns out2)).
Proof.
  do 6 eexists. split; [reflexivity|]. split; [reflexivity|]. split; [reflexivity|].
  split; [vm_compute; discriminate|]. split; [vm_compute; discriminate|].
  split; [vm_compute; reflexivity|]. split; [vm_compute; reflexivity|].
  eapply (promotion_grows_with_clock (sample_env tenure_log (at_min 200))
            (sample_env tenure_log (at_min (31 * 1440))) ActivityTracker _ _ "logs.json");
    try reflexivity; vm_compute; discriminate.
Defined.

(** ** The level gate *)

(** X15.  Whenever a run returns, an ign on the boiled-to-scrambled list
    has an entry in the level file, and its level is a number of at least
    240 or plus infinity: an ign the level file does not know, or whose
    level is not a number, is never on the list. *)
Theorem scrambled_promotion_needs_level (env : Env) (self self' : Tracker)
    (log_file : string) (sb_level_dict : dict pyfloat)
    (outs : list Output) (out : Outcome) (ign : string) :
  sb_level_file env = Contents sb_level_dict ->
  calculate_activity env self log_file = (outs, self', Ok out) ->
  In ign (boiled_to_scrambled_promotion_igns out) ->
  exists level,
    dict_get sb_level_dict ign = Some level
    /\ (level = PosInf
        \/ exists q, level = Finite q /\ (inject_Z SCRAMBLED_SB_LEVEL <= q)%Q).
Proof.
  intros Hs Hrun Hin.
  destruct (calculate_activity_promotions _ _ _ _ _ _ Hrun)
    as (gld & sb & r & b & _ & Hs' & _ & _ & _ & EB).
  rewrite Hs in Hs'. inversion Hs'; subst sb; clear Hs'.
  rewrite EB in Hin. apply filter_In in Hin. destruct Hin as [_ E].
  unfold boiled_eligible in E. apply Bool.andb_true_iff in E. destruct E as [_ L].
  unfold sb_level_of in L. destruct (dict_get sb_level_dict ign) as [level|].
  - exists level. split; [reflexivity|].
    destruct level as [q| | |]; simpl in L; try discriminate; [right | now left].
    exists q. split; [reflexivity|]. now apply Qle_bool_iff.
  - simpl in L. vm_compute in L. discriminate.
Qed.

Lemma scrambled_promotion_needs_level_witness :
  exists outs self' out,
    sb_level_file (boiled_env (at_min 300)) = Contents sample_levels
    /\ calculate_activity (boiled_env (at_min 300)) ActivityTracker "logs.json"
       = (outs, self', Ok out)
    /\ In "X" (boiled_to_scrambled_promotion_igns out)
    /\ ~ In "Y" (boiled_to_scrambled_promotion_igns out)
    /\ exists level,
         dict_get sample_levels "X" = Some level
         /\ (level = PosInf
             \/ exists q, level = Finite q /\ (inject_Z SCRAMBLED_SB_LEVEL <= q)%Q).
Proof.
  do 3 eexists. split; [reflexivity|]. split; [vm_compute; reflexivity|].
  split; [left; reflexivity|].
  split; [intros [H | []]; discriminate|].
  eapply (scrambled_promotion_needs_level (boiled_env (at_min 300)) ActivityTracker _
            "logs.json" sample_levels); [vm_compute; reflexivity | vm_compute; reflexivity | vm_compute; left; reflexivity].
Defined.

(* ================================================================== *)
(** * Further properties of whole runs *)

Lemma get_raw_to_boiled_promotion_igns_missing (act : dict ActivityInfo)
    (guild_list_dict : dict (list string)) (active : list string)
    (known : dict datetime) (nearest today : datetime) :
  dict_get guild_list_dict RAW_RANK = None ->
  get_raw_to_boiled_promotion_igns act guild_list_dict active known nearest today
  = Raise (KeyError RAW_RANK).
Proof. intros H. unfold get_raw_to_boiled_promotion_igns. now rewrite H. Qed.

Lemma get_boiled_to_scrambled_promotion_igns_missing (act : dict ActivityInfo)
    (guild_list_dict : dict (list string)) (sb_level_dict : dict pyfloat)
    (active : list string) (known : dict datetime) (nearest today : datetime) :
  dict_get guild_list_dict BOILED_RANK = None ->
  get_boiled_to_scrambled_promotion_igns act guild_list_dict sb_level_dict active known
    nearest today = Raise (KeyError BOILED_RANK).
Proof. intros H. unfold get_boiled_to_scrambled_promotion_igns. now rewrite H. Qed.

(** X16.  A run returns only when it has read its three files, found an
    entry in the log, and found on the roster the two ranks that the
    promotion rules look up, "Raw Egg" and "Hard Boiled Egg": a roster
    without either rank never gives a result, whatever the log. *)
Theorem returned_run_found_both_ranks (env : Env) (self self' : Tracker)
    (log_file : string) (outs : list Output) (out : Outcome) :
  calculate_activity env self log_file = (outs, self', Ok out) ->
  exists logs guild_list_dict sb_level_dict raw_igns boiled_igns,
    read_log_file env log_file = Contents logs
    /\ logs <> []
    /\ guild_list_file env = Contents guild_list_dict
    /\ sb_level_file env = Contents sb_level_dict
    /\ dict_get guild_list_dict RAW_RANK = Some raw_igns
    /\ dict_get guild_list_dict BOILED_RANK = Some boiled_igns.
Proof.
  intros Hrun.
  destruct (calculate_activity_Ok _ _ _ _ _ _ Hrun)
    as (logs & gld & sb & first & st & Hl & Hg & Hs & Hhd & _ & _ & C & _).
  apply classify_and_promote_Ok in C. destruct C as (_ & R & B & _).
  exists logs, gld, sb.
  destruct (dict_get gld RAW_RANK) as [raw_igns|] eqn:Hraw;
    [|rewrite get_raw_to_boiled_promotion_igns_missing in R by exact Hraw; discriminate].
  destruct (dict_get gld BOILED_RANK) as [boiled_igns|] eqn:Hboiled;
    [|rewrite get_boiled_to_scrambled_promotion_igns_missing in B by exact Hboiled;
      discriminate].
  exists raw_igns, boiled_igns. repeat split; try assumption.
  intros ->. discriminate.
Qed.

Lemma returned_run_found_both_ranks_witness :
  (exists outs self' out,
     calculate_activity (sample_env sample_log (at_min 200)) ActivityTracker "logs.json"
       = (outs, self', Ok out)
     /\ exists logs guild_list_dict sb_level_dict raw_igns boiled_igns,
          read_log_file (sample_env sample_log (at_min 200)) "logs.json" = Contents logs
          /\ logs <> []
          /\ guild_list_file (sample_env sample_log (at_min 200)) = Contents guild_list_dict
          /\ sb_level_file (sample_env sample_log (at_min 200)) = Contents sb_level_dict
          /\ dict_get guild_list_dict RAW_RANK = Some raw_igns
          /\ dict_get guild_list_dict BOILED_RANK = Some boiled_igns)
  /\ (forall outs self' out,
        calculate_activity no_raw_env ActivityTracker "logs.json" <> (outs, self', Ok out)).
Proof.
  split.
  - do 3 eexists. split; [vm_compute; reflexivity|].
    eapply (returned_run_found_both_ranks (sample_env sample_log (at_min 200))
              ActivityTracker _ "logs.json").
    vm_compute; reflexivity.
  - intros outs self' out Hrun.
    destruct (returned_run_found_both_ranks no_raw_env ActivityTracker self' "logs.json"
                outs out Hrun)
      as (logs & gld & sb & raw_igns & boiled_igns & _ & _ & Hg & _ & Hraw & _).
    inversion Hg; subst gld. discriminate.
Defined.

(** ** The warnings on old files *)

Lemma td_days_bounds (d : timedelta) :
  td_days d * US_PER_DAY <= d < (td_days d + 1) * US_PER_DAY.
Proof.
  unfold td_days, US_PER_DAY, US_PER_SECOND.
  pose proof (Z.div_mod d (86400 * 1000000) ltac:(lia)) as E.
  pose proof (Z.mod_pos_bound d (86400 * 1000000) ltac:(lia)) as B.
  lia.
Qed.

Lemma td_days_more_than_one (d : timedelta) :
  (td_days d >? 1) = true <-> 2 * US_PER_DAY <= d.
Proof.
  rewrite Z.gtb_ltb, Z.ltb_lt.
  pose proof (td_days_bounds d) as B.
  assert (Hpos : 0 < US_PER_DAY) by (unfold US_PER_DAY, US_PER_SECOND; lia).
  split; intros H; nia.
Qed.

(** X17.  In the report of a run, the warning that the roster file "has not
    been updated in the last day" is raised exactly when the file is at
    least two whole days (48 hours) older than the clock, and likewise for
    the level file; the number of days printed for the log is the whole
    number of days between its first and its last entry. *)
Theorem stale_warning_after_two_days (env : Env) (self self' : Tracker)
    (log_file : string) (outs : list Output) (out : Outcome)
    (furthest nearest : datetime) (days : Z) (guild_list_stale sb_level_list_stale : bool) :
  calculate_activity env self log_file = (outs, self', Ok out) ->
  In (PrintDisclaimers furthest nearest days guild_list_stale sb_level_list_stale) outs ->
  (guild_list_stale = true <-> 2 * US_PER_DAY <= clock env 2%nat - guild_list_mtime env)
  /\ (sb_level_list_stale = true <->
      2 * US_PER_DAY <= clock env 2%nat - sb_level_mtime env)
  /\ furthest = furthest_log_time out
  /\ nearest = nearest_log_time out
  /\ days * US_PER_DAY <= nearest - furthest < (days + 1) * US_PER_DAY.
Proof.
  intros Hrun Hin.
  destruct (calculate_activity_Ok _ _ _ _ _ _ Hrun)
    as (logs & gld & sb & first & st & _ & _ & _ & _ & _ & _ & C & ->).
  apply classify_and_promote_Ok in C. destruct C as (_ & _ & _ & _ & _ & -> & ->).
  destruct Hin as [H | [H | [H | []]]]; try discriminate.
  inversion H; subst; clear H.
  rewrite <- !td_days_more_than_one. repeat split; auto;
    apply td_days_bounds.
Qed.

Lemma stale_warning_after_two_days_witness :
  exists outs self' out,
    calculate_activity stale_env ActivityTracker "logs.json" = (outs, self', Ok out)
    /\ In (PrintDisclaimers (at_min 0) (at_min 102) 0 false true) outs
    /\ (false = true <->
        2 * US_PER_DAY <= clock stale_env 2%nat - guild_list_mtime stale_env)
    /\ (true = true <-> 2 * US_PER_DAY <= clock stale_env 2%nat - sb_level_mtime stale_env)
    /\ at_min 0 = furthest_log_time out
    /\ at_min 102 = nearest_log_time out
    /\ 0 * US_PER_DAY <= at_min 102 - at_min 0 < (0 + 1) * US_PER_DAY.
Proof.
  do 3 eexists. split; [vm_compute; reflexivity|].
  split; [right; right; left; reflexivity|].
  eapply (stale_warning_after_two_days stale_env ActivityTracker _ "logs.json").
  - vm_compute; reflexivity.
  - vm_compute; right; right; left; reflexivity.
Defined.

Example save_messages_sample :
  save_messages 60 (at_min 50) sample_history
  = [ mkLog (at_min 0) "X" true false;
      mkLog (at_min 20) "Y" true true;
      mkLog (at_min 40) "X" false false ].
Proof. vm_compute. reflexivity. Qed.
(* ================================================================== *)
(** * Properties of [save_messages] *)

Lemma first_word_no_space (s : string) : no_space (first_word s).
Proof.
  unfold no_space. induction s as [|c s IH]; simpl; [intros c []|].
  destruct (Ascii.eqb c Ascii.Space) eqn:E; simpl; [intros c' []|].
  intros c' [<- | H]; [|now apply IH].
  now apply Ascii.eqb_neq.
Qed.

Lemma read_embed_entry (msg : string) (c : option Z) (timestamp : datetime) (log : Log) :
  read_embed msg c timestamp = Entry log ->
  log_timestamp log = timestamp
  /\ no_space (log_ign log)
  /\ (log_is_guild_join log = true -> log_is_join log = true)
  /\ (log_is_guild_join log = false ->
      (log_is_join log = true /\ c = Some JOIN_COLOR)
      \/ (log_is_join log = false /\ c = Some LEAVE_COLOR)).
Proof.
  unfold read_embed.
  destruct (strip_prefix JOIN_LEAVE_PREFIX msg) as [rest|].
  - destruct c as [n|]; [|discriminate].
    destruct (n =? JOIN_COLOR) eqn:EJ.
    + intros H. inversion H; subst; clear H. simpl.
      apply Z.eqb_eq in EJ. subst n.
      repeat split; auto using first_word_no_space; try discriminate.
    + destruct (n =? LEAVE_COLOR) eqn:EL; [|discriminate].
      intros H. inversion H; subst; clear H. simpl.
      apply Z.eqb_eq in EL. subst n.
      repeat split; auto using first_word_no_space; try discriminate.
  - destruct (contains GUILD_JOIN_TEXT msg); [|discriminate].
    intros H. inversion H; subst; clear H. simpl.
    repeat split; auto using first_word_no_space; try discriminate.
Qed.

(** What the loop adds to [logs] it puts in front, and takes from a
    message of the history. *)
Lemma collect_entries (max_day : datetime) (history : list Message) :
  forall logs i seen log,
  In log (collect max_day history logs i seen) ->
  In log logs
  \/ exists m embed others msg,
       In m history /\ embeds m = embed :: others /\ description embed = Some msg
       /\ read_embed msg (color embed) (created_at m) = Entry log.
Proof.
  induction history as [|m rest IH]; intros logs i seen log; simpl; [auto|].
  assert (Hrest : forall logs' i' seen',
            In log (collect max_day rest logs' i' seen') ->
            In log logs'
            \/ exists m0 embed others msg,
                 (m = m0 \/ In m0 rest) /\ embeds m0 = embed :: others
                 /\ description embed = Some msg
                 /\ read_embed msg (color embed) (created_at m0) = Entry log).
  { intros logs' i' seen' H. destruct (IH _ _ _ _ H) as [H' | (m0 & e & o & s & H1 & H2)];
      [now left | right; exists m0, e, o, s; tauto]. }
  assert (Hcount : forall logs' seen',
            In log (if ((S i mod 100 =? 0)%nat && negb seen')%bool then logs'
                    else collect max_day rest logs' (S i) seen') ->
            In log logs'
            \/ exists m0 embed others msg,
                 (m = m0 \/ In m0 rest) /\ embeds m0 = embed :: others
                 /\ description embed = Some msg
                 /\ read_embed msg (color embed) (created_at m0) = Entry log).
  { intros logs' seen'. destruct (_ && _)%bool; [now left | apply Hrest]. }
  destruct (embeds m) as [|embed others] eqn:Em; [apply Hcount|].
  destruct (description embed) as [msg|] eqn:Ed; [|apply Hrest].
  destruct (read_embed msg (color embed) (created_at m)) as [|entry|] eqn:Er.
  - apply Hrest.
  - assert (Hnew : In log (entry :: logs) ->
              In log logs
              \/ exists m0 embed0 others0 msg0,
                   (m = m0 \/ In m0 rest) /\ embeds m0 = embed0 :: others0
                   /\ description embed0 = Some msg0
                   /\ read_embed msg0 (color embed0) (created_at m0) = Entry log).
    { intros [<- | H]; [|now left]. right. exists m, embed, others, msg. auto. }
    destruct (created_at m <? max_day); [exact Hnew|].
    intros H. destruct (Hcount (entry :: logs) true H) as [H' | H'];
      [now apply Hnew | now right].
  - destruct (created_at m <? max_day); [now left | apply (Hcount logs true)].
Qed.

(** X18.  Every entry [save_messages] saves comes from the first embed of a
    message of the history and carries the creation time of that message;
    its ign contains no space; an entry that joins the guild is a join, and
    any other entry is a join or a leave according to the colour of the
    embed. *)
Theorem saved_entries_come_from_messages (max_days : Z) (today : datetime)
    (history : list Message) (log : Log) :
  In log (save_messages max_days today history) ->
  (exists m embed others,
     In m history /\ embeds m = embed :: others
     /\ log_timestamp log = created_at m
     /\ (log_is_guild_join log = false ->
         (log_is_join log = true /\ color embed = Some JOIN_COLOR)
         \/ (log_is_join log = false /\ color embed = Some LEAVE_COLOR)))
  /\ no_space (log_ign log)
  /\ (log_is_guild_join log = true -> log_is_join log = true).
Proof.
  unfold save_messages. intros H.
  destruct (collect_entries _ _ _ _ _ _ H) as [[] | (m & e & o & msg & Hm & He & Hd & Hr)].
  apply read_embed_entry in Hr. destruct Hr as (Ht & Hs & Hg & Hc).
  split; [|split; assumption]. exists m, e, o. auto.
Qed.

Lemma saved_entries_come_from_messages_witness :
  In (mkLog (at_min 20) "Y" true true) (save_messages 60 (at_min 50) sample_history)
  /\ (exists m embed others,
        In m sample_history /\ embeds m = embed :: others
        /\ at_min 20 = created_at m
        /\ (true = false ->
            (true = true /\ color embed = Some JOIN_COLOR)
            \/ (true = false /\ color embed = Some LEAVE_COLOR)))
  /\ no_space "Y"
  /\ (true = true -> true = true).
Proof.
  assert (H : In (mkLog (at_min 20) "Y" true true)
                (save_messages 60 (at_min 50) sample_history)).
  { vm_compute. right. left. reflexivity. }
  split; [exact H|].
  exact (saved_entries_come_from_messages 60 (at_min 50) sample_history
           (mkLog (at_min 20) "Y" true true) H).
Defined.

(** ** The order of the saved log *)

Lemma collect_chronological (max_day : datetime) (history : list Message) :
  forall logs i seen,
  newest_first history ->
  chronological logs ->
  (forall m log, In m history -> In log logs -> created_at m <= log_timestamp log) ->
  chronological (collect max_day history logs i seen).
Proof.
  induction history as [|m rest IH]; intros logs i seen Hn Hc Hb; simpl; [exact Hc|].
  inversion Hn as [|? ? Hn' Hall]; subst. rewrite Forall_forall in Hall.
  assert (Hb' : forall m0 log, In m0 rest -> In log logs ->
                               created_at m0 <= log_timestamp log).
  { intros m0 log H0 H1. apply Hb; [now right | exact H1]. }
  assert (Hrest : forall i' seen', chronological (collect max_day rest logs i' seen')).
  { intros. now apply IH. }
  assert (Hcount : forall seen',
            chronological (if ((S i mod 100 =? 0)%nat && negb seen')%bool then logs
                           else collect max_day rest logs (S i) seen')).
  { intros. destruct (_ && _)%bool; [exact Hc | apply Hrest]. }
  destruct (embeds m) as [|embed others]; [apply Hcount|].
  destruct (description embed) as [msg|]; [|apply Hrest].
  destruct (read_embed msg (color embed) (created_at m)) as [|entry|] eqn:Er.
  - apply Hrest.
  - apply read_embed_entry in Er. destruct Er as (Ht & _).
    assert (Hc1 : chronological (entry :: logs)).
    { constructor; [exact Hc|]. destruct logs as [|l logs]; constructor.
      rewrite Ht. apply Hb; now left. }
    assert (Hb1 : forall m0 log, In m0 rest -> In log (entry :: logs) ->
                                 created_at m0 <= log_timestamp log).
    { intros m0 log H0 [<- | H1]; [|now apply Hb'].
      rewrite Ht. now apply Hall. }
    destruct (created_at m <? max_day); [exact Hc1|].
    destruct (_ && _)%bool; [exact Hc1 | now apply IH].
  - destruct (created_at m <? max_day); [exact Hc | apply (Hcount true)].
Qed.

(** X19.  When the history comes newest first, as [channel.history] yields
    it, the saved log is in chronological order, oldest entry first: the
    order [ActivityTracker] assumes. *)
Theorem saved_log_is_chronological (max_days : Z) (today : datetime)
    (history : list Message) :
  newest_first history ->
  chronological (save_messages max_days today history).
Proof.
  intros Hn. unfold save_messages. apply collect_chronological.
  - exact Hn.
  - constructor.
  - intros m log _ [].
Qed.

Lemma saved_log_is_chronological_witness :
  newest_first sample_history
  /\ chronological (save_messages 60 (at_min 50) sample_history).
Proof.
  assert (Hn : newest_first sample_history).
  { unfold newest_first, sample_history.
    repeat (constructor; [|repeat (constructor; [vm_compute; discriminate|]); constructor]).
    constructor. }
  split; [exact Hn|].
  exact (saved_log_is_chronological 60 (at_min 50) sample_history Hn).
Defined.

(** ** The cut-off *)

Lemma collect_within_max_days (max_day : datetime) (history : list Message) :
  forall logs i seen,
  Forall (fun log => max_day <= log_timestamp log) logs ->
  within_max_days max_day (collect max_day history logs i seen).
Proof.
  assert (Hw : forall logs, Forall (fun log => max_day <= log_timestamp log) logs ->
                            within_max_days max_day logs).
  { intros [|l logs] H; simpl; [exact I | now inversion H]. }
  induction history as [|m rest IH]; intros logs i seen Hf; simpl; [now apply Hw|].
  assert (Hcount : forall seen',
            within_max_days max_day
              (if ((S i mod 100 =? 0)%nat && negb seen')%bool then logs
               else collect max_day rest logs (S i) seen')).
  { intros. destruct (_ && _)%bool; [now apply Hw | now apply IH]. }
  destruct (embeds m) as [|embed others]; [apply Hcount|].
  destruct (description embed) as [msg|]; [|now apply IH].
  destruct (read_embed msg (color embed) (created_at m)) as [|entry|] eqn:Er.
  - now apply IH.
  - apply read_embed_entry in Er. destruct Er as (Ht & _).
    destruct (created_at m <? max_day) eqn:L; [exact Hf|].
    apply Z.ltb_ge in L.
    assert (Hf1 : Forall (fun log => max_day <= log_timestamp log) (entry :: logs)).
    { constructor; [now rewrite Ht | exact Hf]. }
    destruct (_ && _)%bool; [now apply Hw | now apply IH].
  - destruct (created_at m <? max_day); [now apply Hw | apply (Hcount true)].
Qed.

(** X20.  Whatever the order of the history, at most the first entry of the
    saved log is older than the cut-off [today - (max_days + 1) days]: the
    loop stops right after the first message it reads past the cut-off, and
    that message is still saved. *)
Theorem saved_log_within_max_days (max_days : Z) (today : datetime)
    (history : list Message) :
  within_max_days (today - timedelta_days (max_days + 1))
    (save_messages max_days today history).
Proof.
  unfold save_messages. apply collect_within_max_days. constructor.
Qed.

(** ** A hundred messages without embed *)

Lemma collect_quiet (max_day : datetime) (history : list Message) :
  forall logs i,
  (i < 100)%nat ->
  (100 - i <= List.length history)%nat ->
  Forall (fun m => embeds m = []) (firstn (100 - i) history) ->
  collect max_day history logs i false = logs.
Proof.
  induction history as [|m rest IH]; intros logs i Hi Hlen Hq.
  - cbn [List.length] in Hlen. lia.
  - cbn [List.length] in Hlen.
    destruct (100 - i)%nat as [|k] eqn:Ek; [lia|].
    cbn [firstn] in Hq. inversion Hq as [|? ? Hm Hq']; subst.
    cbn [collect]. rewrite Hm.
    destruct (Nat.eq_dec (S i) 100) as [E | E].
    + rewrite E. reflexivity.
    + replace ((S i mod 100 =? 0)%nat) with false.
      * cbn [andb]. apply IH; [lia | lia|].
        replace (100 - S i)%nat with k by lia. exact Hq'.
      * symmetry. apply Nat.eqb_neq. rewrite Nat.mod_small by lia. lia.
Qed.

(** X21.  When the first hundred messages of the history have no embed,
    nothing is saved, whatever follows them: the progress line of the
    hundredth message raises before [today] and [timestamp] exist, and the
    handler saves the empty log. *)
Theorem hundred_messages_without_embed (max_days : Z) (today : datetime)
    (history : list Message) :
  (100 <= List.length history)%nat ->
  Forall (fun m => embeds m = []) (firstn 100 history) ->
  save_messages max_days today history = [].
Proof.
  intros Hlen Hq. unfold save_messages. apply collect_quiet; auto; lia.
Qed.

Lemma hundred_messages_without_embed_witness :
  (100 <= List.length quiet_history)%nat
  /\ Forall (fun m => embeds m = []) (firstn 100 quiet_history)
  /\ save_messages 60 (at_min 50) quiet_history = [].
Proof.
  assert (Hlen : (100 <= List.length quiet_history)%nat) by (vm_compute; lia).
  assert (Hq : Forall (fun m => embeds m = []) (firstn 100 quiet_history)).
  { change (firstn 100 quiet_history) with (repeat (mkMessage [] (at_min 10)) 100).
    apply Forall_forall. intros m Hm. apply repeat_spec in Hm. now subst. }
  split; [exact Hlen|]. split; [exact Hq|].
  exact (hundred_messages_without_embed 60 (at_min 50) quiet_history Hlen Hq).
Defined.

Example load_guild_list_sample :
  load_guild_list sample_roster_lines
  = Some [ (ascii_text "Raw Egg", [ascii_text "c"]);
           (ascii_text "Hard Boiled Egg", [ascii_text "d"]) ].
Proof. vm_compute. reflexivity. Qed.
(* ================================================================== *)
(** * Properties of the loaders of the text files *)

(** ** Stripping *)

Lemma lstrip_spec (s : ustr) :
  exists w, s = w ++ lstrip s /\ Forall (fun c => is_space c = true) w.
Proof.
  induction s as [|c s IH]; simpl.
  - exists []. auto.
  - destruct (is_space c) eqn:E.
    + destruct IH as (w & Hs & Hw). exists (c :: w). split.
      * simpl. now f_equal.
      * now constructor.
    + exists []. auto.
Qed.

Lemma lstrip_head (s : ustr) (c : N) (rest : ustr) :
  lstrip s = c :: rest -> is_space c = false.
Proof.
  induction s as [|d s IH]; simpl; [discriminate|].
  destruct (is_space d) eqn:E; [exact IH|].
  intros H. inversion H; subst. exact E.
Qed.

Lemma lstrip_fix (s : ustr) :
  (forall c rest, s = c :: rest -> is_space c = false) -> lstrip s = s.
Proof.
  destruct s as [|c s]; simpl; [reflexivity|].
  intros H. now rewrite (H c s eq_refl).
Qed.

Lemma lstrip_idem (s : ustr) : lstrip (lstrip s) = lstrip s.
Proof.
  apply lstrip_fix. intros c rest H. eapply lstrip_head; eauto.
Qed.

Lemma rstrip_spec (s : ustr) :
  exists w, s = rstrip s ++ w /\ Forall (fun c => is_space c = true) w.
Proof.
  unfold rstrip. destruct (lstrip_spec (rev s)) as (w & Hs & Hw).
  exists (rev w). split.
  - rewrite <- rev_app_distr, <- Hs. now rewrite rev_involutive.
  - apply Forall_rev. exact Hw.
Qed.

Lemma rstrip_idem (s : ustr) : rstrip (rstrip s) = rstrip s.
Proof.
  unfold rstrip. now rewrite rev_involutive, lstrip_idem.
Qed.

Lemma strip_parts (s : ustr) :
  exists before after, s = before ++ strip s ++ after.
Proof.
  unfold strip. destruct (lstrip_spec s) as (w1 & H1 & _).
  destruct (rstrip_spec (lstrip s)) as (w2 & H2 & _).
  exists w1, w2. now rewrite <- H2.
Qed.

Lemma strip_In (s : ustr) (c : N) : In c (strip s) -> In c s.
Proof.
  destruct (strip_parts s) as (b & a & H). intros Hc.
  rewrite H. apply in_or_app. right. apply in_or_app. now left.
Qed.

Lemma strip_idem (s : ustr) : strip (strip s) = strip s.
Proof.
  unfold strip at 1.
  assert (H : lstrip (strip s) = strip s).
  { apply lstrip_fix. intros c rest E. unfold strip in E.
    destruct (rstrip_spec (lstrip s)) as (w & Hs & _).
    rewrite E in Hs. simpl in Hs. eapply lstrip_head; eauto. }
  rewrite H. unfold strip. apply rstrip_idem.
Qed.

Lemma split_on_no_sep (sep : N) (s : ustr) :
  forall piece, In piece (split_on sep s) -> ~ In sep piece.
Proof.
  induction s as [|c s IH]; simpl; intros piece H.
  - destruct H as [<- | []]. intros [].
  - destruct (N.eqb c sep) eqn:E.
    + destruct H as [<- | H]; [intros [] | now apply IH].
    + apply N.eqb_neq in E.
      destruct (split_on sep s) as [|p ps] eqn:S.
      * destruct H as [<- | []]. intros [H | []]. congruence.
      * destruct H as [<- | H].
        -- intros [H | H]; [congruence|]. apply (IH p); [now left | exact H].
        -- apply IH. now right.
Qed.

(** ** The igns of the roster *)

Lemma members_of_line_clean (line : ustr) (ign : ustr) :
  In ign (members_of_line line) -> clean_ign ign.
Proof.
  unfold members_of_line. intros H. apply filter_In in H. destruct H as [H Hne].
  apply in_map_iff in H. destruct H as (piece & <- & Hp).
  split; [|split].
  - intros E. rewrite E in Hne. discriminate.
  - apply strip_idem.
  - intros Hb. apply strip_In in Hb. exact (split_on_no_sep _ _ _ Hp Hb).
Qed.

Lemma udict_set_In {V} (d : udict V) (k : ustr) (v : V) (k' : ustr) (v' : V) :
  In (k', v') (udict_set d k v) -> v' = v \/ In (k', v') d.
Proof.
  induction d as [|[k0 v0] d IH]; simpl.
  - intros [H | []]. inversion H. now left.
  - destruct (ustr_eqb k k0).
    + intros [H | H]; [inversion H; now left | right; now right].
    + intros [H | H]; [right; now left|].
      destruct (IH H) as [-> | H']; [now left | right; now right].
Qed.

Lemma parse_sections_clean (lines : list ustr) :
  forall current_rank guild_list,
  clean_guild_list guild_list ->
  clean_guild_list (parse_sections current_rank guild_list lines).
Proof.
  induction lines as [|line rest IH]; simpl; intros r d Hd; [exact Hd|].
  destruct (is_rank_line line); [now apply IH|].
  destruct (is_member_line line); [|exact Hd].
  apply IH. intros rank igns ign Hin Hign.
  apply udict_set_In in Hin. destruct Hin as [-> | Hin].
  - eapply members_of_line_clean; eauto.
  - eapply Hd; eauto.
Qed.

(** X22.  Every ign [load_guild_list] returns is not empty, has no white
    space at either end and contains no bullet. *)
Theorem roster_igns_are_clean (lines : list ustr) (guild_list : udict (list ustr))
    (rank : ustr) (igns : list ustr) (ign : ustr) :
  load_guild_list lines = Some guild_list ->
  In (rank, igns) guild_list ->
  In ign igns ->
  ign <> [] /\ strip ign = ign /\ ~ In BULLET ign.
Proof.
  unfold load_guild_list.
  destruct (skip_header lines) as [[line rest]|]; [|discriminate].
  intros H. inversion H; subst; clear H.
  apply (parse_sections_clean rest (rank_of_line line) []).
  intros r i x [].
Qed.

Lemma roster_igns_are_clean_witness :
  load_guild_list sample_roster_lines
  = Some [ (ascii_text "Raw Egg", [ascii_text "c"]);
           (ascii_text "Hard Boiled Egg", [ascii_text "d"]) ]
  /\ In (ascii_text "Raw Egg", [ascii_text "c"])
       [ (ascii_text "Raw Egg", [ascii_text "c"]);
         (ascii_text "Hard Boiled Egg", [ascii_text "d"]) ]
  /\ In (ascii_text "c") [ascii_text "c"]
  /\ ascii_text "c" <> [] /\ strip (ascii_text "c") = ascii_text "c"
  /\ ~ In BULLET (ascii_text "c").
Proof.
  assert (H1 : load_guild_list sample_roster_lines
               = Some [ (ascii_text "Raw Egg", [ascii_text "c"]);
                        (ascii_text "Hard Boiled Egg", [ascii_text "d"]) ])
    by (vm_compute; reflexivity).
  assert (H2 : In (ascii_text "Raw Egg", [ascii_text "c"])
                 [ (ascii_text "Raw Egg", [ascii_text "c"]);
                   (ascii_text "Hard Boiled Egg", [ascii_text "d"]) ])
    by (left; reflexivity).
  assert (H3 : In (ascii_text "c") [ascii_text "c"]) by (left; reflexivity).
  split; [exact H1|]. split; [exact H2|]. split; [exact H3|].
  exact (roster_igns_are_clean sample_roster_lines _ _ _ _ H1 H2 H3).
Defined.

(** ** A roster file without ranks *)

Lemma skip_header_None (lines : list ustr) :
  skip_header lines = None <-> Forall (fun line => is_rank_line line = false) lines.
Proof.
  induction lines as [|line rest IH]; simpl.
  - split; [constructor | reflexivity].
  - destruct (is_rank_line line) eqn:E.
    + split; [discriminate|]. intros H. inversion H; subst. congruence.
    + rewrite IH. split; [now constructor | intros H; now inversion H].
Qed.

(** X23.  [load_guild_list] ends with the [StopIteration] of [next] exactly
    when no line of the file starts with "--" - an empty file included;
    and the lines before the first such line do not count. *)
Theorem roster_without_rank_line (lines : list ustr) :
  (load_guild_list lines = None <->
   Forall (fun line => is_rank_line line = false) lines)
  /\ (forall header,
        Forall (fun line => is_rank_line line = false) header ->
        load_guild_list (header ++ lines) = load_guild_list lines).
Proof.
  split.
  - rewrite <- skip_header_None. unfold load_guild_list.
    destruct (skip_header lines) as [[line rest]|]; split; congruence.
  - intros header Hh. unfold load_guild_list.
    replace (skip_header (header ++ lines)) with (skip_header lines); [reflexivity|].
    induction Hh as [|l h Hl Hh IH]; simpl; [reflexivity|]. now rewrite Hl.
Qed.

(** ** Lines of members, and the end of the roster *)

Lemma ustr_eqb_refl (s : ustr) : ustr_eqb s s = true.
Proof.
  induction s as [|c s IH]; simpl; [reflexivity|]. now rewrite N.eqb_refl.
Qed.

Lemma udict_set_set {V} (d : udict V) (k : ustr) (v1 v2 : V) :
  udict_set (udict_set d k v1) k v2 = udict_set d k v2.
Proof.
  induction d as [|[k0 v0] d IH]; simpl.
  - now rewrite ustr_eqb_refl.
  - destruct (ustr_eqb k k0) eqn:E; simpl; rewrite E; [reflexivity | now rewrite IH].
Qed.

Lemma parse_sections_two_member_lines (l1 l2 : ustr) (rest : list ustr) :
  is_rank_line l1 = false -> is_member_line l1 = true ->
  is_rank_line l2 = false -> is_member_line l2 = true ->
  forall before current_rank guild_list,
  parse_sections current_rank guild_list (before ++ l1 :: l2 :: rest)
  = parse_sections current_rank guild_list (before ++ l2 :: rest).
Proof.
  intros R1 M1 R2 M2.
  induction before as [|line before IH]; intros r d; simpl.
  - rewrite R1, M1, R2, M2. now rewrite udict_set_set.
  - destruct (is_rank_line line); [apply IH|].
    destruct (is_member_line line); [apply IH | reflexivity].
Qed.

(** X24.  Of two lines of members that follow each other only the second
    counts: the igns of the first are dropped from the roster, wherever in
    the file the two lines are. *)
Theorem second_member_line_replaces_first (before rest : list ustr) (l1 l2 : ustr) :
  is_rank_line l1 = false -> is_member_line l1 = true ->
  is_rank_line l2 = false -> is_member_line l2 = true ->
  load_guild_list (before ++ l1 :: l2 :: rest) = load_guild_list (before ++ l2 :: rest).
Proof.
  intros R1 M1 R2 M2. unfold load_guild_list.
  induction before as [|line before IH]; simpl.
  - rewrite R1, R2. clear.
    induction rest as [|x rest IH]; simpl; [reflexivity|].
    destruct (is_rank_line x); [reflexivity | exact IH].
  - destruct (is_rank_line line); [|exact IH].
    f_equal. now apply parse_sections_two_member_lines.
Qed.

Lemma second_member_line_replaces_first_witness :
  is_rank_line ([BULLET] ++ ascii_text " a " ++ [BULLET] ++ ascii_text " b ") = false
  /\ is_member_line ([BULLET] ++ ascii_text " a " ++ [BULLET] ++ ascii_text " b ") = true
  /\ is_rank_line ([BULLET] ++ ascii_text " c ") = false
  /\ is_member_line ([BULLET] ++ ascii_text " c ") = true
  /\ load_guild_list
       ([ascii_text "Guild members"; ascii_text "-- Raw Egg --"]
        ++ ([BULLET] ++ ascii_text " a " ++ [BULLET] ++ ascii_text " b ")
        :: ([BULLET] ++ ascii_text " c ") :: [])
     = load_guild_list
         ([ascii_text "Guild members"; ascii_text "-- Raw Egg --"]
          ++ ([BULLET] ++ ascii_text " c ") :: []).
Proof.
  split; [reflexivity|]. split; [reflexivity|]. split; [reflexivity|].
  split; [reflexivity|].
  exact (second_member_line_replaces_first
           [ascii_text "Guild members"; ascii_text "-- Raw Egg --"] []
           ([BULLET] ++ ascii_text " a " ++ [BULLET] ++ ascii_text " b ")
           ([BULLET] ++ ascii_text " c ") eq_refl eq_refl eq_refl eq_refl).
Defined.

Lemma parse_sections_stops (x : ustr) (rest : list ustr) :
  is_rank_line x = false -> is_member_line x = false ->
  forall before current_rank guild_list,
  parse_sections current_rank guild_list (before ++ x :: rest)
  = parse_sections current_rank guild_list before.
Proof.
  intros R M. induction before as [|line before IH]; intros r d; simpl.
  - now rewrite R, M.
  - destruct (is_rank_line line); [apply IH|].
    destruct (is_member_line line); [apply IH | reflexivity].
Qed.

(** X25.  Once a rank line has been read, the first line that is neither a
    rank line nor a line of members - a blank line, say - ends the roster:
    that line and everything after it, further ranks included, have no
    effect on the result. *)
Theorem roster_ends_at_first_other_line (before rest : list ustr) (x : ustr) :
  existsb is_rank_line before = true ->
  is_rank_line x = false -> is_member_line x = false ->
  load_guild_list (before ++ x :: rest) = load_guild_list before.
Proof.
  intros Hb R M. unfold load_guild_list.
  induction before as [|line before IH]; simpl in *; [discriminate|].
  destruct (is_rank_line line); [|now apply IH].
  f_equal. now apply parse_sections_stops.
Qed.

Lemma roster_ends_at_first_other_line_witness :
  existsb is_rank_line [ascii_text "-- Raw Egg --"; [BULLET] ++ ascii_text " c "] = true
  /\ is_rank_line [10%N] = false
  /\ is_member_line [10%N] = false
  /\ load_guild_list
       ([ascii_text "-- Raw Egg --"; [BULLET] ++ ascii_text " c "]
        ++ [10%N] :: [ascii_text "-- Scrambled Egg --"; [BULLET] ++ ascii_text " e"])
     = load_guild_list [ascii_text "-- Raw Egg --"; [BULLET] ++ ascii_text " c "].
Proof.
  split; [reflexivity|]. split; [reflexivity|]. split; [reflexivity|].
  exact (roster_ends_at_first_other_line
           [ascii_text "-- Raw Egg --"; [BULLET] ++ ascii_text " c "]
           [ascii_text "-- Scrambled Egg --"; [BULLET] ++ ascii_text " e"]
           [10%N] eq_refl eq_refl eq_refl).
Defined.

(** ** The two loaders of the roster agree *)

Lemma map_strip_clean (igns : list ustr) :
  (forall ign, In ign igns -> stripped ign) -> map strip igns = igns.
Proof.
  induction igns as [|ign igns IH]; simpl; intros H; [reflexivity|].
  rewrite (H ign (or_introl eq_refl)), IH; auto.
Qed.

(** X26.  [load_guild_list] of update_active_roles.py returns the igns that
    [ActivityTracker.load_guild_list] returns, rank after rank in the order
    of the file, and fails when it fails: its own stripping changes
    nothing. *)
Theorem roles_roster_is_flat_tracker_roster (lines : list ustr) :
  roles_load_guild_list lines
  = match load_guild_list lines with
    | None => None
    | Some guild_list => Some (List.concat (map snd guild_list))
    end.
Proof.
  unfold roles_load_guild_list.
  destruct (load_guild_list lines) as [d|] eqn:E; [|reflexivity].
  f_equal. apply map_strip_clean. intros ign Hin.
  apply in_concat in Hin. destruct Hin as (igns & Higns & Hign).
  apply in_map_iff in Higns. destruct Higns as ([rank igns'] & <- & Hd).
  unfold load_guild_list in E.
  destruct (skip_header lines) as [[line rest]|]; [|discriminate].
  inversion E; subst; clear E.
  assert (Hc : clean_guild_list (parse_sections (rank_of_line line) [] rest)).
  { apply parse_sections_clean. intros r i x []. }
  exact (proj1 (proj2 (Hc rank igns' ign Hd Hign))).
Qed.

(** X27.  Every name [load_active_list] returns is not empty and has no
    white space at either end. *)
Theorem active_list_names_are_clean (f : opened (list ustr)) (names : list ustr)
    (name : ustr) :
  load_active_list f = Some names ->
  In name names ->
  name <> [] /\ strip name = name.
Proof.
  destruct f as [| |lines]; simpl; intros E H; inversion E; subst; clear E;
    [destruct H|].
  apply in_map_iff in H. destruct H as (line & <- & Hl).
  apply filter_In in Hl. destruct Hl as [_ Hne]. split.
  - intros E. rewrite E in Hne. discriminate.
  - apply strip_idem.
Qed.

Lemma active_list_names_are_clean_witness :
  load_active_list (Opened sample_active_lines) = Some [ascii_text "X"; ascii_text "Y"]
  /\ In (ascii_text "X") [ascii_text "X"; ascii_text "Y"]
  /\ ascii_text "X" <> [] /\ strip (ascii_text "X") = ascii_text "X".
Proof.
  assert (H1 : load_active_list (Opened sample_active_lines)
               = Some [ascii_text "X"; ascii_text "Y"]) by (vm_compute; reflexivity).
  assert (H2 : In (ascii_text "X") [ascii_text "X"; ascii_text "Y"])
    by (left; reflexivity).
  split; [exact H1|]. split; [exact H2|].
  exact (active_list_names_are_clean (Opened sample_active_lines) _ _ H1 H2).
Defined.

Example load_sb_level_list_sample :
  load_sb_level_list sample_to_float sample_level_lines
  = inr [ (ascii_text "X", Finite (inject_Z 250));
          (ascii_text "Y", Finite (inject_Z 100)) ].
Proof. vm_compute. reflexivity. Qed.

(** ** The level file *)

Lemma split_on_In (sep : N) (s : ustr) :
  forall piece c, In piece (split_on sep s) -> In c piece -> In c s.
Proof.
  induction s as [|d s IH]; simpl; intros piece c H Hc.
  - destruct H as [<- | []]. destruct Hc.
  - destruct (N.eqb d sep).
    + destruct H as [<- | H]; [destruct Hc | right; eapply IH; eauto].
    + destruct (split_on sep s) as [|p ps] eqn:S.
      * destruct H as [<- | []]. destruct Hc as [<- | []]. now left.
      * destruct H as [<- | H].
        -- destruct Hc as [<- | Hc]; [now left | right].
           apply (IH p); [now left | exact Hc].
        -- right. apply (IH piece); [now right | exact Hc].
Qed.

Lemma read_level_line_key (to_float : ustr -> option pyfloat) (line ign : ustr)
    (level : pyfloat) :
  read_level_line to_float line = inr (ign, level) ->
  ~ In SPACE ign /\ ~ In COLON ign.
Proof.
  unfold read_level_line.
  destruct (split_on COLON line) as [|label [|value more]] eqn:S; try discriminate.
  destruct (split_on SPACE (strip label)) as [|w0 [|w1 ws]] eqn:W; try discriminate.
  destruct (to_float _); [|discriminate].
  intros H. inversion H; subst; clear H.
  assert (Hign : In ign (split_on SPACE (strip label))) by (rewrite W; right; now left).
  split.
  - exact (split_on_no_sep _ _ _ Hign).
  - intros Hc. apply (split_on_In _ _ _ _ Hign) in Hc. apply strip_In in Hc.
    apply (split_on_no_sep COLON line label); [rewrite S; now left | exact Hc].
Qed.

Lemma udict_set_keys_In {V} (d : udict V) (k : ustr) (v : V) (k' : ustr) :
  In k' (map fst (udict_set d k v)) -> k' = k \/ In k' (map fst d).
Proof.
  induction d as [|[k0 v0] d IH]; simpl.
  - intros [<- | []]. now left.
  - destruct (ustr_eqb k k0); simpl.
    + tauto.
    + intros [<- | H]; [right; now left|].
      destruct (IH H); [now left | right; now right].
Qed.

Lemma load_level_lines_keys (to_float : ustr -> option pyfloat) (lines : list ustr) :
  forall sb_levels loaded,
  (forall k, In k (map fst sb_levels) -> ~ In SPACE k /\ ~ In COLON k) ->
  load_level_lines to_float sb_levels lines = inr loaded ->
  forall k, In k (map fst loaded) -> ~ In SPACE k /\ ~ In COLON k.
Proof.
  induction lines as [|line rest IH]; simpl; intros d loaded Hd H.
  - now inversion H; subst.
  - destruct (has_char COLON line); [|now apply (IH d)].
    destruct (read_level_line to_float line) as [e|[ign level]] eqn:R; [discriminate|].
    apply (IH (udict_set d ign level) loaded); [|exact H].
    intros k Hk. apply udict_set_keys_In in Hk. destruct Hk as [-> | Hk].
    + eapply read_level_line_key; eauto.
    + now apply Hd.
Qed.

(** X28.  Whatever [float] accepts, the names under which
    [load_sb_level_list] stores levels contain no space and no colon: each
    is the second word of the text before the first colon of its line. *)
Theorem level_names_have_no_space (to_float : ustr -> option pyfloat)
    (lines : list ustr) (sb_levels : udict pyfloat) (name : ustr) :
  load_sb_level_list to_float lines = inr sb_levels ->
  In name (map fst sb_levels) ->
  ~ In SPACE name /\ ~ In COLON name.
Proof.
  unfold load_sb_level_list. intros H.
  apply (load_level_lines_keys to_float lines [] sb_levels); [|exact H].
  intros k [].
Qed.

Lemma level_names_have_no_space_witness :
  load_sb_level_list sample_to_float sample_level_lines
  = inr [ (ascii_text "X", Finite (inject_Z 250));
          (ascii_text "Y", Finite (inject_Z 100)) ]
  /\ In (ascii_text "X")
       (map fst [ (ascii_text "X", Finite (inject_Z 250));
                  (ascii_text "Y", Finite (inject_Z 100)) ])
  /\ ~ In SPACE (ascii_text "X") /\ ~ In COLON (ascii_text "X").
Proof.
  assert (H1 : load_sb_level_list sample_to_float sample_level_lines
               = inr [ (ascii_text "X", Finite (inject_Z 250));
                       (ascii_text "Y", Finite (inject_Z 100)) ])
    by (vm_compute; reflexivity).
  assert (H2 : In (ascii_text "X")
                 (map fst [ (ascii_text "X", Finite (inject_Z 250));
                            (ascii_text "Y", Finite (inject_Z 100)) ]))
    by (left; reflexivity).
  split; [exact H1|]. split; [exact H2|].
  exact (level_names_have_no_space sample_to_float sample_level_lines _ _ H1 H2).
Defined.

Lemma split_on_one_piece (sep : N) (s : ustr) :
  has_char sep s = false -> split_on sep s = [s].
Proof.
  unfold has_char. induction s as [|c s IH]; simpl; [reflexivity|].
  intros H. apply Bool.orb_false_iff in H. destruct H as [Hc Hs].
  rewrite N.eqb_sym, Hc, (IH Hs). reflexivity.
Qed.

Lemma split_on_nonempty (sep : N) (s : ustr) : split_on sep s <> [].
Proof.
  destruct s as [|c s]; simpl; [discriminate|].
  destruct (N.eqb c sep); [discriminate|].
  destruct (split_on sep s); discriminate.
Qed.

Lemma split_on_two (sep : N) (s : ustr) :
  has_char sep s = true -> exists a b more, split_on sep s = a :: b :: more.
Proof.
  unfold has_char. induction s as [|c s IH]; simpl; [discriminate|].
  rewrite N.eqb_sym. destruct (N.eqb c sep); simpl.
  - intros _. pose proof (split_on_nonempty sep s) as Hne.
    destruct (split_on sep s) as [|p ps]; [contradiction|]. eauto.
  - intros H. destruct (IH H) as (a & b & m & ->). eauto.
Qed.

(** X29.  A line of the level file with a colon, whose text before the
    first colon is a single word once stripped, makes [load_sb_level_list]
    raise [IndexError] - whatever follows on the line and in the file - as
    soon as the lines before it have been read without error. *)
Theorem level_line_needs_two_words (to_float : ustr -> option pyfloat)
    (before rest : list ustr) (line label : ustr) (more : list ustr)
    (sb_levels : udict pyfloat) :
  load_sb_level_list to_float before = inr sb_levels ->
  has_char COLON line = true ->
  split_on COLON line = label :: more ->
  has_char SPACE (strip label) = false ->
  load_sb_level_list to_float (before ++ line :: rest) = inl LevelIndexError.
Proof.
  unfold load_sb_level_list. intros Hb Hc Hs Hl.
  assert (Hline : read_level_line to_float line = inl LevelIndexError
                  \/ read_level_line to_float line = inl LevelValueError /\ more = []).
  { unfold read_level_line. rewrite Hs. destruct more as [|value more']; [now right|].
    left. now rewrite (split_on_one_piece _ _ Hl). }
  assert (Hmore : more <> []).
  { destruct (split_on_two _ _ Hc) as (a & b & m & E).
    rewrite Hs in E. inversion E. discriminate. }
  destruct Hline as [Hline | [_ Hm]]; [|contradiction].
  generalize dependent (@nil (ustr * pyfloat)).
  induction before as [|l before IH]; simpl; intros d Hb.
  - now rewrite Hc, Hline.
  - destruct (has_char COLON l); [|now apply IH].
    destruct (read_level_line to_float l) as [e|[ign level]]; [discriminate|].
    now apply IH.
Qed.

Lemma level_line_needs_two_words_witness :
  load_sb_level_list sample_to_float [ascii_text "1. X: 250 levels"]
  = inr [(ascii_text "X", Finite (inject_Z 250))]
  /\ has_char COLON (ascii_text "Y: 100 levels") = true
  /\ split_on COLON (ascii_text "Y: 100 levels")
     = ascii_text "Y" :: [ascii_text " 100 levels"]
  /\ has_char SPACE (strip (ascii_text "Y")) = false
  /\ load_sb_level_list sample_to_float
       ([ascii_text "1. X: 250 levels"] ++ ascii_text "Y: 100 levels" :: [])
     = inl LevelIndexError.
Proof.
  split; [vm_compute; reflexivity|]. split; [reflexivity|]. split; [reflexivity|].
  split; [reflexivity|].
  exact (level_line_needs_two_words sample_to_float [ascii_text "1. X: 250 levels"] []
           (ascii_text "Y: 100 levels") (ascii_text "Y") [ascii_text " 100 levels"]
           [(ascii_text "X", Finite (inject_Z 250))]
           ltac:(vm_compute; reflexivity) eq_refl eq_refl eq_refl).
Defined.
